(** * sample-agentic-platform: a shallow embedding of the first-party logic

    Part I models the Python sources, one module for each:

    - [PyStr]: the operations of Python's [str] and lists that the sources
      use ([in], [startswith], [endswith], [find], [split], [join], [strip],
      [replace], [len], slices, [os.path.basename]);
    - [PyRe]: the fragment of the [re] module that the sources use, as a
      backtracking matcher, with [search] and [sub];
    - [Py]: exceptions, and the state-and-error monad of effectful code;
    - [Models]: requests, responses and streaming events;
    - [MultiAgentChatAgent], [StrandsMultiAgentChatAgent]:
      [multi_agent_chat_agent.py];
    - [MultiAgentChatController]: [multi_agent_chat_controller.py];
    - [KbTool]: [kb_tool.py];
    - [ChatController]: [chat_controller.py];
    - [CleanResponse], [GenerateSummaries]: [generate_summaries.py];
    - [Samples]: concrete inputs and environments.

    Part II states and proves the properties.

    A Python [str] is modelled as a [string]; a non-ASCII character is the
    sequence of its UTF-8 bytes.  The keywords, markers and patterns the
    sources search for are ASCII, and an ASCII text occurs in a UTF-8 text
    at the same places bytewise and characterwise.  [len] counts
    characters: the bytes that are not continuation bytes.  White space is
    the ASCII white space.  What the sources print is not modelled.  The
    external services (the agent framework, the chat graph, Bedrock, the
    file system) are parameters that return a value or raise. *)

From Stdlib Require Import String Ascii List ZArith Lia Bool Sorted.
From Stdlib Require DecimalString.
Import ListNotations.
Open Scope string_scope.

(* ================================================================== *)
(** * Part I: the model                                                 *)
(* ================================================================== *)

(** ** Python string operations *)

Module PyStr.

(** [s.startswith(p)] *)
Definition startswith (s p : string) : bool := prefix p s.

(** [sub in s]: [sub] occurs in [s] at some position. *)
Fixpoint contains (sub s : string) : bool :=
  match s with
  | EmptyString => prefix sub EmptyString
  | String _ s' => prefix sub s || contains sub s'
  end.

(** The declarative reading of [sub in s]. *)
Definition Substring (sub s : string) : Prop :=
  exists pre post, s = pre ++ sub ++ post.

(** [sep.join(parts)] *)
Definition join (sep : string) (parts : list string) : string :=
  String.concat sep parts.

(** ASCII case folding, the instance of [str.lower] used in the examples. *)
Definition lower_ascii (c : ascii) : ascii :=
  let n := nat_of_ascii c in
  if (65 <=? n)%nat && (n <=? 90)%nat then ascii_of_nat (n + 32) else c.

Fixpoint lower (s : string) : string :=
  match s with
  | EmptyString => EmptyString
  | String c s' => String (lower_ascii c) (lower s')
  end.

(** A continuation byte of UTF-8, [10xxxxxx]: every byte of the encoding of
    a character but its first. *)
Definition is_continuation (c : ascii) : bool :=
  let n := nat_of_ascii c in
  ((128 <=? n) && (n <? 192))%nat.

(** The number of characters of a text: the bytes of its encoding that
    start a character. *)
Fixpoint char_count (s : string) : nat :=
  match s with
  | EmptyString => 0
  | String c s' => (if is_continuation c then 0 else 1) + char_count s'
  end.

(** [len(s)]: the number of characters of [s], not of its bytes. *)
Definition len (s : string) : Z := Z.of_nat (char_count s).

(** The newline character and the one-character string ["\n"]. *)
Definition nl : ascii := "010"%char.
Definition NL : string := String nl "".

(** [str.isspace] on the ASCII range: tab, line feed, vertical tab, form
    feed, carriage return, the four separators 28-31 and the space.  The
    regular-expression class [\s] is the same set. *)
Definition is_space (c : ascii) : bool :=
  let n := nat_of_ascii c in
  ((9 <=? n) && (n <=? 13) || (28 <=? n) && (n <=? 32))%nat.

Fixpoint lstrip (s : string) : string :=
  match s with
  | EmptyString => EmptyString
  | String c s' => if is_space c then lstrip s' else s
  end.

Fixpoint rstrip (s : string) : string :=
  match s with
  | EmptyString => EmptyString
  | String c s' =>
      match rstrip s' with
      | EmptyString => if is_space c then EmptyString else String c EmptyString
      | kept => String c kept
      end
  end.

(** [s.strip()] *)
Definition strip (s : string) : string := rstrip (lstrip s).

(** [s[n:]] and [s[:n]] for an index that is not negative. *)
Fixpoint drop (n : nat) (s : string) : string :=
  match n, s with
  | S n', String _ s' => drop n' s'
  | _, _ => s
  end.

Fixpoint take (n : nat) (s : string) : string :=
  match n, s with
  | S n', String c s' => String c (take n' s')
  | _, _ => EmptyString
  end.

(** [s.find(sub)]: the least index at which [sub] occurs, [-1] if none. *)
Fixpoint find (sub s : string) : Z :=
  if prefix sub s then 0%Z
  else match s with
       | EmptyString => (-1)%Z
       | String _ s' =>
           let i := find sub s' in
           if (i <? 0)%Z then (-1)%Z else (i + 1)%Z
       end.

(** [s[start:]], for a start of either sign.  Positions are counted as
    [find] counts them, in bytes. *)
Definition slice_from (start : Z) (s : string) : string :=
  if (start <? 0)%Z
  then drop (Z.to_nat (Z.of_nat (String.length s) + start)) s
  else drop (Z.to_nat start) s.

(** [s.split('\n')]: the lines of [s], never the empty list. *)
Fixpoint split_lines (s : string) : list string :=
  match s with
  | EmptyString => [EmptyString]
  | String c s' =>
      if Ascii.eqb c nl then EmptyString :: split_lines s'
      else match split_lines s' with
           | line :: lines => String c line :: lines
           | [] => [String c EmptyString]
           end
  end.

(** [s.replace(old, new)] for a non-empty [old]: the occurrences of [old]
    are replaced from left to right; [skip] characters of [s] belong to the
    occurrence just replaced. *)
Fixpoint replace_from (old new : string) (skip : nat) (s : string) : string :=
  match s with
  | EmptyString => EmptyString
  | String c s' =>
      match skip with
      | S skip' => replace_from old new skip' s'
      | 0 =>
          if prefix old s
          then new ++ replace_from old new (String.length old - 1) s'
          else String c (replace_from old new 0 s')
      end
  end.

Definition replace (s old new : string) : string := replace_from old new 0 s.

(** [os.path.basename(p)]: what follows the last slash. *)
Fixpoint basename (p : string) : string :=
  match p with
  | EmptyString => EmptyString
  | String c p' =>
      if contains "/" p' then basename p'
      else if Ascii.eqb c "/" then p' else p
  end.

(** [str(n)] for a count. *)
Definition str_of_nat (n : nat) : string :=
  DecimalString.NilZero.string_of_uint (Nat.to_uint n).

(** [l[:n]] and [l[n:]] for an index of either sign. *)
Definition upto {A : Type} (n : Z) (l : list A) : list A :=
  if (n <? 0)%Z
  then firstn (List.length l - Z.to_nat (- n)) l
  else firstn (Z.to_nat n) l.

Definition from {A : Type} (n : Z) (l : list A) : list A :=
  if (n <? 0)%Z
  then skipn (List.length l - Z.to_nat (- n)) l
  else skipn (Z.to_nat n) l.

(** A text without a line feed. *)
Fixpoint one_line (s : string) : bool :=
  match s with
  | EmptyString => true
  | String c s' => negb (Ascii.eqb c nl) && one_line s'
  end.

(** [s.endswith(suffix)] *)
Fixpoint endswith (s suffix : string) : bool :=
  String.eqb s suffix ||
  match s with
  | EmptyString => false
  | String _ s' => endswith s' suffix
  end.

(** [s.split(sep)] for a separator of one character: the fields of [s],
    never the empty list. *)
Fixpoint split_on (sep : ascii) (s : string) : list string :=
  match s with
  | EmptyString => [EmptyString]
  | String c s' =>
      if Ascii.eqb c sep then EmptyString :: split_on sep s'
      else match split_on sep s' with
           | field :: fields => String c field :: fields
           | [] => [String c EmptyString]
           end
  end.

(** [x in l] for a list of strings. *)
Definition in_list (x : string) (l : list string) : bool :=
  existsb (String.eqb x) l.

(** The number of occurrences of a character. *)
Fixpoint count_char (c : ascii) (s : string) : nat :=
  match s with
  | EmptyString => 0
  | String d s' => (if Ascii.eqb d c then 1 else 0) + count_char c s'
  end.

End PyStr.

(** ** Regular expressions: the fragment of Python's [re] the sources use

    [re] is a backtracking matcher: alternatives are tried in order, a
    greedy star tries the longest repetition first and a lazy one the
    shortest, and the first way that lets the rest of the pattern match is
    the match.  The matcher below is written in that style, with the rest of
    the pattern as a continuation. *)

Module PyRe.
Import PyStr.

Inductive regex :=
| Lit (text : string)                          (* literal text *)
| StarOf (cls : ascii -> bool) (greedy : bool) (* [c*] or [c*?] over a class *)
| Bol                                          (* [^] without MULTILINE *)
| Alt (r1 r2 : regex)                          (* [r1|r2] *)
| Seq (r1 r2 : regex)
| Group (n : nat) (r : regex).                 (* the n-th capturing group *)

(** [.] under DOTALL and [\s]. *)
Definition any_char : ascii -> bool := fun _ => true.
Definition space : ascii -> bool := is_space.

(** [w1|w2|...|wn] for literal words. *)
Fixpoint one_of (words : list string) : regex :=
  match words with
  | [] => Lit ""
  | [w] => Lit w
  | w :: rest => Alt (Lit w) (one_of rest)
  end.

(** The text captured by each group, most recent first. *)
Definition groups := list (nat * string).

Fixpoint group (n : nat) (g : groups) : option string :=
  match g with
  | [] => None
  | (k, text) :: rest => if Nat.eqb k n then Some text else group n rest
  end.

(** [s] without its prefix [p], when it has that prefix. *)
Fixpoint after_prefix (p s : string) : option string :=
  match p, s with
  | EmptyString, _ => Some s
  | String a p', String b s' =>
      if Ascii.eqb a b then after_prefix p' s' else None
  | String _ _, EmptyString => None
  end.

Section Matcher.

(** What a successful match reports. *)
Variable R : Type.

(** [star cls greedy pos s k]: repeat the class from position [pos], where
    the text still to read is [s], and continue with [k]. *)
Fixpoint star (cls : ascii -> bool) (greedy : bool) (pos : nat) (s : string)
  (k : nat -> string -> option R) : option R :=
  match s with
  | EmptyString => k pos s
  | String c s' =>
      if cls c then
        if greedy then
          match star cls greedy (S pos) s' k with
          | Some found => Some found
          | None => k pos s
          end
        else
          match k pos s with
          | Some found => Some found
          | None => star cls greedy (S pos) s' k
          end
      else k pos s
  end.

(** [m r pos s g k]: match [r] at position [pos] of the subject, where the
    text still to read is [s] and the groups captured so far are [g]; [k]
    is the rest of the pattern. *)
Fixpoint m (r : regex) (pos : nat) (s : string) (g : groups)
  (k : nat -> string -> groups -> option R) : option R :=
  match r with
  | Lit text =>
      match after_prefix text s with
      | Some s' => k (pos + String.length text) s' g
      | None => None
      end
  | StarOf cls greedy => star cls greedy pos s (fun pos' s' => k pos' s' g)
  | Bol => if Nat.eqb pos 0 then k pos s g else None
  | Alt r1 r2 =>
      match m r1 pos s g k with
      | Some found => Some found
      | None => m r2 pos s g k
      end
  | Seq r1 r2 => m r1 pos s g (fun pos' s' g' => m r2 pos' s' g' k)
  | Group n r1 =>
      m r1 pos s g
        (fun pos' s' g' => k pos' s' ((n, take (pos' - pos) s) :: g'))
  end.

End Matcher.

(** A match: where it ends and what its groups captured. *)
Record found := {
  stop : nat;
  captured : groups
}.

(** [pattern.match] at position [pos]. *)
Definition match_at (r : regex) (pos : nat) (s : string) : option found :=
  m found r pos s []
    (fun pos' _ g => Some {| stop := pos'; captured := g |}).

(** [re.search]: the match at the least position that has one, with that
    position. *)
Fixpoint search_from (r : regex) (pos : nat) (s : string)
  : option (nat * found) :=
  match match_at r pos s with
  | Some f => Some (pos, f)
  | None =>
      match s with
      | EmptyString => None
      | String _ s' => search_from r (S pos) s'
      end
  end.

Definition search (r : regex) (s : string) : option (nat * found) :=
  search_from r 0 s.

(** A replacement template: literal text and group references. *)
Inductive piece :=
| Text (text : string)
| Ref (n : nat).

Fixpoint expand (template : list piece) (g : groups) : string :=
  match template with
  | [] => EmptyString
  | Text text :: rest => text ++ expand rest g
  | Ref n :: rest =>
      match group n g with
      | Some text => text ++ expand rest g
      | None => expand rest g
      end
  end.

(** [re.sub] from position [pos], where [skip] characters of [s] belong to
    the match just replaced.  Matches are taken left to right and do not
    overlap; after an empty match the next character is copied. *)
Fixpoint sub_from (r : regex) (template : list piece) (pos skip : nat)
  (s : string) : string :=
  match skip with
  | S skip' =>
      match s with
      | EmptyString => EmptyString
      | String _ s' => sub_from r template (S pos) skip' s'
      end
  | 0 =>
      match match_at r pos s with
      | Some f =>
          expand template (captured f) ++
          match s with
          | EmptyString => EmptyString
          | String c s' =>
              if Nat.eqb (stop f) pos
              then String c (sub_from r template (S pos) 0 s')
              else sub_from r template (S pos) (stop f - pos - 1) s'
          end
      | None =>
          match s with
          | EmptyString => EmptyString
          | String c s' => String c (sub_from r template (S pos) 0 s')
          end
      end
  end.

(** [re.sub(pattern, repl, s)] *)
Definition sub (r : regex) (template : list piece) (s : string) : string :=
  sub_from r template 0 0 s.

End PyRe.

(** ** multi_agent_chat_agent.py: the strategy heuristic *)

Module MultiAgentChatAgent.
Import PyStr.

Definition research_keywords : list string :=
  ["research"; "find"; "search"; "information"; "facts"; "data"; "study";
   "investigate"].
Definition analysis_keywords : list string :=
  ["analyze"; "calculate"; "solve"; "problem"; "math"; "statistics"; "logic";
   "reasoning"].
Definition creative_keywords : list string :=
  ["create"; "write"; "story"; "creative"; "brainstorm"; "innovative";
   "design"; "imagine"].

(** [any(keyword in query_lower for keyword in keywords)] *)
Definition any_keyword_in (keywords : list string) (query_lower : string)
  : bool :=
  existsb (fun keyword => contains keyword query_lower) keywords.

Section Strategy.

(** [str.lower] is Unicode-aware in Python; the strategy is defined over any
    lowering function, and [PyStr.lower] instantiates it for ASCII text. *)
Variable str_lower : string -> string.

Definition _determine_agent_strategy (query : string) : string :=
  let query_lower := str_lower query in
  let agents_needed : list string := [] in
  let agents_needed :=
    if any_keyword_in research_keywords query_lower
    then (agents_needed ++ ["research"])%list else agents_needed in
  let agents_needed :=
    if any_keyword_in analysis_keywords query_lower
    then (agents_needed ++ ["analysis"])%list else agents_needed in
  let agents_needed :=
    if any_keyword_in creative_keywords query_lower
    then (agents_needed ++ ["creative"])%list else agents_needed in
  let agents_needed :=
    match agents_needed with
    | [] => (agents_needed ++ ["coordinator"])%list
    | _ => agents_needed
    end in
  join ", " agents_needed.

End Strategy.

(** The three categories of the heuristic, as the specification names them. *)
Inductive category := Research | Analysis | Creative.

Definition label (c : category) : string :=
  match c with
  | Research => "research"
  | Analysis => "analysis"
  | Creative => "creative"
  end.

Definition keywords (c : category) : list string :=
  match c with
  | Research => research_keywords
  | Analysis => analysis_keywords
  | Creative => creative_keywords
  end.

(** Position of a category in the fixed order research, analysis, creative. *)
Definition rank (c : category) : nat :=
  match c with Research => 0 | Analysis => 1 | Creative => 2 end.

(** A category is called for when one of its keywords occurs in the
    lowercased query. *)
Definition called_for (str_lower : string -> string) (query : string)
  (c : category) : Prop :=
  exists keyword, In keyword (keywords c) /\
                  Substring keyword (str_lower query).

End MultiAgentChatAgent.

(** ** Exceptions and effects

    A call either returns a value or raises.  The exceptions modelled are the
    instances of Python's [Exception], the ones an [except Exception] clause
    catches.  Effectful code runs in a state-and-error monad over a world
    [W]; a raise keeps the world reached so far. *)

Module Py.

Inductive exception :=
| ValueError (msg : string)
| OtherError (cls msg : string).

(** [str(e)] *)
Definition str_of (e : exception) : string :=
  match e with
  | ValueError msg => msg
  | OtherError _ msg => msg
  end.

Inductive result (A : Type) :=
| Return (a : A)
| Raise (e : exception).
Arguments Return {A} a.
Arguments Raise {A} e.

Definition raises {A} (r : result A) : Prop :=
  match r with Return _ => False | Raise _ => True end.

Definition M (W A : Type) : Type := W -> result A * W.

Definition ret {W A} (a : A) : M W A := fun w => (Return a, w).

Definition raise {W A} (e : exception) : M W A := fun w => (Raise e, w).

Definition bind {W A B} (c : M W A) (k : A -> M W B) : M W B :=
  fun w =>
    match c w with
    | (Return a, w') => k a w'
    | (Raise e, w') => (Raise e, w')
    end.

(** [try: c  except Exception as e: handler(e)] *)
Definition try_except {W A} (c : M W A) (handler : exception -> M W A)
  : M W A :=
  fun w =>
    match c w with
    | (Return a, w') => (Return a, w')
    | (Raise e, w') => handler e w'
    end.

(** A result obtained without touching the world. *)
Definition lift {W A} (r : result A) : M W A := fun w => (r, w).

End Py.

Declare Scope py_scope.
Delimit Scope py_scope with py.
Notation "x <- c ;; k" := (Py.bind c (fun x => k))
  (at level 61, c at next level, right associativity) : py_scope.

(** ** Requests, responses and streaming events

    [core/models] is not among the sources; the shapes are those the
    specification describes and the sources construct. *)

Module Models.

(** A typed content block of a message. *)
Inductive content_block :=
| TextContent (text : string)
| OtherContent (type payload : string).

Record Message := {
  role : string;
  content : list content_block
}.

Record AgenticRequest := {
  message : Message;
  session_id : option string;
  stream : option bool
}.

(** A value of the free-form metadata dictionary. *)
Inductive metadata_value :=
| MetaStr (s : string)
| MetaList (l : list string).

Record AgenticResponse := {
  response_message : Message;
  response_session_id : option string;
  metadata : list (string * metadata_value)
}.

Inductive StreamEvent :=
| TextDeltaEvent (session_id text : string)
| ErrorEvent (session_id error : string)
| DoneEvent (session_id : string)
| OtherEvent (session_id type payload : string).

(** Modelled from the spec: [Message.get_text_content] of
    [core/models/memory_models.py], which is not among the sources.  The
    specification gives a message a list of typed content blocks of which
    callers consume at most one text block: the first [TextContent] block of
    the message, or [None] when it has none. *)
Fixpoint first_text (blocks : list content_block) : option string :=
  match blocks with
  | [] => None
  | TextContent text :: _ => Some text
  | OtherContent _ _ :: rest => first_text rest
  end.

Definition get_text_content (m : Message) : option string :=
  first_text (content m).

(** Modelled from the spec: [Message.from_text(role, text)] of
    [core/models/memory_models.py], which is not among the sources: the
    message of that role whose content is the one text block. *)
Definition from_text (role text : string) : Message :=
  {| role := role; content := [TextContent text] |}.

(** Modelled from the spec: the property [AgenticRequest.latest_user_text]
    of [core/models/api_models.py], which is not among the sources: the text
    of the request message's text content block, if any. *)
Definition latest_user_text (request : AgenticRequest) : option string :=
  get_text_content (message request).

(** The message has a text content block. *)
Definition has_text (m : Message) : Prop :=
  exists text, In (TextContent text) (content m).

(** Python truthiness of an optional string and of an optional flag. *)
Definition truthy_str (s : option string) : bool :=
  match s with
  | Some s => negb (String.eqb s "")
  | None => false
  end.

Definition truthy_flag (b : option bool) : bool :=
  match b with
  | Some b => b
  | None => false
  end.

(** [session_id or "default"] *)
Definition or_default (session_id : option string) : string :=
  match session_id with
  | Some s => if truthy_str (Some s) then s else "default"
  | None => "default"
  end.

End Models.

(** ** multi_agent_chat_agent.py: invoke and invoke_stream *)

Module StrandsMultiAgentChatAgent.
Import Py Models.
Local Open Scope py_scope.

(** What the agent asks of the external coordinator agent, oldest first. *)
Inductive coordinator_call :=
| Call (enhanced_query : string)
| StreamAsync (enhanced_query : string).

Definition world := list coordinator_call.

(** What a generator has done when it stops: the events it yielded, in
    order, and the exception that left it, if one did. *)
Record generated := {
  yielded : list StreamEvent;
  propagated : option exception
}.

Section Agent.

Variable str_lower : string -> string.

(** [self.coordinator(q)] followed by [str(result)]: the external agent
    framework, which may answer differently on each call and may raise. *)
Variable coordinator : world -> string -> result string.

(** [self.coordinator.stream_async(q)]: the framework's events, and the
    exception that ends the iteration when the framework raises. *)
Variable strands_event : Type.
Variable stream_async : world -> string -> list strands_event * option exception.

(** [StrandsStreamingConverter] of [streaming/strands_converter.py], which
    is not among the sources: an object made from the session identifier
    whose [convert_chunks_to_events] turns one framework event into platform
    events, or raises. *)
Variable converter : Type.
Variable StrandsStreamingConverter : string -> converter.
Variable convert_chunks_to_events :
  converter -> strands_event -> result (list StreamEvent) * converter.

Definition call_coordinator (enhanced_query : string) : M world string :=
  fun w => (coordinator w enhanced_query, (w ++ [Call enhanced_query])%list).

Definition enhance (strategy query : string) : string :=
  "[Multi-Agent Strategy: " ++ strategy ++ "] " ++ query.

Definition invoke (request : AgenticRequest) : M world AgenticResponse :=
  match get_text_content (message request) with
  | None => raise (ValueError "No text content found in request message")
  | Some query =>
      let strategy :=
        MultiAgentChatAgent._determine_agent_strategy str_lower query in
      let enhanced_query := enhance strategy query in
      result <- call_coordinator enhanced_query ;;
      let response_message :=
        {| role := "assistant"; content := [TextContent result] |} in
      ret {| response_message := response_message;
             response_session_id := Some (or_default (session_id request));
             metadata :=
               [("agent_type", MetaStr "strands_multi_agent_chat");
                ("strategy_used", MetaStr strategy);
                ("agents_available",
                 MetaList ["coordinator"; "research"; "analysis";
                           "creative"])] |}
  end.

(** What the converter does with the framework's events when it raises on
    none of them: [Converted conv events outs conv'] when the converter,
    starting as [conv], turns [events], one after the other, into the
    platform events [outs] and is left as [conv']. *)
Inductive Converted :
  converter -> list strands_event -> list StreamEvent -> converter -> Prop :=
| Converted_nil (conv : converter) : Converted conv [] [] conv
| Converted_cons (conv conv' conv'' : converter) (event : strands_event)
    (events : list strands_event) (platform_events outs : list StreamEvent) :
    convert_chunks_to_events conv event = (Return platform_events, conv') ->
    Converted conv' events outs conv'' ->
    Converted conv (event :: events) (platform_events ++ outs)%list conv''.

(** The body of the [try] of [invoke_stream]: the events yielded while the
    framework's events are forwarded, and the exception that interrupted the
    loop, raised either by the converter or by the framework's iterator. *)
Fixpoint forward (conv : converter) (events : list strands_event)
  (at_end : option exception) : list StreamEvent * option exception :=
  match events with
  | [] => ([], at_end)
  | event :: rest =>
      match convert_chunks_to_events conv event with
      | (Return platform_events, conv') =>
          let (later, e) := forward conv' rest at_end in
          ((platform_events ++ later)%list, e)
      | (Raise e, _) => ([], Some e)
      end
  end.

Definition invoke_stream (request : AgenticRequest) (w : world)
  : generated * world :=
  let session_id := or_default (session_id request) in
  let converter := StrandsStreamingConverter session_id in
  match get_text_content (message request) with
  | None =>
      let error_event :=
        ErrorEvent session_id "No text content found in request message" in
      ({| yielded := [error_event]; propagated := None |}, w)
  | Some query =>
      let strategy :=
        MultiAgentChatAgent._determine_agent_strategy str_lower query in
      let enhanced_query := enhance strategy query in
      let (events, at_end) := stream_async w enhanced_query in
      let w' := (w ++ [StreamAsync enhanced_query])%list in
      match forward converter events at_end with
      | (platform_events, None) =>
          ({| yielded := platform_events; propagated := None |}, w')
      | (platform_events, Some e) =>
          let error_event := ErrorEvent session_id (str_of e) in
          ({| yielded := (platform_events ++ [error_event])%list;
              propagated := None |}, w')
      end
  end.

End Agent.

End StrandsMultiAgentChatAgent.

(** ** multi_agent_chat_controller.py *)

Module MultiAgentChatController.
Import Py Models.

Section Controller.

(** The module-level agent instance: its [invoke] and [invoke_stream]. *)
Variable W : Type.
Variable agent_invoke : AgenticRequest -> M W AgenticResponse.

Definition invoke (request : AgenticRequest) : M W AgenticResponse :=
  if truthy_flag (stream request)
  then raise (ValueError "Streaming requests should use the /stream endpoint")
  else agent_invoke request.

(** [create_stream(request)]: the events of the agent's [invoke_stream],
    each yielded as it comes. *)
Variable G : Type.
Variable agent_invoke_stream : AgenticRequest -> W -> G * W.

Definition create_stream (request : AgenticRequest) (w : W) : G * W :=
  agent_invoke_stream request w.

End Controller.

End MultiAgentChatController.

(** ** collaboration_tool.py *)

Module CollaborationTool.
Import PyStr.

Definition research_line : string :=
  "🔍 Research Agent: Gathering relevant information and data sources..." ++ NL.
Definition analysis_line : string :=
  "📊 Analysis Agent: Processing data and performing logical analysis..." ++ NL.
Definition creative_line : string :=
  "🎨 Creative Agent: Generating innovative ideas and creative solutions..."
  ++ NL.
Definition coordinator_line : string :=
  "🎯 Coordinator: Synthesizing inputs and providing comprehensive response..."
  ++ NL.

(** [[agent.strip() for agent in agent_types.split(',')]] *)
Definition parse_agents (agent_types : string) : list string :=
  map strip (split_on "," agent_types).

(** The text a list of agents gives; [coordinate_agents] is this text for
    the agents parsed.  On strings nothing in the body of the [try] raises,
    so the handler is never entered. *)
Definition coordination_of (task_description : string) (agents : list string)
  : string :=
  let coordination_response :=
    "Multi-Agent Coordination for: " ++ task_description ++ NL ++ NL in
  let coordination_response :=
    if in_list "research" agents
    then coordination_response ++ research_line else coordination_response in
  let coordination_response :=
    if in_list "analysis" agents
    then coordination_response ++ analysis_line else coordination_response in
  let coordination_response :=
    if in_list "creative" agents
    then coordination_response ++ creative_line else coordination_response in
  let coordination_response :=
    if in_list "coordinator" agents
    then coordination_response ++ coordinator_line
    else coordination_response in
  coordination_response ++ NL ++ "✅ Coordination complete. "
  ++ str_of_nat (List.length agents)
  ++ " agent(s) collaborated on this task.".

Definition coordinate_agents (task_description agent_types : string)
  : string :=
  coordination_of task_description (parse_agents agent_types).

(** The line that announces a category of the strategy heuristic, and the
    lines of a list of categories. *)
Definition line_of (c : MultiAgentChatAgent.category) : string :=
  match c with
  | MultiAgentChatAgent.Research => research_line
  | MultiAgentChatAgent.Analysis => analysis_line
  | MultiAgentChatAgent.Creative => creative_line
  end.

Definition lines_of (cs : list MultiAgentChatAgent.category) : string :=
  String.concat "" (map line_of cs).

(** The closing line for [n] agents. *)
Definition closing (n : nat) : string :=
  NL ++ "✅ Coordination complete. " ++ str_of_nat n
  ++ " agent(s) collaborated on this task.".

End CollaborationTool.

(** ** kb_tool.py *)

Module KbTool.
Import Py.

(** One entry of [retrievalResults]: the text under [content], when both
    keys are present. *)
Record retrieval_result := {
  content_text : option string
}.

(** The response of [client.retrieve]: the list under [retrievalResults],
    when the key is present. *)
Record retrieve_response := {
  retrievalResults : option (list retrieval_result)
}.

Section Tool.

(** The module-level [knowledge_base_id] (from the environment) and
    [client]; the client is [None] when the identifier is not set. *)
Variable knowledge_base_id : option string.
Variable client : option (string -> string -> result retrieve_response).

(** [result.get('content', {}).get('text', '')] *)
Definition text_of (r : retrieval_result) : string :=
  match content_text r with
  | Some text => text
  | None => ""
  end.

Fixpoint collect (rs : list retrieval_result) : list string :=
  match rs with
  | [] => []
  | r :: rest =>
      let content := text_of r in
      if String.eqb content "" then collect rest else content :: collect rest
  end.

Definition search_knowledge_base (query : string) : result string :=
  match client, knowledge_base_id with
  | Some retrieve, Some kb_id =>
      if String.eqb kb_id "" then
        Return ("Mock RAG response for query: '" ++ query ++
                "'. This is a test response since no knowledge base is configured.")
      else
        match retrieve kb_id query with
        | Return response =>
            let results :=
              collect (match retrievalResults response with
                       | Some rs => rs
                       | None => []
                       end) in
            match results with
            | [] => Return "No relevant information found in the knowledge base."
            | _ => Return (String.concat (String "010" (String "010" "")) results)
            end
        | Raise e => Return ("Error accessing knowledge base: " ++ str_of e)
        end
  | _, _ =>
      Return ("Mock RAG response for query: '" ++ query ++
              "'. This is a test response since no knowledge base is configured.")
  end.

End Tool.

(** The texts of a response, as [search_knowledge_base] reads them: absent
    keys give the empty text. *)
Definition texts_of (response : retrieve_response) : list string :=
  map text_of (match retrievalResults response with
               | Some rs => rs
               | None => []
               end).

(** A text that is not empty. *)
Definition filled (text : string) : bool := negb (String.eqb text "").

End KbTool.

(** ** generate_summaries.py: cleaning the model's response *)

Module CleanResponse.
Import PyStr PyRe.

Definition heading : string := "# SUMMARY".
Definition fence : string := "```".
Definition mermaid_fence : string := "```mermaid".

(** [r'```\s*```'] *)
Definition empty_block : regex :=
  Seq (Lit fence) (Seq (StarOf space true) (Lit fence)).

(** [r'```mermaid\n(.*?)\n```\s*\n\s*subgraph'] under DOTALL, and its
    replacement [r'```mermaid\n\1\n    subgraph']. *)
Definition split_diagram : regex :=
  Seq (Lit (mermaid_fence ++ NL))
    (Seq (Group 1 (StarOf any_char false))
       (Seq (Lit (NL ++ fence))
          (Seq (StarOf space true)
             (Seq (Lit NL) (Seq (StarOf space true) (Lit "subgraph")))))).

Definition joined_diagram : list piece :=
  [Text (mermaid_fence ++ NL); Ref 1; Text (NL ++ "    subgraph")].

Definition diagram_types : list string :=
  ["flowchart"; "graph"; "sequenceDiagram"; "classDiagram"; "stateDiagram";
   "gantt"; "pie"; "journey"; "gitGraph"; "mindmap"; "timeline"; "sankey";
   "requirement"; "erDiagram"].

(** [r'(\n|^)mermaid\s*\n(flowchart|graph|...)'] and its replacement
    [r'\1```mermaid\n\2']. *)
Definition bare_diagram : regex :=
  Seq (Group 1 (Alt (Lit NL) Bol))
    (Seq (Lit "mermaid")
       (Seq (StarOf space true)
          (Seq (Lit NL) (Group 2 (one_of diagram_types))))).

Definition fenced_diagram : list piece :=
  [Ref 1; Text (mermaid_fence ++ NL); Ref 2].

(** The [for i, line in enumerate(lines)] that looks for the heading: the
    index of the first line that starts with it, and 0 when there is none. *)
Fixpoint heading_index (lines : list string) : option nat :=
  match lines with
  | [] => None
  | line :: rest =>
      if startswith line heading then Some 0
      else option_map S (heading_index rest)
  end.

Definition start_index (lines : list string) : nat :=
  match heading_index lines with
  | Some i => i
  | None => 0
  end.

(** [while re.search(pattern, response): response = re.sub(...)].  The loop
    is run with fuel; [None] stands for fuel that ran out. *)
Fixpoint join_split_diagrams (fuel : nat) (response : string)
  : option string :=
  match fuel with
  | 0 => None
  | S fuel' =>
      match search split_diagram response with
      | Some _ =>
          join_split_diagrams fuel' (sub split_diagram joined_diagram response)
      | None => Some response
      end
  end.

(** The number of backquotes of a text; each round of the loop above
    removes some. *)
Fixpoint backquotes (s : string) : nat :=
  match s with
  | EmptyString => 0
  | String c s' => (if Ascii.eqb c "`" then 1 else 0) + backquotes s'
  end.

(** The state of the last pass: the lines kept so far and whether a mermaid
    block is open. *)
Record pass := {
  result : list string;
  in_mermaid : bool
}.

Definition append (st : pass) (line : string) (open : bool) : pass :=
  {| result := (result st ++ [line])%list; in_mermaid := open |}.

(** ['    ' + lines[i]] *)
Definition indent (line : string) : string := "    " ++ line.

(** The look-ahead of the closing fence: is the next line that is not blank
    a [subgraph] line? *)
Fixpoint subgraph_follows (rest : list string) : bool :=
  match rest with
  | [] => false
  | next :: rest' =>
      if String.eqb (strip next) "" then subgraph_follows rest'
      else startswith (strip next) "subgraph"
  end.

(** One round of [while i < len(lines)], on [lines[i]] with [lines[i+1:]]
    in view. *)
Definition fix_line (raw : string) (rest : list string) (st : pass) : pass :=
  let line := strip raw in
  if String.eqb line mermaid_fence then append st raw true
  else if String.eqb line fence && in_mermaid st then
    if subgraph_follows rest then st
    else append st raw false
  else if startswith line "subgraph" && negb (in_mermaid st) then
    let kept :=
      match result st with
      | [] => (result st ++ [mermaid_fence])%list
      | _ =>
          if String.eqb (strip (last (result st) "")) fence
          then removelast (result st)
          else (result st ++ [mermaid_fence])%list
      end in
    {| result := (kept ++ [indent raw])%list; in_mermaid := true |}
  else if in_mermaid st then
    if startswith line "subgraph" || String.eqb line "end"
       || startswith line "    "
    then append st raw true
    else append st (indent raw) true
  else append st raw false.

Fixpoint fix_lines (lines : list string) (st : pass) : pass :=
  match lines with
  | [] => st
  | raw :: rest => fix_lines rest (fix_line raw rest st)
  end.

(** An invariant of the last pass: the line [first] is the first line kept.
    Only a line that is a closing fence is ever taken back. *)
Definition keeps (first : string) (st : pass) : Prop :=
  exists others, result st = first :: others.

Definition close_block (st : pass) : list string :=
  if in_mermaid st then (result st ++ [fence])%list else result st.

(** Everything but the [while] loop, before and after it. *)
Definition cut_preamble (response : string) : string :=
  let response :=
    if contains heading response
    then slice_from (find heading response) response
    else response in
  let lines := split_lines response in
  join NL (skipn (start_index lines) lines).

Definition fix_diagrams (response : string) : string :=
  let response := sub bare_diagram fenced_diagram response in
  let lines := split_lines response in
  let st := fix_lines lines {| result := []; in_mermaid := false |} in
  join NL (close_block st).

(** The passes that precede the [while] loop. *)
Definition before_loop (response : string) : string :=
  sub empty_block [] (cut_preamble response).

(** Fuel for the loop: one round more than the text has backquotes when the
    loop starts. *)
Definition enough_fuel (response : string) : nat :=
  S (backquotes response).

(** The passes that follow the removal of the preamble (lines 608 to 685),
    on the text that the removal left. *)
Definition later_passes (response : string) : string :=
  let response := sub empty_block [] response in
  match join_split_diagrams (enough_fuel response) response with
  | Some joined => fix_diagrams joined
  | None => fix_diagrams response
  end.

(** [clean_model_response(response)].  The fuel given always suffices (see
    [join_split_diagrams_returns]), so the second branch is never taken. *)
Definition clean_model_response (response : string) : string :=
  let response := before_loop response in
  match join_split_diagrams (enough_fuel response) response with
  | Some joined => fix_diagrams joined
  | None => fix_diagrams response
  end.

End CleanResponse.

(** ** chat_controller.py *)

Module ChatController.
Import Py Models PyStr PyRe.
Local Open Scope py_scope.

(** [r'<response>(.*?)</response>'] under DOTALL *)
Definition response_tag : regex :=
  Seq (Lit "<response>")
    (Seq (Group 1 (StarOf any_char false)) (Lit "</response>")).

Definition extract_response (text : string) : string :=
  match search response_tag text with
  | Some (_, response_match) =>
      match group 1 (captured response_match) with
      | Some inner => strip inner
      | None => "I'm sorry, something went wrong. Please try again."
      end
  | None => "I'm sorry, something went wrong. Please try again."
  end.

(** The inputs of the [ChatPrompt]: the chat history and the message. *)
Record ChatPrompt := {
  chat_history : string;
  prompt_message : string
}.

Section Chat.

(** The prompts sent to the chat service, oldest first. *)
Definition world := list ChatPrompt.

(** [chat_service.run(prompt)] followed by [response.text]: the external
    conversation graph, which may raise. *)
Variable chat_service_run : world -> ChatPrompt -> result string.

Definition run (prompt : ChatPrompt) : M world string :=
  fun w => (chat_service_run w prompt, (w ++ [prompt])%list).

Definition chat (request : AgenticRequest) : M world AgenticResponse :=
  let user_text :=
    if truthy_str (latest_user_text request)
    then match latest_user_text request with
         | Some text => text
         | None => "Hello"
         end
    else "Hello" in
  let prompt := {| chat_history := ""; prompt_message := user_text |} in
  response_text <- run prompt ;;
  let response_text := extract_response response_text in
  let response_message := from_text "assistant" response_text in
  ret {| response_message := response_message;
         response_session_id := session_id request;
         metadata := [] |}.

End Chat.

(** The reply when there is nothing to extract. *)
Definition apology : string :=
  "I'm sorry, something went wrong. Please try again.".

(** Extraction read without a pattern: the text between the first opening
    tag and the first closing tag after it, stripped; the apology when
    either tag is missing. *)
Definition extract_by_find (text : string) : string :=
  let i := find "<response>" text in
  if (i <? 0)%Z then apology
  else
    let rest := slice_from (i + 10) text in
    let j := find "</response>" rest in
    if (j <? 0)%Z then apology
    else strip (take (Z.to_nat j) rest).

End ChatController.

(** ** generate_summaries.py: configuration, files and file selection *)

Module GenerateSummaries.
Import Py PyStr.
Local Open Scope py_scope.

(** The [file_selection] section of config.yml; a key that is absent is
    [None], and an absent section is the record of absent keys. *)
Record file_selection := {
  include_patterns : option (list string);
  exclude_patterns : option (list string);
  max_notebooks : option Z;
  max_notebook_cells : option Z;
  max_python_files : option Z;
  max_python_lines : option Z;
  max_markdown_files : option Z;
  max_yaml_files : option Z;
  max_yaml_lines : option Z;
  max_terraform_files : option Z;
  max_terraform_lines : option Z;
  max_shell_files : option Z;
  max_shell_lines : option Z;
  max_text_files : option Z;
  max_text_lines : option Z
}.

(** The [model] and [inference_config] sections of config.yml, whose keys
    are read with [config[...][...]]; a key that is absent is [None]. *)
Record model_section := {
  model_id : option string;
  model_name : option string
}.

Record inference_section := {
  temperature : option string;
  inference_max_tokens : option Z
}.

(** config.yml.  The [output] section and [folders_to_analyze] are taken as
    present; the [model] and [inference_config] sections, which are read
    under the [try] of [generate_summary_with_bedrock], may be absent. *)
Record config := {
  selection : file_selection;
  output_file_prefix : string;
  output_directory : string;
  model : option model_section;
  inference_config : option inference_section;
  debug_enabled : bool;
  debug_print_prompt : bool;
  folders_to_analyze : list (option string)
}.

(** [d[key]]: a [KeyError] when the key is absent. *)
Definition getitem {A : Type} (key : string) (value : option A) : result A :=
  match value with
  | Some v => Return v
  | None => Raise (OtherError "KeyError" ("'" ++ key ++ "'"))
  end.

(** One lookup after another, up to the first that raises. *)
Definition and_then {A B : Type} (r : result A) (k : A -> result B)
  : result B :=
  match r with
  | Return a => k a
  | Raise e => Raise e
  end.

(** [config['model']['name']] *)
Definition model_name_of (config : config) : result string :=
  and_then (getitem "model" (model config)) (fun section =>
  getitem "name" (model_name section)).

(** The arguments of [bedrock.converse] that come from the configuration. *)
Record call_arguments := {
  modelId : string;
  call_temperature : string;
  maxTokens : Z
}.

(** What the [try] of [generate_summary_with_bedrock] reads from the
    configuration before the call, in the order of lines 549 to 566:
    [config['model']['name']] for the message it prints, then
    [config['model']['id']], [config['inference_config']['temperature']]
    and [config['inference_config']['max_tokens']]. *)
Definition read_call_arguments (config : config) : result call_arguments :=
  and_then (model_name_of config) (fun _ =>
  and_then (getitem "model" (model config)) (fun section =>
  and_then (getitem "id" (model_id section)) (fun id =>
  and_then (getitem "inference_config" (inference_config config)) (fun inf =>
  and_then (getitem "temperature" (temperature inf)) (fun temp =>
  and_then (getitem "inference_config" (inference_config config)) (fun inf =>
  and_then (getitem "max_tokens" (inference_max_tokens inf)) (fun tokens =>
  Return {| modelId := id; call_temperature := temp;
            maxTokens := tokens |}))))))).

(** [d.get(key, default)] *)
Definition get {A : Type} (value : option A) (default : A) : A :=
  match value with
  | Some v => v
  | None => default
  end.

(** What the script does to the world, oldest first: the files it writes,
    the prompts it sends to [bedrock.converse] and its pauses. *)
Inductive effect :=
| Wrote (path text : string)
| Converse (prompt : string)
| Slept (seconds : nat).

Definition world := list effect.

Definition emit (e : effect) : M world unit :=
  fun w => (Return tt, (w ++ [e])%list).

(** A computation that only reads: it returns, and leaves the world as it
    was. *)
Definition reads {A : Type} (c : M world A) : Prop :=
  forall w, exists a, c w = (Return a, w).

(** A computation that reads and then returns a value that satisfies [P]. *)
Definition reads_to {A : Type} (c : M world A) (P : A -> Prop) : Prop :=
  forall w, exists a, c w = (Return a, w) /\ P a.

(** The pauses made so far, in seconds. *)
Fixpoint sleeps (w : world) : list nat :=
  match w with
  | [] => []
  | Slept seconds :: rest => seconds :: sleeps rest
  | _ :: rest => sleeps rest
  end.

(** A computation that makes no pause, whether it returns or raises. *)
Definition no_pause {A : Type} (c : M world A) : Prop :=
  forall w, sleeps (snd (c w)) = sleeps w.

(** The prompts sent so far. *)
Fixpoint converse_calls (w : world) : list string :=
  match w with
  | [] => []
  | Converse prompt :: rest => prompt :: converse_calls rest
  | _ :: rest => converse_calls rest
  end.

(** The files written so far. *)
Fixpoint written (w : world) : list (string * string) :=
  match w with
  | [] => []
  | Wrote path text :: rest => (path, text) :: written rest
  | _ :: rest => written rest
  end.

(** One cell of a notebook and a parsed notebook, with the keys the script
    reads. *)
Record cell := {
  cell_type : option string;
  source : option (list string)
}.

Record notebook := {
  cells : option (list cell)
}.

Section Script.

(** The paths the module computes from its own location, and pathlib's
    [/]. *)
Variable REPO_ROOT : string.
Variable ANALYSIS_DIR : string.
Variable joinpath : string -> string -> string.

Definition PROMPT_TEMPLATE_PATH : string := joinpath ANALYSIS_DIR "prompts.md".
Definition CONFIG_PATH : string := joinpath ANALYSIS_DIR "config.yml".

(** The environment, which may answer differently as the run proceeds:
    [Path.exists], [open] followed by [read], [open] followed by [write],
    [os.walk] (the files it lists before it stops or fails),
    [yaml.safe_load], [json.loads], [fnmatch.fnmatch], the creation of the
    Bedrock client, [bedrock.converse] followed by the extraction of the
    text of the response, and the clock. *)
Variable path_exists : world -> string -> bool.
Variable open_read : world -> string -> result string.
Variable open_write : world -> string -> string -> result unit.
Variable os_walk : world -> string -> list string.
Variable yaml_safe_load : string -> result (option config).
Variable json_loads : string -> result notebook.
Variable fnmatch : string -> string -> bool.
Variable bedrock_client : world -> result unit.
Variable bedrock_converse : world -> string -> result string.
Variable now : world -> string.

Definition load_config : M world (option config) :=
  try_except
    (fun w =>
       match open_read w CONFIG_PATH with
       | Return text => (yaml_safe_load text, w)
       | Raise e => (Raise e, w)
       end)
    (fun e => ret None).

Definition read_file (file_path : string) : M world (option string) :=
  try_except
    (fun w =>
       match open_read w file_path with
       | Return text => (Return (Some text), w)
       | Raise e => (Raise e, w)
       end)
    (fun e => ret None).

Definition list_files (directory : string) : M world (list string) :=
  fun w => (Return (os_walk w directory), w).

(** [any(fnmatch.fnmatch(file_name, pattern) for pattern in patterns)], the
    inner loop of the first pass of [filter_files]. *)
Definition included (include_patterns : list string) (file_path : string)
  : bool :=
  let file_name := basename file_path in
  existsb (fun pattern => fnmatch file_name pattern) include_patterns.

Definition excluded (exclude_patterns : list string) (file_path : string)
  : bool :=
  let file_name := basename file_path in
  existsb (fun pattern => fnmatch file_path pattern || fnmatch file_name pattern)
    exclude_patterns.

(** [file_path in important_files] *)
Definition mem (file_path : string) (paths : list string) : bool :=
  existsb (String.eqb file_path) paths.

Definition filter_files (files : list string) (config : config)
  : list string * list string :=
  let include_patterns := get (include_patterns (selection config)) [] in
  let exclude_patterns := get (exclude_patterns (selection config)) [] in
  let important_files := filter (included include_patterns) files in
  let filtered_files :=
    filter (fun file_path =>
              negb (excluded exclude_patterns file_path)
              && negb (mem file_path important_files))
      files in
  (important_files, filtered_files).

(** *** get_folder_content_summary *)

(** The summary under construction and the running token estimate. *)
Record assembly := {
  content_summary : string;
  tokens_used : Z
}.

(** The token budget, and the values of [max_tokens * 0.9] and
    [max_tokens * 0.95], which the floating-point products give exactly. *)
Definition max_tokens : Z := 190000.
Definition nine_tenths : Z := 171000.
Definition ninety_five_hundredths : Z := 180500.


(** [content_summary += text] with [tokens_used += tokens]. *)
Definition add (st : assembly) (text : string) (tokens : Z) : assembly :=
  {| content_summary := content_summary st ++ text;
     tokens_used := (tokens_used st + tokens)%Z |}.

(** [content_summary += text] with [tokens_used += len(text) // 4]. *)
Definition add_counted (st : assembly) (text : string) : assembly :=
  add st text (len text / 4)%Z.

(** [content_summary += text] alone. *)
Definition add_note (st : assembly) (text : string) : assembly :=
  {| content_summary := content_summary st ++ text;
     tokens_used := tokens_used st |}.

(** Truthiness of what [read_file] returned. *)
Definition nonempty (content : option string) : option string :=
  match content with
  | Some text => if String.eqb text "" then None else Some text
  | None => None
  end.

Definition has_ext (ext : string) (f : string) : bool := endswith f ext.
Definition is_yaml (f : string) : bool :=
  endswith f ".yaml" || endswith f ".yml".
Definition is_other (f : string) : bool :=
  negb (endswith f ".ipynb" || endswith f ".py" || endswith f ".md"
        || endswith f ".yaml" || endswith f ".yml" || endswith f ".tf"
        || endswith f ".sh" || endswith f ".txt").

Definition count (p : string -> bool) (files : list string) : string :=
  str_of_nat (List.length (filter p files)).

(** [- name] lines for the names given. *)
Definition bullets (names : list string) : string :=
  String.concat "" (map (fun name => "- " ++ name ++ NL) names).

(** One section of the list of files, present when the list is not empty. *)
Definition section (title : string) (names : list string) (paths : list string)
  : string :=
  match paths with
  | [] => ""
  | _ => title ++ NL ++ bullets names ++ NL
  end.

(** [len(l) > n] for a limit of either sign. *)
Definition longer {A : Type} (l : list A) (n : Z) : bool :=
  (Z.of_nat (List.length l) >? n)%Z.

(** Lines 133 to 244: the README, the statistics, the files skipped and the
    list of files. *)
Definition overview (folder_name readme_content : string)
  (all_files important_files filtered_files : list string) (config : config)
  : string :=
  let sel := selection config in
  let max_notebooks := get (max_notebooks sel) 1000%Z in
  let max_python_files := get (max_python_files sel) 1000%Z in
  let max_markdown_files := get (max_markdown_files sel) 1000%Z in
  let max_yaml_files := get (max_yaml_files sel) 1000%Z in
  let max_terraform_files := get (max_terraform_files sel) 1000%Z in
  let max_shell_files := get (max_shell_files sel) 1000%Z in
  let max_text_files := get (max_text_files sel) 1000%Z in
  let total_files := List.length all_files in
  let selected_files := (important_files ++ filtered_files)%list in
  let notebooks := filter (has_ext ".ipynb") selected_files in
  let python_files := filter (has_ext ".py") selected_files in
  let markdown_files := filter (has_ext ".md") selected_files in
  let yaml_files := filter is_yaml selected_files in
  let terraform_files := filter (has_ext ".tf") selected_files in
  let shell_files := filter (has_ext ".sh") selected_files in
  let text_files := filter (has_ext ".txt") selected_files in
  let other_files := filter is_other selected_files in
  let files_analyzed :=
    (List.length (upto max_notebooks notebooks)
     + List.length (upto max_python_files python_files)
     + List.length (upto max_markdown_files markdown_files)
     + List.length (upto max_yaml_files yaml_files)
     + List.length (upto max_terraform_files terraform_files)
     + List.length (upto max_shell_files shell_files)
     + List.length (upto max_text_files text_files))%nat in
  let skipped_files :=
    ((if longer notebooks max_notebooks
      then map basename (from max_notebooks notebooks) else [])
     ++ (if longer python_files max_python_files
         then map basename (from max_python_files python_files) else [])
     ++ (if longer markdown_files max_markdown_files
         then map basename (from max_markdown_files markdown_files) else [])
     ++ (if longer yaml_files max_yaml_files
         then map basename (from max_yaml_files yaml_files) else []))%list in
  "# Folder Content Summary for " ++ folder_name ++ NL ++ NL
  ++ "## README Content" ++ NL ++ NL
  ++ readme_content ++ NL ++ NL
  ++ "## File Statistics" ++ NL ++ NL
  ++ "Total files found: " ++ str_of_nat total_files ++ NL
  ++ "Notebooks: " ++ count (has_ext ".ipynb") all_files ++ NL
  ++ "Python files: " ++ count (has_ext ".py") all_files ++ NL
  ++ "Markdown files: " ++ count (has_ext ".md") all_files ++ NL
  ++ "YAML files: " ++ count is_yaml all_files ++ NL
  ++ "Terraform files: " ++ count (has_ext ".tf") all_files ++ NL
  ++ "Shell script files: " ++ count (has_ext ".sh") all_files ++ NL
  ++ "Text files: " ++ count (has_ext ".txt") all_files ++ NL
  ++ "Other files: " ++ count is_other all_files ++ NL ++ NL
  ++ (match important_files with
      | [] => ""
      | _ => "Important files selected based on patterns: "
             ++ str_of_nat (List.length important_files) ++ NL ++ NL
      end)
  ++ (if (files_analyzed <? total_files)%nat
      then "**Note: Analyzing " ++ str_of_nat files_analyzed ++ " out of "
           ++ str_of_nat total_files ++ " files.**" ++ NL ++ NL
      else "")
  ++ (match skipped_files with
      | [] => ""
      | _ => "**Skipped files:**" ++ NL
             ++ bullets (firstn 20 skipped_files)
             ++ (if (20 <? List.length skipped_files)%nat
                 then "- ... and "
                      ++ str_of_nat (List.length skipped_files - 20)
                      ++ " more files" ++ NL
                 else "")
             ++ NL
      end)
  ++ "## Files in the folder" ++ NL ++ NL
  ++ section "### Notebooks" (map basename notebooks) notebooks
  ++ section "### Python Files" (map basename python_files) python_files
  ++ section "### Markdown Files"
       (filter (fun md_file => negb (String.eqb md_file "README.md"))
          (map basename markdown_files))
       markdown_files
  ++ section "### YAML Files" (map basename yaml_files) yaml_files
  ++ section "### Terraform Files" (map basename terraform_files)
       terraform_files
  ++ section "### Shell Script Files" (map basename shell_files) shell_files
  ++ section "### Text Files" (map basename text_files) text_files
  ++ (match other_files with
      | [] => ""
      | _ => "### Other Files" ++ NL
             ++ bullets (firstn 20 (map basename other_files))
             ++ (if (20 <? List.length other_files)%nat
                 then "- ... and "
                      ++ str_of_nat (List.length other_files - 20)
                      ++ " more files" ++ NL
                 else "")
             ++ NL
      end)
  ++ "## Content of Key Files" ++ NL ++ NL.

(** [st'] continues [st]: its summary is the summary of [st] with text
    added at the end, and its estimate is not lower. *)
Definition continues (st st' : assembly) : Prop :=
  (exists added, content_summary st' = content_summary st ++ added)
  /\ (tokens_used st <= tokens_used st')%Z.

(** A cell whose text the notebook loop adds: a markdown or a code cell. *)
Definition cell_text (c : cell) : option string :=
  match cell_type c with
  | Some kind =>
      if String.eqb kind "markdown"
      then Some (String.concat "" (get (source c) []))
      else if String.eqb kind "code"
      then Some ("```python" ++ NL ++ String.concat "" (get (source c) [])
                 ++ NL ++ "```" ++ NL ++ NL)
      else None
  | None => None
  end.

(** A path that the markdown loop does not pass over. *)
Definition not_readme (md_path : string) : bool :=
  negb (String.eqb (basename md_path) "README.md").

(** ['### ' + basename + two line feeds], added and counted. *)
Definition add_header (st : assembly) (path : string) : assembly :=
  add_counted st ("### " ++ basename path ++ NL ++ NL).

(** [''.join(cell.get('source', []))] *)
Definition cell_source (c : cell) : string :=
  String.concat "" (get (source c) []).

(** The loop over the cells of one notebook; it stops at the first cell
    that would exceed the budget. *)
Fixpoint add_cells (cells : list cell) (st : assembly) : assembly :=
  match cells with
  | [] => st
  | c :: rest =>
      match cell_type c with
      | Some kind =>
          if String.eqb kind "markdown" then
            let cell_content := cell_source c in
            let cell_tokens := (len cell_content / 4)%Z in
            if (tokens_used st + cell_tokens >? max_tokens)%Z
            then add_note st
                   ("*Note: Remaining cells omitted due to token limit*"
                    ++ NL ++ NL)
            else add_cells rest
                   (add st (cell_content ++ NL ++ NL) cell_tokens)
          else if String.eqb kind "code" then
            let cell_content := cell_source c in
            let code_block :=
              "```python" ++ NL ++ cell_content ++ NL ++ "```" ++ NL ++ NL in
            let code_tokens := (len code_block / 4)%Z in
            if (tokens_used st + code_tokens >? max_tokens)%Z
            then add_note st
                   ("*Note: Remaining cells omitted due to token limit*"
                    ++ NL ++ NL)
            else add_cells rest (add_counted st code_block)
          else add_cells rest st
      | None => add_cells rest st
      end
  end.

(** The loop over the notebooks (lines 258 to 300). *)
Fixpoint add_notebooks (max_notebook_cells : Z) (paths : list string)
  (st : assembly) : M world assembly :=
  match paths with
  | [] => ret st
  | notebook_path :: rest =>
      notebook_content <- read_file notebook_path ;;
      let st :=
        match nonempty notebook_content with
        | Some text =>
            let st := add_header st notebook_path in
            match json_loads text with
            | Return notebook_json =>
                let all_cells := get (cells notebook_json) [] in
                let cells_to_include :=
                  Z.min max_notebook_cells (Z.of_nat (List.length all_cells)) in
                add_cells (upto cells_to_include all_cells) st
            | Raise _ =>
                add_counted st ("Could not parse notebook content." ++ NL ++ NL)
            end
        | None => st
        end in
      add_notebooks max_notebook_cells rest st
  end.

(** The block of a file of code: its first lines, fenced. *)
Definition fenced (lang content : string) (max_lines : Z) : string :=
  let lines := split_lines content in
  let lines_to_include := Z.min max_lines (Z.of_nat (List.length lines)) in
  "```" ++ lang ++ NL ++ join NL (upto lines_to_include lines) ++ NL
  ++ "```" ++ NL ++ NL.

(** The loops over the Python, YAML, Terraform, shell and text files, which
    differ in the language of the fence, in the line limit and in the note
    left when the loop stops early.  The loop stops before a file when the
    estimate has passed nine tenths of the budget; the header of a file
    that is read is always added, its block only when the estimate with it
    stays within the budget. *)
Fixpoint add_code_files (lang stop_note : string) (max_lines : Z)
  (paths : list string) (st : assembly) : M world assembly :=
  match paths with
  | [] => ret st
  | path :: rest =>
      if (tokens_used st >? nine_tenths)%Z
      then ret (add_note st (stop_note ++ NL ++ NL))
      else
        content <- read_file path ;;
        let st :=
          match nonempty content with
          | Some text =>
              let st := add_header st path in
              let code_block := fenced lang text max_lines in
              let code_tokens := (len code_block / 4)%Z in
              if (tokens_used st + code_tokens >? max_tokens)%Z
              then add_note st
                     ("*Note: File content omitted due to token limit*"
                      ++ NL ++ NL)
              else add st code_block code_tokens
          | None => st
          end in
        add_code_files lang stop_note max_lines rest st
  end.

Definition additional_files_note : string :=
  "*Note: Additional files omitted due to token limit*".

(** Lines 302 to 327. *)
Definition add_python_files (max_python_lines : Z) :=
  add_code_files "python" additional_files_note max_python_lines.

(** The loop over the markdown files (lines 331 to 350): README.md is
    passed over; the loop stops before a file when the estimate has passed
    95 hundredths of the budget; the content of a file that is read is
    added whole. *)
Fixpoint add_markdown_files (paths : list string) (st : assembly)
  : M world assembly :=
  match paths with
  | [] => ret st
  | md_path :: rest =>
      if String.eqb (basename md_path) "README.md"
      then add_markdown_files rest st
      else if (tokens_used st >? ninety_five_hundredths)%Z
      then ret (add_note st
                  ("*Note: Additional markdown files omitted due to token limit*"
                   ++ NL ++ NL))
      else
        md_content <- read_file md_path ;;
        let st :=
          match nonempty md_content with
          | Some text =>
              let st := add_header st md_path in
              add st (text ++ NL ++ NL) (len text / 4)%Z
          | None => st
          end in
        add_markdown_files rest st
  end.

(** [important ++ filtered], each restricted to the files of one kind. *)
Definition prioritized (kind : string -> bool)
  (important_files filtered_files : list string) : list string :=
  (filter kind important_files ++ filter kind filtered_files)%list.

(** [get_folder_content_summary(folder_name, config)]; its callers always
    pass a configuration. *)
Definition get_folder_content_summary (folder_name : string) (config : config)
  : M world (option string) :=
  fun w =>
  let folder_path := joinpath REPO_ROOT folder_name in
  if negb (path_exists w folder_path) then (Return None, w)
  else
    let readme_path := joinpath folder_path "README.md" in
    (readme_content <-
       (if path_exists w readme_path then read_file readme_path
        else ret (Some "No README.md found.")) ;;
     all_files <- list_files folder_path ;;
     let (important_files, filtered_files) := filter_files all_files config in
     let sel := selection config in
     match readme_content with
     | None =>
         (* [readme_content + "\n\n"] with [readme_content] being [None] *)
         raise (OtherError "TypeError"
                  "unsupported operand type(s) for +: 'NoneType' and 'str'")
     | Some readme_content =>
         let summary :=
           overview folder_name readme_content all_files important_files
             filtered_files config in
         let st :=
           {| content_summary := summary;
              tokens_used := (len summary / 4)%Z |} in
         let paths kind := prioritized kind important_files filtered_files in
         st <- add_notebooks (get (max_notebook_cells sel) 10000%Z)
                 (upto (get (max_notebooks sel) 1000%Z)
                    (paths (has_ext ".ipynb"))) st ;;
         st <- add_python_files (get (max_python_lines sel) 100000%Z)
                 (upto (get (max_python_files sel) 1000%Z)
                    (paths (has_ext ".py"))) st ;;
         st <- add_markdown_files
                 (upto (get (max_markdown_files sel) 1000%Z)
                    (paths (has_ext ".md"))) st ;;
         st <- add_code_files "yaml"
                 "*Note: Additional YAML files omitted due to token limit*"
                 (get (max_yaml_lines sel) 100000%Z)
                 (upto (get (max_yaml_files sel) 1000%Z) (paths is_yaml)) st ;;
         st <- add_code_files "hcl" additional_files_note
                 (get (max_terraform_lines sel) 100000%Z)
                 (upto (get (max_terraform_files sel) 1000%Z)
                    (paths (has_ext ".tf"))) st ;;
         st <- add_code_files "bash" additional_files_note
                 (get (max_shell_lines sel) 100000%Z)
                 (upto (get (max_shell_files sel) 1000%Z)
                    (paths (has_ext ".sh"))) st ;;
         st <- add_code_files "" additional_files_note
                 (get (max_text_lines sel) 100000%Z)
                 (upto (get (max_text_files sel) 1000%Z)
                    (paths (has_ext ".txt"))) st ;;
         ret (Some (content_summary st))
     end) w.

(** *** generate_summary_with_bedrock, generate_summary_file and main *)

(** [open(path, 'w')] followed by [write(text)]; it may raise. *)
Definition write_file (path text : string) : M world unit :=
  fun w =>
    match open_write w path text with
    | Return _ => (Return tt, (w ++ [Wrote path text])%list)
    | Raise e => (Raise e, w)
    end.

(** [bedrock.converse(...)] followed by the extraction of the text of the
    response; the call is made whether or not it succeeds. *)
Definition converse (full_prompt : string) : M world string :=
  fun w => (bedrock_converse w full_prompt, (w ++ [Converse full_prompt])%list).

(** The prompt of a folder: the template with its placeholders replaced,
    the instruction about the title, and the content of the folder. *)
Definition full_prompt_of (folder_name prompt_template : string)
  (config : config) (folder_content : string) : string :=
  let complete_report_filename :=
    output_file_prefix config ++ folder_name ++ ".md" in
  let prompt := replace prompt_template "[codebase-folder-name]" folder_name in
  let prompt := replace prompt "[report-file-name]" complete_report_filename in
  let prompt :=
    replace prompt "[report-folder-name]" (output_directory config) in
  let prompt :=
    prompt ++ NL ++ NL
    ++ "IMPORTANT: Start your response directly with the title '# "
    ++ complete_report_filename
    ++ "' (not abbreviated). Do not include any introductory text, preamble, or markdown tags before the title. Begin with the exact title and proceed with the analysis." in
  prompt ++ NL ++ NL ++ "# Folder Content to Analyze" ++ NL ++ NL
  ++ folder_content.

(** The debug log of a prompt (lines 513 to 541). *)
Definition write_debug_log (folder_name full_prompt : string) : M world unit :=
  fun w =>
    let estimated_tokens := Z.to_nat (len full_prompt / 4) in
    let logs_dir := joinpath ANALYSIS_DIR "logs" in
    let safe_folder_name := replace folder_name "/" "_" in
    let debug_log_path :=
      joinpath logs_dir ("debug_" ++ safe_folder_name ++ ".log") in
    write_file debug_log_path
      ("# Debug Log for " ++ folder_name ++ NL
       ++ "# Generated on: " ++ now w ++ NL
       ++ "# Prompt length: " ++ str_of_nat (char_count full_prompt)
       ++ " characters" ++ NL
       ++ "# Estimated token count: ~" ++ str_of_nat estimated_tokens
       ++ " tokens" ++ NL ++ NL
       ++ "# FULL PROMPT:" ++ NL ++ NL
       ++ full_prompt
       ++ NL ++ NL ++ "# END OF PROMPT") w.

(** What [generate_summary_with_bedrock] does before its [try]: the prompt
    it is about to send, or [None] when the folder gives no content. *)
Definition prepare (folder_name prompt_template : string) (config : config)
  : M world (option string) :=
  folder_content <- get_folder_content_summary folder_name config ;;
  match nonempty folder_content with
  | None => ret None
  | Some folder_content =>
      let full_prompt :=
        full_prompt_of folder_name prompt_template config folder_content in
      _ <- (if debug_enabled config && debug_print_prompt config
            then write_debug_log folder_name full_prompt
            else ret tt) ;;
      _ <- (fun w => (bedrock_client w, w)) ;;
      ret (Some full_prompt)
  end.

Definition generate_summary_with_bedrock
  (folder_name prompt_template : string) (config : config)
  : M world (option string) :=
  prepared <- prepare folder_name prompt_template config ;;
  match prepared with
  | None => ret None
  | Some full_prompt =>
      try_except
        (_ <- lift (read_call_arguments config) ;;
         model_response <- converse full_prompt ;;
         let model_response :=
           CleanResponse.clean_model_response model_response in
         ret (Some model_response))
        (fun e => ret None)
  end.

(** The path of the summary of a folder. *)
Definition output_file_of (folder_name : string) (config : config) : string :=
  let safe_folder_name := replace folder_name "/" "_" in
  joinpath ANALYSIS_DIR
    (output_file_prefix config ++ safe_folder_name ++ ".md").

Definition generate_summary_file (folder_name prompt_template : string)
  (config : config) : M world bool :=
  fun w =>
    let output_file := output_file_of folder_name config in
    if path_exists w output_file then (Return true, w)
    else
      (summary <- generate_summary_with_bedrock folder_name prompt_template
                    config ;;
       match nonempty summary with
       | Some summary =>
           _ <- write_file output_file summary ;;
           ret true
       | None => ret false
       end) w.

(** The loop of [main] over the folders. *)
Fixpoint process (folders : list string) (prompt_template : string)
  (config : config) (success_count : nat) : M world nat :=
  match folders with
  | [] => ret success_count
  | folder :: rest =>
      ok <- generate_summary_file folder prompt_template config ;;
      if ok : bool then
        _ <- emit (Slept 5) ;;
        process rest prompt_template config (S success_count)
      else process rest prompt_template config success_count
  end.

(** The folders named in config.yml that are neither [None] nor empty. *)
Fixpoint named (folders : list (option string)) : list string :=
  match folders with
  | [] => []
  | folder :: rest =>
      match nonempty folder with
      | Some name => name :: named rest
      | None => named rest
      end
  end.

(** [main()], given [sys.argv[1:]]: the number of summaries generated and
    the number of folders, or [None] when it returns early. *)
Definition main (args : list string) : M world (option (nat * nat)) :=
  config <- load_config ;;
  match config with
  | None => ret None
  | Some config =>
      prompt_template <- read_file PROMPT_TEMPLATE_PATH ;;
      match nonempty prompt_template with
      | None => ret None
      | Some prompt_template =>
          let folders :=
            match args with
            | [] => named (folders_to_analyze config)
            | _ => args
            end in
          (* line 735 prints [config['model']['name']] *)
          _ <- lift (model_name_of config) ;;
          success_count <- process folders prompt_template config 0 ;;
          ret (Some (success_count, List.length folders))
      end
  end.

End Script.

End GenerateSummaries.

(** ** Sample inputs and environments *)

Module Samples.
Import Py Models PyStr.

(** [fnmatch.fnmatch(name, pattern)] for the patterns made of literal
    characters, [*] and [?]. *)
Fixpoint glob_star (rest : string -> bool) (name : string) : bool :=
  rest name ||
  match name with
  | EmptyString => false
  | String _ name' => glob_star rest name'
  end.

Fixpoint glob (pattern name : string) : bool :=
  match pattern with
  | EmptyString => String.eqb name ""
  | String c pattern' =>
      if Ascii.eqb c "*" then glob_star (glob pattern') name
      else match name with
           | EmptyString => false
           | String d name' =>
               (Ascii.eqb c "?" || Ascii.eqb c d) && glob pattern' name'
           end
  end.

Definition fnmatch (name pattern : string) : bool := glob pattern name.

(** Requests. *)
Definition text_request (text : string) : AgenticRequest :=
  {| message := {| role := "user"; content := [TextContent text] |};
     session_id := Some "test-session-1";
     stream := None |}.

Definition streaming_request : AgenticRequest :=
  {| message := {| role := "user"; content := [TextContent "Hello"] |};
     session_id := Some "test-session-2";
     stream := Some true |}.

Definition empty_request : AgenticRequest :=
  {| message := {| role := "user"; content := [] |};
     session_id := None;
     stream := None |}.

(** A coordinator that answers, and one that fails. *)
Definition answering : StrandsMultiAgentChatAgent.world -> string ->
                       result string :=
  fun _ _ => Return "4".

Definition failing : StrandsMultiAgentChatAgent.world -> string ->
                     result string :=
  fun _ _ => Raise (OtherError "TimeoutError" "timed out").

(** A framework stream of two chunks that then fails, and a converter that
    turns a chunk into one text delta. *)
Definition broken_stream : StrandsMultiAgentChatAgent.world -> string ->
                           list string * option exception :=
  fun _ _ => (["a"; "b"], Some (OtherError "ConnectionError" "reset")).

Definition text_converter : string -> string ->
                            result (list StreamEvent) * string :=
  fun session chunk => (Return [TextDeltaEvent session chunk], session).

(** A converter that numbers the chunks it has seen: its state is the
    count so far and the session. *)
Definition counting_converter : nat * string -> string ->
                                result (list StreamEvent) * (nat * string) :=
  fun conv chunk =>
    let (seen, session) := conv in
    (Return [TextDeltaEvent session (str_of_nat seen ++ ":" ++ chunk)],
     (S seen, session)).

(** A converter that raises on the chunk ["b"]. *)
Definition choking_converter : string -> string ->
                               result (list StreamEvent) * string :=
  fun session chunk =>
    if String.eqb chunk "b" then (Raise (ValueError "bad chunk"), session)
    else (Return [TextDeltaEvent session chunk], session).

(** A chat service that answers inside response tags. *)
Definition chat_service : ChatController.world -> ChatController.ChatPrompt ->
                          result string :=
  fun _ _ => Return "<response> Hi! </response>".

(** A configuration and a small repository: the folder docs holds a.py
    and notes.md and has no README. *)
Definition no_selection : GenerateSummaries.file_selection :=
  {| GenerateSummaries.include_patterns := Some ["*.py"];
     GenerateSummaries.exclude_patterns := Some ["*.py"; "*.log"];
     GenerateSummaries.max_notebooks := None;
     GenerateSummaries.max_notebook_cells := None;
     GenerateSummaries.max_python_files := None;
     GenerateSummaries.max_python_lines := None;
     GenerateSummaries.max_markdown_files := None;
     GenerateSummaries.max_yaml_files := None;
     GenerateSummaries.max_yaml_lines := None;
     GenerateSummaries.max_terraform_files := None;
     GenerateSummaries.max_terraform_lines := None;
     GenerateSummaries.max_shell_files := None;
     GenerateSummaries.max_shell_lines := None;
     GenerateSummaries.max_text_files := None;
     GenerateSummaries.max_text_lines := None |}.

Definition sample_config : GenerateSummaries.config :=
  {| GenerateSummaries.selection := no_selection;
     GenerateSummaries.output_file_prefix := "summary_";
     GenerateSummaries.output_directory := "my-analysis";
     GenerateSummaries.model :=
       Some {| GenerateSummaries.model_id := Some "model-1";
               GenerateSummaries.model_name := Some "Model One" |};
     GenerateSummaries.inference_config :=
       Some {| GenerateSummaries.temperature := Some "0.0";
               GenerateSummaries.inference_max_tokens := Some 4096%Z |};
     GenerateSummaries.debug_enabled := false;
     GenerateSummaries.debug_print_prompt := false;
     GenerateSummaries.folders_to_analyze := [Some "docs"; None] |}.

(** The same configuration without its [inference_config] section. *)
Definition config_without_inference : GenerateSummaries.config :=
  {| GenerateSummaries.selection := no_selection;
     GenerateSummaries.output_file_prefix := "summary_";
     GenerateSummaries.output_directory := "my-analysis";
     GenerateSummaries.model :=
       Some {| GenerateSummaries.model_id := Some "model-1";
               GenerateSummaries.model_name := Some "Model One" |};
     GenerateSummaries.inference_config := None;
     GenerateSummaries.debug_enabled := false;
     GenerateSummaries.debug_print_prompt := false;
     GenerateSummaries.folders_to_analyze := [Some "docs"; None] |}.

Definition joinpath (a b : string) : string := a ++ "/" ++ b.

Definition sample_files : list string :=
  ["/repo/docs/a.py"; "/repo/docs/notes.md"; "/repo/docs/run.log"].

(** The environment: [summarized] tells whether the summary of docs exists
    already, [answer] is what [bedrock.converse] gives. *)
Definition exists_in (summarized : bool) (w : GenerateSummaries.world)
  (path : string) : bool :=
  String.eqb path "/repo/docs"
  || (summarized && String.eqb path "/repo/my-analysis/summary_docs.md").

Definition open_read (w : GenerateSummaries.world) (path : string)
  : result string :=
  if String.eqb path "/repo/my-analysis/config.yml" then Return "folders: docs"
  else if String.eqb path "/repo/my-analysis/prompts.md"
  then Return "Summarize [codebase-folder-name] into [report-file-name]."
  else if String.eqb path "/repo/docs/a.py" then Return "print(1)"
  else if String.eqb path "/repo/docs/notes.md" then Return "Some notes."
  else Raise (OtherError "FileNotFoundError" path).

Definition open_write (w : GenerateSummaries.world) (path text : string)
  : result unit := Return tt.

Definition os_walk (w : GenerateSummaries.world) (directory : string)
  : list string :=
  if String.eqb directory "/repo/docs" then sample_files else [].

Definition yaml_safe_load (text : string)
  : result (option GenerateSummaries.config) := Return (Some sample_config).

Definition json_loads (text : string) : result GenerateSummaries.notebook :=
  Raise (OtherError "JSONDecodeError" "Expecting value").

Definition bedrock_client (w : GenerateSummaries.world) : result unit :=
  Return tt.

Definition now (w : GenerateSummaries.world) : string :=
  "2025-01-01 at 00:00:00".

Definition throttled : result string :=
  Raise (OtherError "ThrottlingException" "Too many requests").

(** [main()] and [generate_summary_file] in that environment. *)
Definition run_main (summarized : bool) (answer : result string)
  (args : list string) :=
  GenerateSummaries.main "/repo" "/repo/my-analysis" joinpath
    (exists_in summarized) open_read open_write os_walk yaml_safe_load
    json_loads fnmatch bedrock_client (fun _ _ => answer) now args [].

(** [generate_summary_file] and what [generate_summary_with_bedrock]
    prepares for the folder docs in that environment when no summary
    exists, and the prompt prepared. *)
Definition prompt_template : string :=
  "Summarize [codebase-folder-name] into [report-file-name].".

Definition summarize_docs (answer : result string) :=
  GenerateSummaries.generate_summary_file "/repo" "/repo/my-analysis" joinpath
    (exists_in false) open_read open_write os_walk json_loads fnmatch
    bedrock_client (fun _ _ => answer) now "docs" prompt_template
    sample_config [].

Definition docs_prepared :=
  GenerateSummaries.prepare "/repo" "/repo/my-analysis" joinpath
    (exists_in false) open_read open_write os_walk json_loads fnmatch
    bedrock_client now "docs" prompt_template sample_config [].

Definition docs_prompt : string :=
  match fst docs_prepared with
  | Return (Some full_prompt) => full_prompt
  | _ => ""
  end.

(** A second folder, guide, which holds a README.md and nothing else;
    [readme] is the text of the README. *)
Definition guide_exists (w : GenerateSummaries.world) (path : string) : bool :=
  String.eqb path "/repo/guide" || String.eqb path "/repo/guide/README.md".

Definition guide_read (readme : string) (w : GenerateSummaries.world)
  (path : string) : result string :=
  if String.eqb path "/repo/guide/README.md" then Return readme
  else Raise (OtherError "FileNotFoundError" path).

Definition guide_walk (w : GenerateSummaries.world) (directory : string)
  : list string :=
  if String.eqb directory "/repo/guide" then ["/repo/guide/README.md"] else [].

Definition summarize_guide (readme : string) :=
  GenerateSummaries.get_folder_content_summary "/repo" joinpath guide_exists
    (guide_read readme) guide_walk json_loads fnmatch "guide" sample_config [].

(** The folder guide when its README cannot be read. *)
Definition summarize_unreadable_guide :=
  GenerateSummaries.get_folder_content_summary "/repo" joinpath guide_exists
    open_read guide_walk json_loads fnmatch "guide" sample_config [].

(** The loop of [main] over guide and docs when the README of guide cannot
    be read. *)
Definition process_unreadable_guide :=
  GenerateSummaries.process "/repo" "/repo/my-analysis" joinpath
    (fun w path => guide_exists w path || exists_in false w path)
    open_read open_write guide_walk json_loads fnmatch bedrock_client
    (fun _ _ => Return "# SUMMARY") now ["guide"; "docs"] prompt_template
    sample_config 0 [].

(** A file system in which only the README of guide can be read, so that
    config.yml cannot. *)
Definition guide_walk_read (w : GenerateSummaries.world) (path : string)
  : result string := guide_read "Guide." w path.



End Samples.

(* ================================================================== *)
(** * Part II: properties                                               *)
(* ================================================================== *)

(** ** Strings *)

Lemma append_assoc (a b c : string) : (a ++ b) ++ c = a ++ (b ++ c).
Proof. induction a as [|x a IH]; simpl; [reflexivity | now rewrite IH]. Qed.

Lemma append_empty_r (a : string) : a ++ "" = a.
Proof. induction a as [|x a IH]; simpl; [reflexivity | now rewrite IH]. Qed.

Lemma prefix_iff (p s : string) :
  prefix p s = true <-> exists rest, s = p ++ rest.
Proof.
  revert s; induction p as [|a p IH]; intros s; simpl.
  - split; [intros _; exists s; reflexivity | now destruct s].
  - destruct s as [|b s]; simpl.
    + split; [discriminate | intros [r Hr]; discriminate].
    + destruct (ascii_dec a b) as [->|Hab].
      * rewrite IH. split; intros [r Hr]; exists r.
        -- now rewrite Hr.
        -- now inversion Hr.
      * split; [discriminate | intros [r Hr]; inversion Hr; subst; now elim Hab].
Qed.

Lemma contains_iff (sub s : string) :
  PyStr.contains sub s = true <-> PyStr.Substring sub s.
Proof.
  unfold PyStr.Substring.
  induction s as [|c s IH].
  - change (PyStr.contains sub "") with (prefix sub "").
    rewrite prefix_iff. split.
    + intros [r Hr]. exists "", r. exact Hr.
    + intros (pre & post & H). destruct pre; simpl in H.
      * now exists post.
      * discriminate.
  - change (PyStr.contains sub (String c s))
      with (prefix sub (String c s) || PyStr.contains sub s).
    rewrite orb_true_iff, IH, prefix_iff. split.
    + intros [[r Hr] | (pre & post & H)].
      * exists "", r. exact Hr.
      * exists (String c pre), post. simpl. now rewrite H.
    + intros (pre & post & H). destruct pre as [|x pre]; simpl in H.
      * left. now exists post.
      * right. inversion H. now exists pre, post.
Qed.

(** ** More on strings *)

Lemma length_append (a b : string) :
  String.length (a ++ b) = String.length a + String.length b.
Proof. induction a as [|x a IH]; simpl; [reflexivity | now rewrite IH]. Qed.

Lemma drop_append (a b : string) : PyStr.drop (String.length a) (a ++ b) = b.
Proof. induction a as [|x a IH]; simpl; [now destruct b | exact IH]. Qed.

Lemma take_append (a b : string) : PyStr.take (String.length a) (a ++ b) = a.
Proof. induction a as [|x a IH]; simpl; [now destruct b | now rewrite IH]. Qed.

Lemma take_drop (n : nat) (s : string) : PyStr.take n s ++ PyStr.drop n s = s.
Proof.
  revert s; induction n as [|n IH]; intros [|c s]; simpl; trivial.
  now rewrite IH.
Qed.

Lemma find_unfold (sub s : string) :
  PyStr.find sub s =
  if prefix sub s then 0%Z
  else match s with
       | EmptyString => (-1)%Z
       | String _ s' =>
           let i := PyStr.find sub s' in
           if (i <? 0)%Z then (-1)%Z else (i + 1)%Z
       end.
Proof. destruct s; reflexivity. Qed.

Lemma contains_unfold (sub s : string) :
  PyStr.contains sub s =
  match s with
  | EmptyString => prefix sub EmptyString
  | String _ s' => prefix sub s || PyStr.contains sub s'
  end.
Proof. destruct s; reflexivity. Qed.

Lemma find_prefix (sub s : string) :
  PyStr.contains sub s = true ->
  exists i : nat, PyStr.find sub s = Z.of_nat i
                  /\ prefix sub (PyStr.drop i s) = true.
Proof.
  induction s as [|c s IH]; rewrite contains_unfold, find_unfold.
  - intros H. exists 0. now rewrite H.
  - destruct (prefix sub (String c s)) eqn:E.
    + intros _. exists 0. now split.
    + intros H. destruct (IH H) as (i & Hi & Hp).
      exists (S i). split; [|exact Hp].
      rewrite Hi. cbv zeta.
      destruct (Z.ltb_spec (Z.of_nat i) 0); lia.
Qed.

Lemma slice_from_find (sub s : string) :
  PyStr.contains sub s = true ->
  exists rest, PyStr.slice_from (PyStr.find sub s) s = sub ++ rest.
Proof.
  intros H. destruct (find_prefix sub s H) as (i & Hi & Hp).
  apply prefix_iff in Hp. destruct Hp as [rest Hr].
  exists rest. unfold PyStr.slice_from. rewrite Hi.
  destruct (Z.ltb_spec (Z.of_nat i) 0); [lia|].
  now rewrite Nat2Z.id.
Qed.

Lemma split_lines_cons (s : string) :
  exists line lines, PyStr.split_lines s = line :: lines.
Proof.
  induction s as [|c s (line & lines & IH)]; simpl; eauto.
  destruct (Ascii.eqb c PyStr.nl); eauto. rewrite IH. eauto.
Qed.

Lemma split_lines_append (p s : string) :
  PyStr.one_line p = true ->
  exists line lines,
    PyStr.split_lines s = line :: lines
    /\ PyStr.split_lines (p ++ s) = (p ++ line) :: lines.
Proof.
  intros Hp. induction p as [|c p IH]; simpl.
  - destruct (split_lines_cons s) as (line & lines & E). eauto.
  - simpl in Hp. apply andb_true_iff in Hp. destruct Hp as [Hc Hp].
    destruct (IH Hp) as (line & lines & E1 & E2).
    exists line, lines. split; [exact E1|].
    destruct (Ascii.eqb c PyStr.nl); [discriminate|]. now rewrite E2.
Qed.

Lemma join_split_lines (s : string) :
  PyStr.join PyStr.NL (PyStr.split_lines s) = s.
Proof.
  unfold PyStr.join. induction s as [|c s IH]; simpl; trivial.
  destruct (Ascii.eqb_spec c PyStr.nl) as [->|Hc].
  - destruct (split_lines_cons s) as (line & lines & E).
    rewrite E in *. simpl. simpl in IH. now rewrite IH.
  - destruct (split_lines_cons s) as (line & lines & E).
    rewrite E in *. simpl in *. destruct lines; simpl in *; now rewrite IH.
Qed.

Lemma join_cons_prefix (p line : string) (lines : list string) :
  exists rest, PyStr.join PyStr.NL ((p ++ line) :: lines) = p ++ rest.
Proof.
  unfold PyStr.join. destruct lines as [|l ls]; simpl.
  - eauto.
  - rewrite append_assoc. eauto.
Qed.

(** ** The strategy heuristic *)

Section StrategyFacts.
Import MultiAgentChatAgent.
Variable str_lower : string -> string.

Lemma any_keyword_in_iff (c : category) (query : string) :
  any_keyword_in (keywords c) (str_lower query) = true
  <-> called_for str_lower query c.
Proof.
  unfold any_keyword_in, called_for. rewrite existsb_exists.
  split; intros (k & Hin & Hk); exists k; split; trivial;
    now apply contains_iff.
Qed.

End StrategyFacts.

(** C1: for every query, [_determine_agent_strategy] returns the labels,
    joined by a comma and a space and taken in the fixed order research,
    analysis, creative, of exactly the categories one of whose keywords
    occurs in the lowercased query; when no keyword of any category occurs it
    returns the default label coordinator. *)
Theorem determine_agent_strategy_spec :
  forall (str_lower : string -> string) (query : string),
  exists cs : list MultiAgentChatAgent.category,
    (forall c, In c cs <-> MultiAgentChatAgent.called_for str_lower query c)
    /\ StronglySorted
         (fun a b => MultiAgentChatAgent.rank a < MultiAgentChatAgent.rank b)
         cs
    /\ MultiAgentChatAgent._determine_agent_strategy str_lower query =
       match cs with
       | [] => "coordinator"
       | _ => PyStr.join ", " (map MultiAgentChatAgent.label cs)
       end
    /\ ((forall c, ~ MultiAgentChatAgent.called_for str_lower query c) ->
        MultiAgentChatAgent._determine_agent_strategy str_lower query =
        "coordinator").
Proof.
  intros str_lower query.
  pose proof (any_keyword_in_iff str_lower MultiAgentChatAgent.Research query)
    as HR.
  pose proof (any_keyword_in_iff str_lower MultiAgentChatAgent.Analysis query)
    as HA.
  pose proof (any_keyword_in_iff str_lower MultiAgentChatAgent.Creative query)
    as HC.
  unfold MultiAgentChatAgent._determine_agent_strategy.
  simpl MultiAgentChatAgent.keywords in HR, HA, HC.
  set (bR := MultiAgentChatAgent.any_keyword_in
               MultiAgentChatAgent.research_keywords (str_lower query)) in *.
  set (bA := MultiAgentChatAgent.any_keyword_in
               MultiAgentChatAgent.analysis_keywords (str_lower query)) in *.
  set (bC := MultiAgentChatAgent.any_keyword_in
               MultiAgentChatAgent.creative_keywords (str_lower query)) in *.
  exists ((if bR then [MultiAgentChatAgent.Research] else [])
          ++ (if bA then [MultiAgentChatAgent.Analysis] else [])
          ++ (if bC then [MultiAgentChatAgent.Creative] else []))%list.
  split; [|split; [|split]].
  - intros c. destruct c;
      [rewrite <- HR | rewrite <- HA | rewrite <- HC];
      destruct bR, bA, bC; simpl; intuition congruence.
  - destruct bR, bA, bC; simpl;
      repeat (constructor; simpl; try lia).
  - destruct bR, bA, bC; reflexivity.
  - intros Hnone.
    destruct bR;
      [exfalso; apply (Hnone MultiAgentChatAgent.Research), HR; reflexivity|].
    destruct bA;
      [exfalso; apply (Hnone MultiAgentChatAgent.Analysis), HA; reflexivity|].
    destruct bC;
      [exfalso; apply (Hnone MultiAgentChatAgent.Creative), HC; reflexivity|].
    reflexivity.
Qed.

Lemma determine_agent_strategy_spec_witness :
  MultiAgentChatAgent._determine_agent_strategy PyStr.lower "Hello there"
  = "coordinator".
Proof.
  destruct (determine_agent_strategy_spec PyStr.lower "Hello there")
    as (cs & _ & _ & _ & Hdefault).
  apply Hdefault. intros c H. apply any_keyword_in_iff in H.
  destruct c; vm_compute in H; discriminate H.
Defined.

Example strategy_research_analysis :
  MultiAgentChatAgent._determine_agent_strategy PyStr.lower
    "Find the data and SOLVE it" = "research, analysis".
Proof. reflexivity. Qed.

Example strategy_default :
  MultiAgentChatAgent._determine_agent_strategy PyStr.lower "Hello there"
  = "coordinator".
Proof. reflexivity. Qed.

(** ** The controller *)

(** C10: a request with [stream] set to [True] makes the controller's
    [invoke] raise [ValueError] with the message about the /stream endpoint
    and leaves the world as it was, so the agent is never called; a request
    with [stream] unset or [False] gets exactly what the agent's [invoke]
    gives; hence [invoke] raises if and only if the request asks for
    streaming or the agent itself raises. *)
Theorem controller_invoke_spec :
  forall (W : Type)
         (agent_invoke : Models.AgenticRequest -> Py.M W Models.AgenticResponse)
         (request : Models.AgenticRequest) (w : W),
    (Models.stream request = Some true ->
     MultiAgentChatController.invoke W agent_invoke request w =
     (Py.Raise
        (Py.ValueError "Streaming requests should use the /stream endpoint"),
      w))
    /\ (Models.stream request = None \/ Models.stream request = Some false ->
        MultiAgentChatController.invoke W agent_invoke request w =
        agent_invoke request w)
    /\ (Py.raises (fst (MultiAgentChatController.invoke W agent_invoke
                          request w))
        <-> Models.stream request = Some true
            \/ Py.raises (fst (agent_invoke request w))).
Proof.
  intros W agent_invoke request w.
  unfold MultiAgentChatController.invoke, Models.truthy_flag.
  destruct (Models.stream request) as [[|]|]; simpl.
  - repeat split; auto. intros [H|H]; discriminate.
  - repeat split; try discriminate; auto.
    intros [H|H]; [discriminate | exact H].
  - repeat split; try discriminate; auto.
    intros [H|H]; [discriminate | exact H].
Qed.

Lemma controller_invoke_spec_witness :
  MultiAgentChatController.invoke StrandsMultiAgentChatAgent.world
    (StrandsMultiAgentChatAgent.invoke PyStr.lower Samples.answering)
    Samples.streaming_request []
  = (Py.Raise
       (Py.ValueError "Streaming requests should use the /stream endpoint"),
     [])
  /\ MultiAgentChatController.invoke StrandsMultiAgentChatAgent.world
       (StrandsMultiAgentChatAgent.invoke PyStr.lower Samples.answering)
       (Samples.text_request "What is 2 + 2?") []
     = StrandsMultiAgentChatAgent.invoke PyStr.lower Samples.answering
         (Samples.text_request "What is 2 + 2?") [].
Proof.
  split.
  - apply (controller_invoke_spec StrandsMultiAgentChatAgent.world
             (StrandsMultiAgentChatAgent.invoke PyStr.lower Samples.answering)
             Samples.streaming_request []).
    reflexivity.
  - apply (controller_invoke_spec StrandsMultiAgentChatAgent.world
             (StrandsMultiAgentChatAgent.invoke PyStr.lower Samples.answering)
             (Samples.text_request "What is 2 + 2?") []).
    left. reflexivity.
Defined.


(** ** Requests *)

Lemma first_text_none (blocks : list Models.content_block) :
  Models.first_text blocks = None
  <-> ~ exists text, In (Models.TextContent text) blocks.
Proof.
  induction blocks as [|b blocks IH]; simpl.
  - split; [intros _ [t []] | reflexivity].
  - destruct b as [text | ty payload].
    + split; [discriminate | intros H; exfalso; apply H; eauto].
    + rewrite IH. split; intros H [t Ht]; apply H; exists t.
      * destruct Ht as [Ht | Ht]; [discriminate | exact Ht].
      * now right.
Qed.

Lemma get_text_content_none (m : Models.Message) :
  Models.get_text_content m = None <-> ~ Models.has_text m.
Proof. apply first_text_none. Qed.

Lemma get_text_content_some (m : Models.Message) :
  Models.has_text m -> exists text, Models.get_text_content m = Some text.
Proof.
  intros H. destruct (Models.get_text_content m) as [t|] eqn:E; eauto.
  apply get_text_content_none in E. contradiction.
Qed.

(** [session_id or "default"]: the identifier when it is a non-empty string,
    the default when it is [None] or empty. *)
Lemma or_default_cases (session_id : option string) :
  (forall s, session_id = Some s -> s <> "" ->
             Models.or_default session_id = s)
  /\ (session_id = None \/ session_id = Some "" ->
      Models.or_default session_id = "default").
Proof.
  split.
  - intros s -> Hs. simpl. destruct (String.eqb_spec s ""); simpl; congruence.
  - intros [-> | ->]; reflexivity.
Qed.

(** ** The agent's streaming entry point *)

(** What the loop of [invoke_stream] yields is what the converter makes of
    the events, up to the exception that interrupts it. *)
Lemma forward_converted (strands_event converter : Type)
  (convert :
     converter -> strands_event ->
     Py.result (list Models.StreamEvent) * converter)
  (conv conv' : converter) (events : list strands_event)
  (outs : list Models.StreamEvent) (at_end : option Py.exception) :
  StrandsMultiAgentChatAgent.Converted strands_event converter convert
    conv events outs conv' ->
  StrandsMultiAgentChatAgent.forward strands_event converter convert
    conv events at_end
  = (outs, at_end).
Proof.
  induction 1 as [conv|conv conv1 conv2 event events pes outs Hc _ IH].
  - reflexivity.
  - cbn [StrandsMultiAgentChatAgent.forward]. now rewrite Hc, IH.
Qed.

Lemma forward_interrupted (strands_event converter : Type)
  (convert :
     converter -> strands_event ->
     Py.result (list Models.StreamEvent) * converter)
  (conv conv' conv'' : converter) (before after : list strands_event)
  (event : strands_event) (outs : list Models.StreamEvent)
  (e : Py.exception) (at_end : option Py.exception) :
  StrandsMultiAgentChatAgent.Converted strands_event converter convert
    conv before outs conv' ->
  convert conv' event = (Py.Raise e, conv'') ->
  StrandsMultiAgentChatAgent.forward strands_event converter convert
    conv (before ++ event :: after)%list at_end
  = (outs, Some e).
Proof.
  intros H He.
  induction H as [conv|conv conv1 conv2 ev events pes outs Hc _ IH].
  - cbn [app StrandsMultiAgentChatAgent.forward]. now rewrite He.
  - cbn [app StrandsMultiAgentChatAgent.forward].
    now rewrite Hc, (IH He).
Qed.

(** C7: for a request whose message has no text content block,
    [invoke_stream] yields exactly one event, the [ErrorEvent] with the
    request's session identifier (the default when it is unset) and the text
    "No text content found in request message", and stops with the world
    unchanged, so the coordinator agent is not invoked; no exception leaves
    the generator.  For a request with text: when the converter raises on
    none of the framework's events, the events yielded are what the
    converter makes of them, in order, followed by one [ErrorEvent] with the
    text of the exception when the framework's iterator raises at the end,
    and by nothing when it ends normally; and when the converter raises on
    an event, the events yielded are what it made of the events before,
    followed by one [ErrorEvent] with the text of that exception. *)
Theorem invoke_stream_spec :
  forall (str_lower : string -> string) (strands_event : Type)
         (stream_async :
            StrandsMultiAgentChatAgent.world -> string ->
            list strands_event * option Py.exception)
         (converter : Type) (new_converter : string -> converter)
         (convert :
            converter -> strands_event ->
            Py.result (list Models.StreamEvent) * converter)
         (request : Models.AgenticRequest)
         (w : StrandsMultiAgentChatAgent.world),
  let run :=
    StrandsMultiAgentChatAgent.invoke_stream str_lower strands_event
      stream_async converter new_converter convert request w in
  let enhanced query :=
    StrandsMultiAgentChatAgent.enhance
      (MultiAgentChatAgent._determine_agent_strategy str_lower query) query in
  exists sid : string,
    ((forall s, Models.session_id request = Some s -> s <> "" -> sid = s)
     /\ (Models.session_id request = None \/
         Models.session_id request = Some "" -> sid = "default"))
    /\ (~ Models.has_text (Models.message request) ->
        run =
        ({| StrandsMultiAgentChatAgent.yielded :=
              [Models.ErrorEvent sid "No text content found in request message"];
            StrandsMultiAgentChatAgent.propagated := None |}, w))
    /\ StrandsMultiAgentChatAgent.propagated (fst run) = None
    /\ (forall query events at_end outs conv',
          Models.get_text_content (Models.message request) = Some query ->
          stream_async w (enhanced query) = (events, at_end) ->
          StrandsMultiAgentChatAgent.Converted strands_event converter convert
            (new_converter sid) events outs conv' ->
          StrandsMultiAgentChatAgent.yielded (fst run)
          = (outs ++ match at_end with
                     | Some e => [Models.ErrorEvent sid (Py.str_of e)]
                     | None => []
                     end)%list)
    /\ (forall query before event after at_end outs conv' conv'' e,
          Models.get_text_content (Models.message request) = Some query ->
          stream_async w (enhanced query)
          = ((before ++ event :: after)%list, at_end) ->
          StrandsMultiAgentChatAgent.Converted strands_event converter convert
            (new_converter sid) before outs conv' ->
          convert conv' event = (Py.Raise e, conv'') ->
          StrandsMultiAgentChatAgent.yielded (fst run)
          = (outs ++ [Models.ErrorEvent sid (Py.str_of e)])%list).
Proof.
  intros str_lower strands_event stream_async converter new_converter convert
    request w run enhanced.
  exists (Models.or_default (Models.session_id request)).
  split; [apply or_default_cases|].
  subst run enhanced. unfold StrandsMultiAgentChatAgent.invoke_stream.
  destruct (Models.get_text_content (Models.message request)) as [query|] eqn:E.
  - split; [|split; [|split]].
    + intros H. apply get_text_content_none in H. congruence.
    + destruct (stream_async w _) as [events at_end].
      destruct (StrandsMultiAgentChatAgent.forward _ _ _ _ _ _) as [ys [e|]];
        reflexivity.
    + intros q events at_end outs conv' Hq Hs Hc. inversion Hq; subst q.
      cbv zeta. rewrite Hs, (forward_converted _ _ _ _ _ _ _ at_end Hc).
      destruct at_end; cbn; [reflexivity | now rewrite app_nil_r].
    + intros q before event after at_end outs conv' conv'' e Hq Hs Hc He.
      inversion Hq; subst q. cbv zeta.
      rewrite Hs, (forward_interrupted _ _ _ _ _ _ _ after _ _ _ at_end Hc He).
      reflexivity.
  - split; [|split; [|split]].
    + reflexivity.
    + reflexivity.
    + intros q events at_end outs conv' Hq. discriminate.
    + intros q before event after at_end outs conv' conv'' e Hq. discriminate.
Qed.

Lemma invoke_stream_spec_witness :
  (exists sid : string,
     sid = "default"
     /\ StrandsMultiAgentChatAgent.invoke_stream PyStr.lower string
          Samples.broken_stream string (fun session => session)
          Samples.text_converter Samples.empty_request []
        = ({| StrandsMultiAgentChatAgent.yielded :=
                [Models.ErrorEvent sid
                   "No text content found in request message"];
              StrandsMultiAgentChatAgent.propagated := None |}, []))
  /\ StrandsMultiAgentChatAgent.yielded
       (fst (StrandsMultiAgentChatAgent.invoke_stream PyStr.lower string
               Samples.broken_stream string (fun session => session)
               Samples.text_converter (Samples.text_request "Find it") []))
     = [Models.TextDeltaEvent "test-session-1" "a";
        Models.TextDeltaEvent "test-session-1" "b";
        Models.ErrorEvent "test-session-1" "reset"]
  /\ StrandsMultiAgentChatAgent.yielded
       (fst (StrandsMultiAgentChatAgent.invoke_stream PyStr.lower string
               Samples.broken_stream string (fun session => session)
               Samples.choking_converter (Samples.text_request "Find it") []))
     = [Models.TextDeltaEvent "test-session-1" "a";
        Models.ErrorEvent "test-session-1" "bad chunk"].
Proof.
  split; [|split].
  - destruct (invoke_stream_spec PyStr.lower string Samples.broken_stream
                string (fun session => session) Samples.text_converter
                Samples.empty_request [])
      as (sid & [_ Hdefault] & Hempty & _).
    exists sid. split.
    + apply Hdefault. left. reflexivity.
    + apply Hempty. intros [text []].
  - destruct (invoke_stream_spec PyStr.lower string Samples.broken_stream
                string (fun session => session) Samples.text_converter
                (Samples.text_request "Find it") [])
      as (sid & [Hsid _] & _ & _ & Hends & _).
    rewrite (Hsid "test-session-1" eq_refl ltac:(discriminate)) in Hends.
    apply (Hends "Find it" ["a"; "b"]
             (Some (Py.OtherError "ConnectionError" "reset"))
             [Models.TextDeltaEvent "test-session-1" "a";
              Models.TextDeltaEvent "test-session-1" "b"]
             "test-session-1" eq_refl eq_refl).
    exact (StrandsMultiAgentChatAgent.Converted_cons string string
             Samples.text_converter _ _ _ "a" ["b"]
             [Models.TextDeltaEvent "test-session-1" "a"]
             [Models.TextDeltaEvent "test-session-1" "b"] eq_refl
             (StrandsMultiAgentChatAgent.Converted_cons string string
                Samples.text_converter _ _ _ "b" []
                [Models.TextDeltaEvent "test-session-1" "b"] [] eq_refl
                (StrandsMultiAgentChatAgent.Converted_nil string string
                   Samples.text_converter "test-session-1"))).
  - destruct (invoke_stream_spec PyStr.lower string Samples.broken_stream
                string (fun session => session) Samples.choking_converter
                (Samples.text_request "Find it") [])
      as (sid & [Hsid _] & _ & _ & _ & Hbreaks).
    rewrite (Hsid "test-session-1" eq_refl ltac:(discriminate)) in Hbreaks.
    apply (Hbreaks "Find it" ["a"] "b" []
             (Some (Py.OtherError "ConnectionError" "reset"))
             [Models.TextDeltaEvent "test-session-1" "a"]
             "test-session-1" "test-session-1"
             (Py.ValueError "bad chunk") eq_refl eq_refl).
    + exact (StrandsMultiAgentChatAgent.Converted_cons string string
               Samples.choking_converter _ _ _ "a" []
               [Models.TextDeltaEvent "test-session-1" "a"] [] eq_refl
               (StrandsMultiAgentChatAgent.Converted_nil string string
                  Samples.choking_converter "test-session-1")).
    + reflexivity.
Defined.

Example invoke_stream_broken :
  fst (StrandsMultiAgentChatAgent.invoke_stream PyStr.lower string
         Samples.broken_stream string (fun session => session)
         Samples.text_converter (Samples.text_request "Find it") [])
  = {| StrandsMultiAgentChatAgent.yielded :=
         [Models.TextDeltaEvent "test-session-1" "a";
          Models.TextDeltaEvent "test-session-1" "b";
          Models.ErrorEvent "test-session-1" "reset"];
       StrandsMultiAgentChatAgent.propagated := None |}.
Proof. reflexivity. Qed.


(** ** The matcher *)

Lemma after_prefix_some (p s s' : string) :
  PyRe.after_prefix p s = Some s' -> s = p ++ s'.
Proof.
  revert s; induction p as [|a p IH]; intros [|b s]; simpl;
    try discriminate; try (intros H; now inversion H).
  destruct (Ascii.eqb_spec a b) as [->|]; [|discriminate].
  intros H. now rewrite (IH _ H).
Qed.

(** A star consumes some text and the continuation succeeds on the rest. *)
Lemma star_some (R : Type) (cls : ascii -> bool) (greedy : bool)
  (k : nat -> string -> option R) (x : R) (s : string) (pos : nat) :
  PyRe.star R cls greedy pos s k = Some x ->
  exists t s', s = t ++ s' /\ k (pos + String.length t) s' = Some x.
Proof.
  revert pos; induction s as [|c s IH]; intros pos; simpl.
  - intros H. exists "", "". now rewrite Nat.add_0_r.
  - assert (Hstay : k pos (String c s) = Some x ->
                    exists t s', String c s = t ++ s'
                                 /\ k (pos + String.length t) s' = Some x).
    { intros H. exists "", (String c s). now rewrite Nat.add_0_r. }
    assert (Hgo : PyRe.star R cls greedy (S pos) s k = Some x ->
                  exists t s', String c s = t ++ s'
                               /\ k (pos + String.length t) s' = Some x).
    { intros H. destruct (IH _ H) as (t & s' & -> & Hk).
      exists (String c t), s'. split; [reflexivity|].
      simpl. now rewrite Nat.add_succ_r. }
    destruct (cls c); [|exact Hstay].
    destruct greedy.
    + destruct (PyRe.star R cls true (S pos) s k) eqn:E.
      * intros H. apply Hgo. congruence.
      * exact Hstay.
    + destruct (k pos (String c s)) eqn:E.
      * intros H. apply Hstay. congruence.
      * exact Hgo.
Qed.

(** What a match of the split-diagram pattern looks like: the opening
    fence, the captured body, a closing fence, and a rest that ends the
    match. *)
Lemma split_diagram_match (pos : nat) (s : string) (f : PyRe.found) :
  PyRe.match_at CleanResponse.split_diagram pos s = Some f ->
  exists body tail rest,
    s = ("```mermaid" ++ PyStr.NL) ++ body ++ (PyStr.NL ++ "```") ++ tail ++ rest
    /\ PyRe.stop f =
       pos + String.length
               (("```mermaid" ++ PyStr.NL) ++ body ++ (PyStr.NL ++ "```") ++ tail)
    /\ PyRe.captured f = [(1, body)].
Proof.
  unfold PyRe.match_at, CleanResponse.split_diagram.
  cbn [PyRe.m].
  destruct (PyRe.after_prefix _ s) as [s1|] eqn:E1; [|discriminate].
  apply after_prefix_some in E1. intros H.
  apply star_some in H. destruct H as (body & s2 & -> & H).
  destruct (PyRe.after_prefix _ s2) as [s3|] eqn:E3; [|discriminate].
  apply after_prefix_some in E3.
  apply star_some in H. destruct H as (w1 & s4 & -> & H).
  destruct (PyRe.after_prefix _ s4) as [s5|] eqn:E5; [|discriminate].
  apply after_prefix_some in E5.
  apply star_some in H. destruct H as (w2 & s6 & -> & H).
  destruct (PyRe.after_prefix _ s6) as [s7|] eqn:E7; [|discriminate].
  apply after_prefix_some in E7.
  inversion H; subst; clear H.
  exists body, (w1 ++ PyStr.NL ++ w2 ++ "subgraph"), s7.
  cbn [PyRe.stop PyRe.captured].
  repeat split.
  - now rewrite !append_assoc.
  - rewrite !length_append. simpl. lia.
  - replace (_ - _) with (String.length body) by lia.
    now rewrite take_append.
Qed.

(** ** Substitution and the number of backquotes *)

Lemma backquotes_append (a b : string) :
  CleanResponse.backquotes (a ++ b) =
  CleanResponse.backquotes a + CleanResponse.backquotes b.
Proof. induction a as [|x a IH]; simpl; [reflexivity | rewrite IH; lia]. Qed.

Lemma backquotes_take_drop (n : nat) (s : string) :
  CleanResponse.backquotes s =
  CleanResponse.backquotes (PyStr.take n s)
  + CleanResponse.backquotes (PyStr.drop n s).
Proof. now rewrite <- backquotes_append, take_drop. Qed.

Lemma drop_length_le (n : nat) (s : string) :
  String.length (PyStr.drop n s) <= String.length s.
Proof.
  revert s; induction n as [|n IH]; intros [|c s]; simpl; try lia.
  specialize (IH s). lia.
Qed.

Section Shrinking.

Variable r : PyRe.regex.
Variable template : list PyRe.piece.

(** Every match is a non-empty part of the text, and its replacement has
    fewer backquotes than it has. *)
Hypothesis shrinks :
  forall pos s f,
    PyRe.match_at r pos s = Some f ->
    pos < PyRe.stop f /\ PyRe.stop f - pos <= String.length s
    /\ CleanResponse.backquotes (PyRe.expand template (PyRe.captured f))
       < CleanResponse.backquotes (PyStr.take (PyRe.stop f - pos) s).

Lemma sub_from_backquotes (s : string) :
  forall pos skip,
    skip <= String.length s ->
    CleanResponse.backquotes (PyRe.sub_from r template pos skip s)
    <= CleanResponse.backquotes (PyStr.drop skip s)
    /\ (PyRe.search_from r (pos + skip) (PyStr.drop skip s) <> None ->
        CleanResponse.backquotes (PyRe.sub_from r template pos skip s)
        < CleanResponse.backquotes (PyStr.drop skip s)).
Proof.
  induction s as [|c s IH]; intros pos skip Hskip.
  - simpl in Hskip. assert (skip = 0) by lia. subst skip.
    rewrite Nat.add_0_r. simpl.
    destruct (PyRe.match_at r pos "") as [f|] eqn:E.
    + apply shrinks in E. simpl in E. lia.
    + split; [simpl; lia | congruence].
  - destruct skip as [|skip].
    + rewrite Nat.add_0_r. cbn [PyStr.drop PyRe.sub_from PyRe.search_from].
      destruct (PyRe.match_at r pos (String c s)) as [f|] eqn:E.
      * destruct (shrinks _ _ _ E) as (Hlt & Hlen & Hbq).
        destruct (Nat.eqb_spec (PyRe.stop f) pos) as [|_]; [lia|].
        rewrite backquotes_append.
        remember (PyRe.stop f - pos) as n eqn:Hn.
        destruct n as [|n]; [lia|].
        replace (S n - 1) with n by lia.
        simpl in Hlen.
        destruct (IH (S pos) n ltac:(lia)) as [Hle _].
        rewrite (backquotes_take_drop (S n) (String c s)).
        cbn [PyStr.drop]. lia.
      * destruct (IH (S pos) 0 ltac:(lia)) as [Hle Hstrict].
        rewrite Nat.add_0_r in Hstrict. cbn [PyStr.drop] in Hle, Hstrict.
        simpl CleanResponse.backquotes.
        split; [lia|]. intros Hs. specialize (Hstrict Hs). lia.
    + simpl in Hskip. cbn [PyStr.drop PyRe.sub_from].
      replace (pos + S skip) with (S pos + skip) by lia.
      apply IH. lia.
Qed.

Lemma sub_backquotes (s : string) :
  PyRe.search r s <> None ->
  CleanResponse.backquotes (PyRe.sub r template s)
  < CleanResponse.backquotes s.
Proof.
  intros H. destruct (sub_from_backquotes s 0 0 ltac:(lia)) as [_ Hlt].
  cbn [PyStr.drop] in Hlt. now apply Hlt.
Qed.

End Shrinking.

Lemma split_diagram_shrinks (pos : nat) (s : string) (f : PyRe.found) :
  PyRe.match_at CleanResponse.split_diagram pos s = Some f ->
  pos < PyRe.stop f /\ PyRe.stop f - pos <= String.length s
  /\ CleanResponse.backquotes
       (PyRe.expand CleanResponse.joined_diagram (PyRe.captured f))
     < CleanResponse.backquotes (PyStr.take (PyRe.stop f - pos) s).
Proof.
  intros H. apply split_diagram_match in H.
  destruct H as (body & tail & rest & -> & Hstop & Hcap).
  rewrite Hstop, Hcap.
  replace (_ - pos)
    with (String.length
            (("```mermaid" ++ PyStr.NL) ++ body ++ (PyStr.NL ++ "```") ++ tail))
    by lia.
  split; [|split].
  - rewrite !length_append. simpl. lia.
  - rewrite <- !append_assoc. rewrite (length_append _ rest). lia.
  - rewrite <- !append_assoc. rewrite take_append.
    cbn [PyRe.expand CleanResponse.joined_diagram PyRe.group Nat.eqb].
    rewrite !backquotes_append. simpl. lia.
Qed.

(** The [while] loop stops within the fuel given. *)
Lemma join_split_diagrams_fuel (fuel : nat) :
  forall response,
    CleanResponse.backquotes response < fuel ->
    exists joined,
      CleanResponse.join_split_diagrams fuel response = Some joined
      /\ PyRe.search CleanResponse.split_diagram joined = None.
Proof.
  induction fuel as [|fuel IH]; intros response Hlt; [lia|].
  simpl.
  destruct (PyRe.search CleanResponse.split_diagram response) as [found|] eqn:E.
  - apply IH.
    assert (H := sub_backquotes _ _ split_diagram_shrinks response).
    rewrite E in H. specialize (H ltac:(discriminate)). lia.
  - eauto.
Qed.

Lemma join_split_diagrams_returns (response : string) :
  exists joined,
    CleanResponse.join_split_diagrams
      (CleanResponse.enough_fuel response) response = Some joined
    /\ PyRe.search CleanResponse.split_diagram joined = None.
Proof. apply join_split_diagrams_fuel. unfold CleanResponse.enough_fuel. lia. Qed.

(** ** The heading stays in front *)

(** None of the three patterns can match inside the heading, so a
    substitution copies it. *)
Lemma sub_empty_block_heading (rest : string) :
  PyRe.sub CleanResponse.empty_block [] (CleanResponse.heading ++ rest) =
  CleanResponse.heading ++
  PyRe.sub_from CleanResponse.empty_block [] 9 0 rest.
Proof. reflexivity. Qed.

Lemma sub_split_diagram_heading (rest : string) :
  PyRe.sub CleanResponse.split_diagram CleanResponse.joined_diagram
    (CleanResponse.heading ++ rest) =
  CleanResponse.heading ++
  PyRe.sub_from CleanResponse.split_diagram CleanResponse.joined_diagram
    9 0 rest.
Proof. reflexivity. Qed.

Lemma sub_bare_diagram_heading (rest : string) :
  PyRe.sub CleanResponse.bare_diagram CleanResponse.fenced_diagram
    (CleanResponse.heading ++ rest) =
  CleanResponse.heading ++
  PyRe.sub_from CleanResponse.bare_diagram CleanResponse.fenced_diagram
    9 0 rest.
Proof. reflexivity. Qed.

Lemma cut_preamble_heading (response : string) :
  PyStr.contains CleanResponse.heading response = true ->
  exists rest, CleanResponse.cut_preamble response =
               CleanResponse.heading ++ rest.
Proof.
  intros H. unfold CleanResponse.cut_preamble. rewrite H.
  destruct (slice_from_find _ _ H) as [rest ->].
  destruct (split_lines_append CleanResponse.heading rest eq_refl)
    as (line & lines & _ & E).
  rewrite E. unfold CleanResponse.start_index.
  cbn [CleanResponse.heading_index].
  assert (Hs : PyStr.startswith (CleanResponse.heading ++ line)
                 CleanResponse.heading = true).
  { apply prefix_iff. eauto. }
  rewrite Hs. cbn [skipn]. rewrite <- E, join_split_lines. eauto.
Qed.

Lemma join_split_diagrams_heading (fuel : nat) :
  forall rest joined,
    CleanResponse.join_split_diagrams fuel (CleanResponse.heading ++ rest)
    = Some joined ->
    exists rest', joined = CleanResponse.heading ++ rest'.
Proof.
  induction fuel as [|fuel IH]; intros rest joined; simpl; [discriminate|].
  destruct (PyRe.search _ _).
  - change (String "#" (String " " (String "S" (String "U" (String "M"
              (String "M" (String "A" (String "R" (String "Y" rest)))))))))
      with (CleanResponse.heading ++ rest).
    rewrite sub_split_diagram_heading. apply IH.
  - intros H. inversion H. now exists rest.
Qed.

Lemma fix_line_keeps (first raw : string) (rest : list string)
  (st : CleanResponse.pass) :
  PyStr.strip first <> CleanResponse.fence ->
  CleanResponse.keeps first st -> CleanResponse.keeps first (CleanResponse.fix_line raw rest st).
Proof.
  intros Hfirst [others Hres].
  assert (Happ : forall line open,
            CleanResponse.keeps first (CleanResponse.append st line open)).
  { intros line open. exists (others ++ [line])%list. simpl. now rewrite Hres. }
  unfold CleanResponse.fix_line.
  destruct (String.eqb _ CleanResponse.mermaid_fence); [apply Happ|].
  destruct (String.eqb _ CleanResponse.fence && _).
  { destruct (CleanResponse.subgraph_follows rest);
      [now exists others | apply Happ]. }
  destruct (PyStr.startswith _ "subgraph" && _).
  { rewrite Hres.
    destruct (String.eqb_spec
                (PyStr.strip (last (first :: others) ""))
                CleanResponse.fence) as [E|_].
    - destruct others as [|o others].
      + simpl in E. contradiction.
      + exists (removelast (o :: others) ++ [CleanResponse.indent raw])%list.
        reflexivity.
    - exists ((others ++ [CleanResponse.mermaid_fence])
              ++ [CleanResponse.indent raw])%list.
      reflexivity. }
  destruct (CleanResponse.in_mermaid st); [|apply Happ].
  destruct (_ || _); apply Happ.
Qed.

Lemma fix_lines_keeps (first : string) (lines : list string) :
  PyStr.strip first <> CleanResponse.fence ->
  forall st, CleanResponse.keeps first st -> CleanResponse.keeps first (CleanResponse.fix_lines lines st).
Proof.
  intros Hfirst. induction lines as [|raw rest IH]; intros st H; simpl.
  - exact H.
  - apply IH. now apply fix_line_keeps.
Qed.

(** A line that begins with the heading is not a fence, a diagram line or
    blank, whatever follows on it. *)
Lemma strip_head (c : ascii) (s : string) :
  PyStr.is_space c = false -> exists t, PyStr.strip (String c s) = String c t.
Proof.
  intros H. unfold PyStr.strip. cbn [PyStr.lstrip]. rewrite H.
  cbn [PyStr.rstrip]. destruct (PyStr.rstrip s); rewrite ?H; eauto.
Qed.

Lemma strip_heading (line : string) :
  exists t, PyStr.strip (CleanResponse.heading ++ line) = String "#" t.
Proof. now apply strip_head. Qed.

Lemma fix_diagrams_heading (rest : string) :
  exists rest',
    CleanResponse.fix_diagrams (CleanResponse.heading ++ rest) =
    CleanResponse.heading ++ rest'.
Proof.
  unfold CleanResponse.fix_diagrams. rewrite sub_bare_diagram_heading.
  destruct (split_lines_append CleanResponse.heading
              (PyRe.sub_from CleanResponse.bare_diagram
                 CleanResponse.fenced_diagram 9 0 rest) eq_refl)
    as (line & lines & _ & ->).
  set (first := CleanResponse.heading ++ line).
  destruct (strip_heading line) as [t Ht]. fold first in Ht.
  assert (Hfirst : PyStr.strip first <> CleanResponse.fence)
    by (rewrite Ht; discriminate).
  cbn [CleanResponse.fix_lines].
  assert (H1 : CleanResponse.keeps first
                 (CleanResponse.fix_line first lines
                    {| CleanResponse.result := [];
                       CleanResponse.in_mermaid := false |})).
  { unfold CleanResponse.fix_line. rewrite Ht. exists []. reflexivity. }
  apply (fix_lines_keeps first lines Hfirst) in H1.
  destruct H1 as [others Hres].
  unfold CleanResponse.close_block. rewrite Hres.
  destruct (CleanResponse.in_mermaid _); apply join_cons_prefix.
Qed.

(** [find] gives the first occurrence. *)
Lemma find_least (sub s : string) :
  forall i pre post,
    PyStr.find sub s = Z.of_nat i -> s = pre ++ sub ++ post ->
    i <= String.length pre.
Proof.
  induction s as [|c s IH]; intros i pre post; rewrite find_unfold.
  - destruct (prefix sub ""); intros Hi ?; lia.
  - destruct (prefix sub (String c s)) eqn:E; [intros Hi ?; lia|].
    cbv zeta.
    destruct (Z.ltb_spec (PyStr.find sub s) 0) as [|Hj]; [intros Hi ?; lia|].
    intros Hi Hs. destruct pre as [|c' pre].
    + assert (Hp : prefix sub (String c s) = true)
        by (apply prefix_iff; now exists post).
      congruence.
    + inversion Hs; subst.
      specialize (IH (Z.to_nat (PyStr.find sub (pre ++ sub ++ post))) pre post).
      rewrite Z2Nat.id in IH by exact Hj.
      specialize (IH eq_refl eq_refl). simpl. lia.
Qed.

Lemma take_length_le (n : nat) (s : string) :
  String.length (PyStr.take n s) <= n.
Proof.
  revert s; induction n as [|n IH]; intros [|c s]; simpl; try lia.
  specialize (IH s). lia.
Qed.

(** The text splits at the first occurrence of what it contains, and the
    slice at [find] is the text from there on. *)
Lemma first_occurrence (sub s : string) :
  PyStr.contains sub s = true ->
  exists pre post,
    s = pre ++ sub ++ post
    /\ (forall pre' post',
          s = pre' ++ sub ++ post' -> String.length pre <= String.length pre')
    /\ PyStr.slice_from (PyStr.find sub s) s = sub ++ post.
Proof.
  intros H. destruct (find_prefix sub s H) as (i & Hi & Hp).
  apply prefix_iff in Hp. destruct Hp as [post Hpost].
  exists (PyStr.take i s), post. split; [|split].
  - now rewrite <- Hpost, take_drop.
  - intros pre' post' Hs.
    pose proof (find_least sub s i pre' post' Hi Hs).
    pose proof (take_length_le i s). lia.
  - unfold PyStr.slice_from. rewrite Hi.
    destruct (Z.ltb_spec (Z.of_nat i) 0); [lia|].
    now rewrite Nat2Z.id.
Qed.

(** The preamble pass leaves the text from the first heading on. *)
Lemma cut_preamble_first (response post : string) :
  PyStr.slice_from (PyStr.find CleanResponse.heading response) response
  = CleanResponse.heading ++ post ->
  PyStr.contains CleanResponse.heading response = true ->
  CleanResponse.cut_preamble response = CleanResponse.heading ++ post.
Proof.
  intros Hslice H. unfold CleanResponse.cut_preamble. rewrite H, Hslice.
  destruct (split_lines_append CleanResponse.heading post eq_refl)
    as (line & lines & _ & E).
  rewrite E. unfold CleanResponse.start_index.
  cbn [CleanResponse.heading_index].
  assert (Hs : PyStr.startswith (CleanResponse.heading ++ line)
                 CleanResponse.heading = true).
  { apply prefix_iff. eauto. }
  rewrite Hs. cbn [skipn]. now rewrite <- E, join_split_lines.
Qed.

(** C9: for every model response that contains "# SUMMARY", the response
    splits at the first occurrence of the heading into a preamble and the
    rest; the preamble pass removes exactly the preamble, so that
    [clean_model_response] is the later passes run on the heading and what
    follows it; it returns (its loop ends within the fuel given) and its
    output begins with "# SUMMARY": the later passes put nothing before the
    heading. *)
Theorem clean_model_response_heading :
  forall response : string,
    PyStr.contains "# SUMMARY" response = true ->
    (exists pre post,
       response = pre ++ "# SUMMARY" ++ post
       /\ (forall pre' post',
             response = pre' ++ "# SUMMARY" ++ post' ->
             String.length pre <= String.length pre')
       /\ CleanResponse.cut_preamble response = "# SUMMARY" ++ post
       /\ CleanResponse.clean_model_response response
          = CleanResponse.later_passes ("# SUMMARY" ++ post))
    /\ exists joined,
         CleanResponse.join_split_diagrams
           (CleanResponse.enough_fuel (CleanResponse.before_loop response))
           (CleanResponse.before_loop response) = Some joined
         /\ CleanResponse.clean_model_response response =
            CleanResponse.fix_diagrams joined
         /\ PyStr.startswith (CleanResponse.clean_model_response response)
              "# SUMMARY" = true.
Proof.
  intros response H. split.
  - destruct (first_occurrence _ _ H) as (pre & post & Hs & Hleast & Hslice).
    exists pre, post. split; [exact Hs|]. split; [exact Hleast|].
    pose proof (cut_preamble_first response post Hslice H) as Hcut.
    split; [exact Hcut|].
    change (CleanResponse.clean_model_response response)
      with (CleanResponse.later_passes (CleanResponse.cut_preamble response)).
    now rewrite Hcut.
  - destruct (join_split_diagrams_returns (CleanResponse.before_loop response))
      as (joined & Hjoined & _).
    exists joined. split; [exact Hjoined|].
    unfold CleanResponse.clean_model_response. rewrite Hjoined.
    split; [reflexivity|].
    destruct (cut_preamble_heading response H) as [rest Hcut].
    unfold CleanResponse.before_loop in Hjoined.
    rewrite Hcut, sub_empty_block_heading in Hjoined.
    apply join_split_diagrams_heading in Hjoined.
    destruct Hjoined as [rest' ->].
    destruct (fix_diagrams_heading rest') as [rest'' ->].
    apply prefix_iff. now exists rest''.
Qed.

Lemma clean_model_response_heading_witness :
  (exists pre post,
     "Here it is: # SUMMARY of a folder" = pre ++ "# SUMMARY" ++ post
     /\ (forall pre' post',
           "Here it is: # SUMMARY of a folder" = pre' ++ "# SUMMARY" ++ post' ->
           String.length pre <= String.length pre')
     /\ CleanResponse.cut_preamble "Here it is: # SUMMARY of a folder"
        = "# SUMMARY" ++ post
     /\ CleanResponse.clean_model_response "Here it is: # SUMMARY of a folder"
        = CleanResponse.later_passes ("# SUMMARY" ++ post))
  /\ exists joined,
       CleanResponse.join_split_diagrams
         (CleanResponse.enough_fuel
            (CleanResponse.before_loop "Here it is: # SUMMARY of a folder"))
         (CleanResponse.before_loop "Here it is: # SUMMARY of a folder")
       = Some joined
       /\ CleanResponse.clean_model_response
            "Here it is: # SUMMARY of a folder"
          = CleanResponse.fix_diagrams joined
       /\ PyStr.startswith
            (CleanResponse.clean_model_response
               "Here it is: # SUMMARY of a folder") "# SUMMARY" = true.
Proof.
  apply (clean_model_response_heading "Here it is: # SUMMARY of a folder").
  reflexivity.
Defined.

Example preamble_removed_at_first_heading :
  CleanResponse.clean_model_response
    ("Sure. # SUMMARY" ++ PyStr.NL ++ "One # SUMMARY two")
  = "# SUMMARY" ++ PyStr.NL ++ "One # SUMMARY two".
Proof. reflexivity. Qed.

(** ** Responses *)

(** A request with text gets no response when the external call fails:
    [invoke] raises what the coordinator raises, and [ChatController.chat]
    what the chat service raises. *)
Lemma text_request_without_response :
  Models.has_text (Models.message (Samples.text_request "What is 2 + 2?"))
  /\ fst (StrandsMultiAgentChatAgent.invoke PyStr.lower Samples.failing
            (Samples.text_request "What is 2 + 2?") [])
     = Py.Raise (Py.OtherError "TimeoutError" "timed out")
  /\ fst (ChatController.chat
            (fun _ _ => Py.Raise (Py.OtherError "TimeoutError" "timed out"))
            (Samples.text_request "What is 2 + 2?") [])
     = Py.Raise (Py.OtherError "TimeoutError" "timed out").
Proof.
  split; [|split; reflexivity].
  exists "What is 2 + 2?". simpl. now left.
Qed.

(** C4, as the code has it: for a request whose message has a text content
    block, the agent's [invoke] makes one call of the coordinator, with the
    enhanced query.  When that call returns, [invoke] returns a response
    whose message has the role assistant and exactly one content block, the
    text block of the answer, whose session identifier is the request's
    when that is set (a non-empty string) and "default" otherwise, and
    which carries a metadata dictionary of three keys; when that call
    raises, [invoke] raises the same exception and returns no response.
    [ChatController.chat] likewise: when the call of the chat service
    returns, it returns a response whose message has the role assistant and
    one text content block and whose session identifier is the request's;
    when that call raises, it raises the same exception. *)
Theorem responses_shape :
  forall (str_lower : string -> string)
         (coordinator :
            StrandsMultiAgentChatAgent.world -> string -> Py.result string)
         (chat_service_run :
            ChatController.world -> ChatController.ChatPrompt ->
            Py.result string)
         (request : Models.AgenticRequest)
         (w : StrandsMultiAgentChatAgent.world) (cw : ChatController.world),
    (Models.has_text (Models.message request) ->
     exists query,
       Models.get_text_content (Models.message request) = Some query
       /\ let call :=
            coordinator w
              (StrandsMultiAgentChatAgent.enhance
                 (MultiAgentChatAgent._determine_agent_strategy str_lower
                    query) query) in
          (forall answer,
             call = Py.Return answer ->
             exists response sid,
               fst (StrandsMultiAgentChatAgent.invoke str_lower coordinator
                      request w)
               = Py.Return response
               /\ Models.response_message response =
                  {| Models.role := "assistant";
                     Models.content := [Models.TextContent answer] |}
               /\ Models.response_session_id response = Some sid
               /\ (forall s,
                     Models.session_id request = Some s -> s <> "" -> sid = s)
               /\ (Models.session_id request = None \/
                   Models.session_id request = Some "" -> sid = "default")
               /\ map fst (Models.metadata response) =
                  ["agent_type"; "strategy_used"; "agents_available"])
          /\ (forall e,
                call = Py.Raise e ->
                fst (StrandsMultiAgentChatAgent.invoke str_lower coordinator
                       request w)
                = Py.Raise e))
    /\ (let user_text :=
          match Models.latest_user_text request with
          | Some text => if String.eqb text "" then "Hello" else text
          | None => "Hello"
          end in
        let call :=
          chat_service_run cw
            {| ChatController.chat_history := "";
               ChatController.prompt_message := user_text |} in
        (forall answer,
           call = Py.Return answer ->
           exists response text,
             fst (ChatController.chat chat_service_run request cw)
             = Py.Return response
             /\ Models.response_message response =
                {| Models.role := "assistant";
                   Models.content := [Models.TextContent text] |}
             /\ Models.response_session_id response =
                Models.session_id request)
        /\ (forall e,
              call = Py.Raise e ->
              fst (ChatController.chat chat_service_run request cw)
              = Py.Raise e)).
Proof.
  intros str_lower coordinator chat_service_run request w cw. split.
  - intros Htext.
    destruct (get_text_content_some _ Htext) as [query Hq].
    exists query. split; [exact Hq|]. cbv zeta.
    unfold StrandsMultiAgentChatAgent.invoke. rewrite Hq.
    unfold Py.bind, StrandsMultiAgentChatAgent.call_coordinator.
    split.
    + intros answer ->.
      destruct (or_default_cases (Models.session_id request)) as [H1 H2].
      eexists _, (Models.or_default (Models.session_id request)).
      cbn. repeat split; auto.
    + intros e ->. reflexivity.
  - cbv zeta.
    assert (Hp : forall r,
              chat_service_run cw
                {| ChatController.chat_history := "";
                   ChatController.prompt_message :=
                     match Models.latest_user_text request with
                     | Some text => if String.eqb text "" then "Hello" else text
                     | None => "Hello"
                     end |} = r ->
              fst (ChatController.chat chat_service_run request cw)
              = match r with
                | Py.Return answer =>
                    Py.Return
                      {| Models.response_message :=
                           Models.from_text "assistant"
                             (ChatController.extract_response answer);
                         Models.response_session_id :=
                           Models.session_id request;
                         Models.metadata := [] |}
                | Py.Raise e => Py.Raise e
                end).
    { intros r <-. unfold ChatController.chat, Py.bind, ChatController.run.
      unfold Models.truthy_str.
      destruct (Models.latest_user_text request) as [text|]; cbn;
        [destruct (String.eqb text ""); cbn|];
        now destruct (chat_service_run cw _). }
    split.
    + intros answer Ha. rewrite (Hp _ Ha). eexists _, _. cbn. repeat split.
    + intros e He. now rewrite (Hp _ He).
Qed.

Lemma responses_shape_witness :
  exists response sid,
    fst (StrandsMultiAgentChatAgent.invoke PyStr.lower Samples.answering
           (Samples.text_request "What is 2 + 2?") [])
    = Py.Return response
    /\ Models.response_message response =
       {| Models.role := "assistant";
          Models.content := [Models.TextContent "4"] |}
    /\ Models.response_session_id response = Some sid
    /\ sid = "test-session-1".
Proof.
  destruct (responses_shape PyStr.lower Samples.answering Samples.chat_service
              (Samples.text_request "What is 2 + 2?") [] [])
    as [Hinvoke _].
  destruct Hinvoke as (query & _ & Hreturns & _).
  - exists "What is 2 + 2?". simpl. now left.
  - destruct (Hreturns "4" eq_refl)
      as (response & sid & H1 & H2 & H3 & H4 & _).
    exists response, sid. repeat split; trivial.
    apply (H4 "test-session-1"); [reflexivity | discriminate].
Defined.

Example chat_answers :
  fst (ChatController.chat Samples.chat_service
         (Samples.text_request "Hello") [])
  = Py.Return
      {| Models.response_message :=
           {| Models.role := "assistant";
              Models.content := [Models.TextContent "Hi!"] |};
         Models.response_session_id := Some "test-session-1";
         Models.metadata := [] |}.
Proof. reflexivity. Qed.


(** ** File selection *)

Lemma mem_iff (file_path : string) (paths : list string) :
  GenerateSummaries.mem file_path paths = true <-> In file_path paths.
Proof.
  unfold GenerateSummaries.mem. rewrite existsb_exists. split.
  - intros (x & Hin & Hx). apply String.eqb_eq in Hx. now subst.
  - intros H. exists file_path. split; [exact H | apply String.eqb_refl].
Qed.

(** C8: the two lists that [filter_files] returns have no path in common,
    and every path of the input whose basename matches an include pattern
    is among the important files, whether or not an exclude pattern matches
    it too. *)
Theorem filter_files_spec :
  forall (fnmatch : string -> string -> bool) (files : list string)
         (config : GenerateSummaries.config),
    let selected := GenerateSummaries.filter_files fnmatch files config in
    (forall path, In path (fst selected) -> ~ In path (snd selected))
    /\ (forall path pattern,
          In path files ->
          In pattern
            (GenerateSummaries.get
               (GenerateSummaries.include_patterns
                  (GenerateSummaries.selection config)) []) ->
          fnmatch (PyStr.basename path) pattern = true ->
          In path (fst selected)).
Proof.
  intros fnmatch files config selected. subst selected.
  unfold GenerateSummaries.filter_files. cbn [fst snd]. split.
  - intros path Himp Hfil. apply filter_In in Hfil.
    destruct Hfil as [_ Hb]. apply andb_true_iff in Hb.
    destruct Hb as [_ Hb]. apply negb_true_iff in Hb.
    apply mem_iff in Himp. congruence.
  - intros path pattern Hin Hpat Hmatch. apply filter_In. split; [exact Hin|].
    unfold GenerateSummaries.included. apply existsb_exists. eauto.
Qed.

Lemma filter_files_spec_witness :
  In "/repo/docs/a.py"
    (fst (GenerateSummaries.filter_files Samples.fnmatch Samples.sample_files
            Samples.sample_config))
  /\ ~ In "/repo/docs/a.py"
       (snd (GenerateSummaries.filter_files Samples.fnmatch
               Samples.sample_files Samples.sample_config)).
Proof.
  pose proof (filter_files_spec Samples.fnmatch Samples.sample_files
                Samples.sample_config) as [Hdisjoint Hincluded].
  assert (H : In "/repo/docs/a.py"
                (fst (GenerateSummaries.filter_files Samples.fnmatch
                        Samples.sample_files Samples.sample_config))).
  { apply (Hincluded "/repo/docs/a.py" "*.py").
    - simpl. auto.
    - simpl. auto.
    - reflexivity. }
  split; [exact H | exact (Hdisjoint _ H)].
Defined.

(** ** Handling of failures *)

(** Public entry points do raise: the controller's [invoke] on a streaming
    request, and the agent's [invoke] on a message without text content and
    when the coordinator fails. *)
Lemma entry_points_raise :
  fst (MultiAgentChatController.invoke StrandsMultiAgentChatAgent.world
         (StrandsMultiAgentChatAgent.invoke PyStr.lower Samples.answering)
         Samples.streaming_request [])
  = Py.Raise
      (Py.ValueError "Streaming requests should use the /stream endpoint")
  /\ fst (StrandsMultiAgentChatAgent.invoke PyStr.lower Samples.answering
            Samples.empty_request [])
     = Py.Raise (Py.ValueError "No text content found in request message")
  /\ fst (StrandsMultiAgentChatAgent.invoke PyStr.lower Samples.failing
            (Samples.text_request "What is 2 + 2?") [])
     = Py.Raise (Py.OtherError "TimeoutError" "timed out").
Proof. repeat split. Qed.

(** C3, as the code has it: [load_config] and [read_file] never raise and
    return [None] when opening, reading or parsing fails;
    [search_knowledge_base] never raises and returns the error text when the
    retrieval fails; but the agent's [invoke] raises [ValueError] on a
    message without text content and lets an exception of the coordinator
    through, and the controller's [invoke] raises [ValueError] on a
    streaming request. *)
Theorem failures_spec :
  forall (ANALYSIS_DIR : string) (joinpath : string -> string -> string)
         (open_read : GenerateSummaries.world -> string -> Py.result string)
         (yaml_safe_load :
            string -> Py.result (option GenerateSummaries.config))
         (w : GenerateSummaries.world) (file_path : string)
         (knowledge_base_id : option string)
         (client :
            option (string -> string -> Py.result KbTool.retrieve_response))
         (query : string)
         (str_lower : string -> string)
         (coordinator :
            StrandsMultiAgentChatAgent.world -> string -> Py.result string)
         (request : Models.AgenticRequest)
         (aw : StrandsMultiAgentChatAgent.world),
    (exists loaded,
       GenerateSummaries.load_config ANALYSIS_DIR joinpath open_read
         yaml_safe_load w = (Py.Return loaded, w)
       /\ (Py.raises
             (open_read w (GenerateSummaries.CONFIG_PATH ANALYSIS_DIR joinpath))
           -> loaded = None)
       /\ (forall text,
             open_read w (GenerateSummaries.CONFIG_PATH ANALYSIS_DIR joinpath)
             = Py.Return text ->
             Py.raises (yaml_safe_load text) -> loaded = None))
    /\ (exists content,
          GenerateSummaries.read_file open_read file_path w
          = (Py.Return content, w)
          /\ (Py.raises (open_read w file_path) -> content = None))
    /\ (exists answer,
          KbTool.search_knowledge_base knowledge_base_id client query
          = Py.Return answer
          /\ (forall retrieve kb_id e,
                client = Some retrieve ->
                knowledge_base_id = Some kb_id -> kb_id <> "" ->
                retrieve kb_id query = Py.Raise e ->
                answer = "Error accessing knowledge base: " ++ Py.str_of e))
    /\ (Models.get_text_content (Models.message request) = None ->
        StrandsMultiAgentChatAgent.invoke str_lower coordinator request aw
        = (Py.Raise (Py.ValueError "No text content found in request message"),
           aw))
    /\ (forall query e,
          Models.get_text_content (Models.message request) = Some query ->
          coordinator aw
            (StrandsMultiAgentChatAgent.enhance
               (MultiAgentChatAgent._determine_agent_strategy str_lower query)
               query) = Py.Raise e ->
          fst (StrandsMultiAgentChatAgent.invoke str_lower coordinator
                 request aw) = Py.Raise e)
    /\ (Models.stream request = Some true ->
        fst (MultiAgentChatController.invoke
               StrandsMultiAgentChatAgent.world
               (StrandsMultiAgentChatAgent.invoke str_lower coordinator)
               request aw)
        = Py.Raise
            (Py.ValueError "Streaming requests should use the /stream endpoint")).
Proof.
  intros. repeat apply conj.
  - unfold GenerateSummaries.load_config, Py.try_except, Py.ret.
    destruct (open_read w _) as [text|e] eqn:E.
    + destruct (yaml_safe_load text) as [loaded|e] eqn:Y.
      * exists loaded. repeat split.
        -- intros [].
        -- intros t Ht. inversion Ht; subst. rewrite Y. intros [].
      * exists None. repeat split.
    + exists None. repeat split.
  - unfold GenerateSummaries.read_file, Py.try_except, Py.ret.
    destruct (open_read w file_path) as [text|e].
    + exists (Some text). split; [reflexivity | intros []].
    + exists None. split; reflexivity.
  - unfold KbTool.search_knowledge_base.
    destruct client as [retrieve|]; [|eexists; split; [reflexivity|]].
    + destruct knowledge_base_id as [kb_id|];
        [|eexists; split; [reflexivity|]].
      * destruct (String.eqb_spec kb_id "") as [->|Hne].
        -- eexists. split; [reflexivity|].
           intros r k e Hr Hk. inversion Hk; subst. congruence.
        -- destruct (retrieve kb_id query) as [response|e] eqn:E.
           ++ destruct (KbTool.collect _);
                (eexists; split; [reflexivity|]);
                intros r k e Hr Hk Hne' H; inversion Hr; inversion Hk; subst;
                congruence.
           ++ eexists. split; [reflexivity|].
              intros r k e' Hr Hk Hne' H. inversion Hr; inversion Hk; subst.
              congruence.
      * intros r k e Hr Hk. discriminate.
    + intros r k e Hr. discriminate.
  - intros H. unfold StrandsMultiAgentChatAgent.invoke. now rewrite H.
  - intros q e Hq He. unfold StrandsMultiAgentChatAgent.invoke. rewrite Hq.
    unfold Py.bind, StrandsMultiAgentChatAgent.call_coordinator.
    now rewrite He.
  - intros H. unfold MultiAgentChatController.invoke. now rewrite H.
Qed.

Lemma failures_spec_witness :
  StrandsMultiAgentChatAgent.invoke PyStr.lower Samples.failing
    Samples.empty_request []
  = (Py.Raise (Py.ValueError "No text content found in request message"), []).
Proof.
  apply (failures_spec "/repo/my-analysis" Samples.joinpath Samples.open_read
           Samples.yaml_safe_load [] "/repo/docs/a.py" None None "query"
           PyStr.lower Samples.failing Samples.empty_request []).
  reflexivity.
Defined.

(** ** The batch script *)

Section ScriptFacts.

Variables REPO_ROOT ANALYSIS_DIR : string.
Variable joinpath : string -> string -> string.
Variable path_exists : GenerateSummaries.world -> string -> bool.
Variable open_read : GenerateSummaries.world -> string -> Py.result string.
Variable open_write :
  GenerateSummaries.world -> string -> string -> Py.result unit.
Variable os_walk : GenerateSummaries.world -> string -> list string.
Variable json_loads : string -> Py.result GenerateSummaries.notebook.
Variable fnmatch : string -> string -> bool.
Variable bedrock_client : GenerateSummaries.world -> Py.result unit.
Variable bedrock_converse :
  GenerateSummaries.world -> string -> Py.result string.
Variable now : GenerateSummaries.world -> string.

Let read_file := GenerateSummaries.read_file open_read.
Let get_folder_content_summary :=
  GenerateSummaries.get_folder_content_summary REPO_ROOT joinpath path_exists
    open_read os_walk json_loads fnmatch.
Let prepare :=
  GenerateSummaries.prepare REPO_ROOT ANALYSIS_DIR joinpath path_exists
    open_read open_write os_walk json_loads fnmatch bedrock_client now.
Let generate_summary_with_bedrock :=
  GenerateSummaries.generate_summary_with_bedrock REPO_ROOT ANALYSIS_DIR
    joinpath path_exists open_read open_write os_walk json_loads fnmatch
    bedrock_client bedrock_converse now.
Let generate_summary_file :=
  GenerateSummaries.generate_summary_file REPO_ROOT ANALYSIS_DIR joinpath
    path_exists open_read open_write os_walk json_loads fnmatch
    bedrock_client bedrock_converse now.
Let process :=
  GenerateSummaries.process REPO_ROOT ANALYSIS_DIR joinpath path_exists
    open_read open_write os_walk json_loads fnmatch bedrock_client
    bedrock_converse now.

Lemma reads_ret {A : Type} (a : A) : GenerateSummaries.reads (Py.ret a).
Proof. intros w. now exists a. Qed.

Lemma reads_bind {A B : Type} (c : Py.M GenerateSummaries.world A)
  (k : A -> Py.M GenerateSummaries.world B) :
  GenerateSummaries.reads c -> (forall a, GenerateSummaries.reads (k a)) -> GenerateSummaries.reads (Py.bind c k).
Proof.
  intros Hc Hk w. unfold Py.bind. destruct (Hc w) as [a ->]. apply Hk.
Qed.

Lemma reads_read_file (file_path : string) : GenerateSummaries.reads (read_file file_path).
Proof.
  intros w.
  unfold read_file, GenerateSummaries.read_file, Py.try_except, Py.ret.
  destruct (open_read w file_path); eauto.
Qed.

Lemma reads_add_notebooks (max_cells : Z) (paths : list string) :
  forall st,
    GenerateSummaries.reads (GenerateSummaries.add_notebooks open_read json_loads max_cells
             paths st).
Proof.
  induction paths as [|path rest IH]; intros st; simpl.
  - apply reads_ret.
  - apply reads_bind; [apply reads_read_file | intros content; apply IH].
Qed.

Lemma reads_add_code_files (lang stop_note : string) (max_lines : Z)
  (paths : list string) :
  forall st,
    GenerateSummaries.reads (GenerateSummaries.add_code_files open_read lang stop_note max_lines
             paths st).
Proof.
  induction paths as [|path rest IH]; intros st; simpl.
  - apply reads_ret.
  - destruct (_ >? _)%Z; [apply reads_ret|].
    apply reads_bind; [apply reads_read_file | intros content; apply IH].
Qed.

Lemma reads_add_markdown_files (paths : list string) :
  forall st, GenerateSummaries.reads (GenerateSummaries.add_markdown_files open_read paths st).
Proof.
  induction paths as [|path rest IH]; intros st; simpl.
  - apply reads_ret.
  - destruct (String.eqb _ _); [apply IH|].
    destruct (_ >? _)%Z; [apply reads_ret|].
    apply reads_bind; [apply reads_read_file | intros content; apply IH].
Qed.

(** [get_folder_content_summary] leaves the world as it is, whether it
    returns or raises. *)
Lemma get_folder_content_summary_world (folder_name : string)
  (config : GenerateSummaries.config) (w : GenerateSummaries.world) :
  snd (get_folder_content_summary folder_name config w) = w.
Proof.
  unfold get_folder_content_summary,
    GenerateSummaries.get_folder_content_summary.
  destruct (path_exists w (joinpath REPO_ROOT folder_name)); [|reflexivity].
  cbn [negb]. unfold Py.bind at 1.
  assert (Hreadme :
            exists readme,
              (if path_exists w
                    (joinpath (joinpath REPO_ROOT folder_name) "README.md")
               then GenerateSummaries.read_file open_read
                      (joinpath (joinpath REPO_ROOT folder_name) "README.md")
               else Py.ret (Some "No README.md found.")) w
              = (Py.Return readme, w)).
  { destruct (path_exists w _); [apply reads_read_file | apply reads_ret]. }
  destruct Hreadme as [readme ->].
  unfold Py.bind at 1, GenerateSummaries.list_files.
  destruct (GenerateSummaries.filter_files _ _ _) as [important filtered].
  destruct readme as [readme|]; [|reflexivity].
  match goal with
  | |- snd (?c w) = w => assert (H : GenerateSummaries.reads c)
  end.
  { repeat (apply reads_bind;
            [first [apply reads_add_notebooks | apply reads_add_code_files
                   | apply reads_add_markdown_files] | intros ?]).
    apply reads_ret. }
  destruct (H w) as [a ->]. reflexivity.
Qed.

Lemma converse_calls_app (a b : GenerateSummaries.world) :
  GenerateSummaries.converse_calls (a ++ b)%list =
  (GenerateSummaries.converse_calls a ++ GenerateSummaries.converse_calls b)%list.
Proof.
  induction a as [|e a IH]; simpl; [reflexivity|].
  destruct e; simpl; now rewrite IH.
Qed.


(** Before its [try], [generate_summary_with_bedrock] sends nothing: it
    adds to the world at most the debug log. *)
Lemma prepare_world (folder_name prompt_template : string)
  (config : GenerateSummaries.config) (w : GenerateSummaries.world) :
  exists added,
    snd (prepare folder_name prompt_template config w) = (w ++ added)%list
    /\ GenerateSummaries.converse_calls added = [].
Proof.
  unfold prepare, GenerateSummaries.prepare. unfold Py.bind at 1.
  pose proof (get_folder_content_summary_world folder_name config w) as Hw.
  unfold get_folder_content_summary in Hw.
  destruct (GenerateSummaries.get_folder_content_summary _ _ _ _ _ _ _ _ _ w)
    as [[content|e] w0].
  2:{ simpl in Hw. subst w0. exists []. now rewrite app_nil_r. }
  simpl in Hw. subst w0.
  destruct (GenerateSummaries.nonempty content) as [folder_content|].
  2:{ exists []. now rewrite app_nil_r. }
  unfold Py.bind.
  destruct (GenerateSummaries.debug_enabled config
            && GenerateSummaries.debug_print_prompt config).
  - unfold GenerateSummaries.write_debug_log, GenerateSummaries.write_file.
    destruct (open_write w _ _).
    + destruct (bedrock_client _); eexists [_]; split; reflexivity.
    + exists []. now rewrite app_nil_r.
  - unfold Py.ret.
    destruct (bedrock_client w); exists []; now rewrite app_nil_r.
Qed.

Lemma prepare_missing_folder (folder_name prompt_template : string)
  (config : GenerateSummaries.config) (w : GenerateSummaries.world) :
  path_exists w (joinpath REPO_ROOT folder_name) = false ->
  prepare folder_name prompt_template config w = (Py.Return None, w).
Proof.
  intros H. unfold prepare, GenerateSummaries.prepare, Py.bind,
    GenerateSummaries.get_folder_content_summary.
  now rewrite H.
Qed.

(** The three ways [generate_summary_with_bedrock] goes on from what it
    prepared. *)
Lemma generate_summary_with_bedrock_sends
  (folder_name prompt_template : string) (config : GenerateSummaries.config)
  (w w1 : GenerateSummaries.world) (full_prompt : string)
  (args : GenerateSummaries.call_arguments) :
  prepare folder_name prompt_template config w
  = (Py.Return (Some full_prompt), w1) ->
  GenerateSummaries.read_call_arguments config = Py.Return args ->
  generate_summary_with_bedrock folder_name prompt_template config w
  = (match bedrock_converse w1 full_prompt with
     | Py.Return model_response =>
         Py.Return (Some (CleanResponse.clean_model_response model_response))
     | Py.Raise _ => Py.Return None
     end, (w1 ++ [GenerateSummaries.Converse full_prompt])%list).
Proof.
  intros H Ha. unfold generate_summary_with_bedrock,
    GenerateSummaries.generate_summary_with_bedrock.
  unfold Py.bind at 1. fold prepare. rewrite H.
  unfold Py.try_except, Py.bind, Py.lift, GenerateSummaries.converse, Py.ret.
  rewrite Ha. now destruct (bedrock_converse w1 full_prompt).
Qed.

(** With a key of the call missing, the [KeyError] is caught before the
    call is made. *)
Lemma generate_summary_with_bedrock_unready
  (folder_name prompt_template : string) (config : GenerateSummaries.config)
  (w w1 : GenerateSummaries.world) (full_prompt : string)
  (e : Py.exception) :
  prepare folder_name prompt_template config w
  = (Py.Return (Some full_prompt), w1) ->
  GenerateSummaries.read_call_arguments config = Py.Raise e ->
  generate_summary_with_bedrock folder_name prompt_template config w
  = (Py.Return None, w1).
Proof.
  intros H Ha. unfold generate_summary_with_bedrock,
    GenerateSummaries.generate_summary_with_bedrock.
  unfold Py.bind at 1. fold prepare. rewrite H.
  unfold Py.try_except, Py.bind, Py.lift, Py.ret.
  now rewrite Ha.
Qed.

Lemma generate_summary_with_bedrock_stops
  (folder_name prompt_template : string) (config : GenerateSummaries.config)
  (w w1 : GenerateSummaries.world) (r : Py.result (option string)) :
  prepare folder_name prompt_template config w = (r, w1) ->
  (forall full_prompt, r <> Py.Return (Some full_prompt)) ->
  exists r',
    generate_summary_with_bedrock folder_name prompt_template config w
    = (r', w1)
    /\ (forall summary, r' <> Py.Return (Some summary)).
Proof.
  intros H Hr. unfold generate_summary_with_bedrock,
    GenerateSummaries.generate_summary_with_bedrock.
  unfold Py.bind at 1. fold prepare. rewrite H.
  destruct r as [[full_prompt|]|e].
  - now elim (Hr full_prompt).
  - exists (Py.Return None). split; [reflexivity | discriminate].
  - exists (Py.Raise e). split; [reflexivity | discriminate].
Qed.

(** What one folder adds to the world: nothing when its summary exists, and
    otherwise what the preparation adds, then one [Converse] when a prompt
    was prepared and the keys of the call are in the configuration, then
    the summary file when the call gave a summary and the file could be
    written. *)
Lemma generate_summary_file_world (folder_name prompt_template : string)
  (config : GenerateSummaries.config) (w : GenerateSummaries.world) :
  exists added,
    snd (generate_summary_file folder_name prompt_template config w)
    = (w ++ added)%list
    /\ List.length (GenerateSummaries.converse_calls added) <= 1
    /\ (forall full_prompt w1 args,
          path_exists w
            (GenerateSummaries.output_file_of ANALYSIS_DIR joinpath
               folder_name config) = false ->
          prepare folder_name prompt_template config w
          = (Py.Return (Some full_prompt), w1) ->
          GenerateSummaries.read_call_arguments config = Py.Return args ->
          GenerateSummaries.converse_calls added = [full_prompt])
    /\ (forall r w1,
          prepare folder_name prompt_template config w = (r, w1) ->
          (forall full_prompt, r <> Py.Return (Some full_prompt)) ->
          GenerateSummaries.converse_calls added = [])
    /\ (forall e,
          GenerateSummaries.read_call_arguments config = Py.Raise e ->
          GenerateSummaries.converse_calls added = []).
Proof.
  unfold generate_summary_file, GenerateSummaries.generate_summary_file.
  cbv zeta.
  destruct (path_exists w _) eqn:Hex.
  { exists []. rewrite app_nil_r. repeat split; simpl; try lia.
    all: intros; try discriminate; try reflexivity. }
  destruct (prepare_world folder_name prompt_template config w)
    as (added0 & Hw0 & Hc0).
  unfold Py.bind at 1. fold generate_summary_with_bedrock.
  destruct (prepare folder_name prompt_template config w) as [r w1] eqn:Hp.
  simpl in Hw0. subst w1.
  destruct r as [[full_prompt|]|e].
  - destruct (GenerateSummaries.read_call_arguments config) as [args|ke] eqn:Ha.
    + rewrite (generate_summary_with_bedrock_sends _ _ _ _ _ _ _ Hp Ha).
      destruct (bedrock_converse _ full_prompt) as [model_response|e];
        [destruct (GenerateSummaries.nonempty _) as [summary|];
         [unfold Py.bind, GenerateSummaries.write_file;
          destruct (open_write _ _ summary)|]|];
        (eexists; split;
         [cbn [snd Py.ret]; rewrite <- ?app_assoc; reflexivity|]);
        rewrite ?converse_calls_app, Hc0;
        cbn [GenerateSummaries.converse_calls app List.length];
        (split; [lia|]; split; [intros p w1 args0 _ E _; now inversion E|];
         split;
         [intros r0 w1 E Hr; inversion E; subst; now elim (Hr full_prompt)
         |intros e0 H; discriminate H]).
    + rewrite (generate_summary_with_bedrock_unready _ _ _ _ _ _ _ Hp Ha).
      exists added0. rewrite Hc0. cbn [GenerateSummaries.nonempty snd Py.ret].
      split; [reflexivity|]. split; [simpl; lia|].
      split; [intros p w1 args _ _ H; discriminate H|].
      split; intros; reflexivity.
  - destruct (generate_summary_with_bedrock_stops _ _ _ _ _ _ Hp)
      as (r' & -> & Hr'); [discriminate|].
    exists added0. rewrite Hc0.
    split; [destruct r' as [[s|]|e]; try reflexivity; now elim (Hr' s)|].
    split; [simpl; lia|].
    split; [intros p w1 args _ E; discriminate E|].
    split; intros; reflexivity.
  - destruct (generate_summary_with_bedrock_stops _ _ _ _ _ _ Hp)
      as (r' & -> & Hr'); [discriminate|].
    exists added0. rewrite Hc0.
    split; [destruct r' as [[s|]|e']; try reflexivity; now elim (Hr' s)|].
    split; [simpl; lia|].
    split; [intros p w1 args _ E; discriminate E|].
    split; intros; reflexivity.
Qed.

Lemma process_world (prompt_template : string)
  (config : GenerateSummaries.config) (folders : list string) :
  forall success_count w,
    exists added,
      snd (process folders prompt_template config success_count w)
      = (w ++ added)%list
      /\ List.length (GenerateSummaries.converse_calls added)
         <= List.length folders.
Proof.
  induction folders as [|folder rest IH]; intros success_count w.
  - exists []. simpl. now rewrite app_nil_r.
  - unfold process. cbn [GenerateSummaries.process].
    fold process. fold generate_summary_file. unfold Py.bind at 1.
    destruct (generate_summary_file_world folder prompt_template config w)
      as (added1 & Hw1 & Hc1 & _).
    destruct (generate_summary_file folder prompt_template config w)
      as [[ok|e] w1].
    + simpl in Hw1. subst w1.
      assert (Hrest : forall n slept,
                GenerateSummaries.converse_calls slept = [] ->
                exists added,
                  snd (process rest prompt_template config n
                         ((w ++ added1) ++ slept)%list)
                  = (w ++ added)%list
                  /\ List.length (GenerateSummaries.converse_calls added)
                     <= List.length (folder :: rest)).
      { intros n slept Hs.
        destruct (IH n ((w ++ added1) ++ slept)%list) as (added2 & Hw2 & Hc2).
        exists ((added1 ++ slept) ++ added2)%list. split.
        - rewrite Hw2. now rewrite !app_assoc.
        - rewrite !converse_calls_app, Hs, !length_app. simpl. lia. }
      destruct ok.
      * unfold Py.bind, GenerateSummaries.emit.
        apply (Hrest (S success_count) [GenerateSummaries.Slept 5] eq_refl).
      * specialize (Hrest success_count [] eq_refl).
        now rewrite app_nil_r in Hrest.
    + simpl in Hw1. subst w1. exists added1. split; [reflexivity|].
      simpl. lia.
Qed.

(** C5, as the code has it: for a folder of the processed list
    [bedrock.converse] is called at most once; it is called exactly once,
    with the one prompt assembled for the folder, when the summary of the
    folder does not exist yet, the prompt gets prepared and the
    configuration has the keys that the call reads
    ([model.name], [model.id], [inference_config.temperature] and
    [inference_config.max_tokens]); and not at all when the summary exists
    already (the folder is skipped and counts as done), when the folder
    does not exist or the preparation stops otherwise, or when one of those
    keys is missing (the [KeyError] is caught before the call); a run over
    a list of folders makes at most as many calls as the list is long. *)
Theorem converse_calls_per_folder :
  forall (folder_name prompt_template : string)
         (config : GenerateSummaries.config) (w : GenerateSummaries.world),
    (exists added,
       snd (generate_summary_file folder_name prompt_template config w)
       = (w ++ added)%list
       /\ List.length (GenerateSummaries.converse_calls added) <= 1
       /\ (forall full_prompt w1 args,
             path_exists w
               (GenerateSummaries.output_file_of ANALYSIS_DIR joinpath
                  folder_name config) = false ->
             prepare folder_name prompt_template config w
             = (Py.Return (Some full_prompt), w1) ->
             GenerateSummaries.read_call_arguments config = Py.Return args ->
             GenerateSummaries.converse_calls added = [full_prompt])
       /\ (forall r w1,
             prepare folder_name prompt_template config w = (r, w1) ->
             (forall full_prompt, r <> Py.Return (Some full_prompt)) ->
             GenerateSummaries.converse_calls added = [])
       /\ (forall e,
             GenerateSummaries.read_call_arguments config = Py.Raise e ->
             GenerateSummaries.converse_calls added = []))
    /\ (path_exists w
          (GenerateSummaries.output_file_of ANALYSIS_DIR joinpath
             folder_name config) = true ->
        generate_summary_file folder_name prompt_template config w
        = (Py.Return true, w))
    /\ (path_exists w (joinpath REPO_ROOT folder_name) = false ->
        prepare folder_name prompt_template config w = (Py.Return None, w))
    /\ (forall folders success_count,
          exists added,
            snd (process folders prompt_template config success_count w)
            = (w ++ added)%list
            /\ List.length (GenerateSummaries.converse_calls added)
               <= List.length folders).
Proof.
  intros folder_name prompt_template config w. repeat apply conj.
  - apply generate_summary_file_world.
  - intros H. unfold generate_summary_file,
      GenerateSummaries.generate_summary_file. cbv zeta. now rewrite H.
  - apply prepare_missing_folder.
  - intros folders success_count. apply process_world.
Qed.


End ScriptFacts.

Lemma converse_calls_per_folder_witness :
  Samples.summarize_docs (Py.Return "# SUMMARY of docs")
  = (Py.Return true,
     [GenerateSummaries.Converse Samples.docs_prompt;
      GenerateSummaries.Wrote "/repo/my-analysis/summary_docs.md"
        "# SUMMARY of docs"])
  /\ GenerateSummaries.generate_summary_file "/repo" "/repo/my-analysis"
       Samples.joinpath (Samples.exists_in true) Samples.open_read
       Samples.open_write Samples.os_walk Samples.json_loads Samples.fnmatch
       Samples.bedrock_client (fun _ _ => Py.Return "# SUMMARY of docs")
       Samples.now "docs" Samples.prompt_template Samples.sample_config []
     = (Py.Return true, []).
Proof.
  split.
  - vm_compute. reflexivity.
  - apply (converse_calls_per_folder "/repo" "/repo/my-analysis"
             Samples.joinpath (Samples.exists_in true) Samples.open_read
             Samples.open_write Samples.os_walk Samples.json_loads
             Samples.fnmatch Samples.bedrock_client
             (fun _ _ => Py.Return "# SUMMARY of docs") Samples.now "docs"
             Samples.prompt_template Samples.sample_config []).
    reflexivity.
Defined.


(** A folder whose summary exists is in the processed list and counts as
    done, yet no call is made for it. *)
Lemma summarized_folder_not_sent :
  fst (Samples.run_main true (Py.Return "# SUMMARY") ["docs"])
  = Py.Return (Some (1, 1))
  /\ GenerateSummaries.converse_calls
       (snd (Samples.run_main true (Py.Return "# SUMMARY") ["docs"])) = [].
Proof. split; reflexivity. Qed.

(** A configuration without its [inference_config] section: the prompt is
    prepared, the [KeyError] is caught and nothing is sent. *)
Example missing_key_sends_nothing :
  GenerateSummaries.generate_summary_file "/repo" "/repo/my-analysis"
    Samples.joinpath (Samples.exists_in false) Samples.open_read
    Samples.open_write Samples.os_walk Samples.json_loads Samples.fnmatch
    Samples.bedrock_client (fun _ _ => Py.Return "# SUMMARY of docs")
    Samples.now "docs" Samples.prompt_template
    Samples.config_without_inference []
  = (Py.Return false, []).
Proof. vm_compute. reflexivity. Qed.

(** Without [config['model']['name']] the run stops before the first
    folder: line 735 reads it outside any [try]. *)
Example main_without_model_name :
  GenerateSummaries.main "/repo" "/repo/my-analysis" Samples.joinpath
    (Samples.exists_in false) Samples.open_read Samples.open_write
    Samples.os_walk
    (fun _ =>
       Py.Return
         (Some {| GenerateSummaries.selection := Samples.no_selection;
                  GenerateSummaries.output_file_prefix := "summary_";
                  GenerateSummaries.output_directory := "my-analysis";
                  GenerateSummaries.model := None;
                  GenerateSummaries.inference_config := None;
                  GenerateSummaries.debug_enabled := false;
                  GenerateSummaries.debug_print_prompt := false;
                  GenerateSummaries.folders_to_analyze := [Some "docs"] |}))
    Samples.json_loads Samples.fnmatch Samples.bedrock_client
    (fun _ _ => Py.Return "# SUMMARY of docs") Samples.now [] []
  = (Py.Raise (Py.OtherError "KeyError" "'model'"), []).
Proof. vm_compute. reflexivity. Qed.

(** ** The token budget *)



Lemma len_nonneg (s : string) : (0 <= PyStr.len s)%Z.
Proof. unfold PyStr.len. lia. Qed.












(** ** The model at work *)

Example replace_slashes : PyStr.replace "a/b/c" "/" "_" = "a_b_c".
Proof. reflexivity. Qed.

Example replace_left_to_right : PyStr.replace "aaa" "aa" "b" = "ba".
Proof. reflexivity. Qed.

Example basename_of_path : PyStr.basename "/repo/docs/a.py" = "a.py".
Proof. reflexivity. Qed.

Example split_keeps_last_line :
  PyStr.split_lines ("a" ++ PyStr.NL ++ "b" ++ PyStr.NL) = ["a"; "b"; ""].
Proof. reflexivity. Qed.

Example find_first : PyStr.find "# SUMMARY" "ab# SUMMARY x # SUMMARY" = 2%Z.
Proof. reflexivity. Qed.

(** [len] counts characters: the two bytes of e-acute, the three of the
    euro sign and the four of an emoji are one character each. *)
Example len_counts_characters :
  PyStr.len ("caf" ++ String "195" (String "169" ""))%string = 4%Z
  /\ PyStr.len (String "226" (String "130" (String "172" ""))) = 1%Z
  /\ PyStr.len (String "240" (String "159" (String "142" (String "168" ""))))
     = 1%Z.
Proof. repeat split. Qed.

Example find_none : PyStr.find "z" "aab" = (-1)%Z.
Proof. reflexivity. Qed.

Example strip_both_ends :
  PyStr.strip ("  a b " ++ PyStr.NL ++ " ") = "a b".
Proof. reflexivity. Qed.

Example slices :
  PyStr.upto (-1) [1; 2; 3] = [1; 2] /\ PyStr.from (-5) [1; 2; 3] = [1; 2; 3]
  /\ PyStr.upto 10 [1; 2; 3] = [1; 2; 3] /\ PyStr.from 2 [1; 2; 3] = [3].
Proof. repeat split. Qed.

(** [re.sub('x*', '-', 'abxd')] is ['-a-b--d-']. *)
Example sub_empty_matches :
  PyRe.sub (PyRe.StarOf (fun c => Ascii.eqb c "x") true) [PyRe.Text "-"] "abxd"
  = "-a-b--d-".
Proof. reflexivity. Qed.

(** The lazy group stops at the first closing tag. *)
Example extract_first_response :
  ChatController.extract_response
    ("aa <response> hi" ++ PyStr.NL ++ " there </response> x </response>")
  = "hi" ++ PyStr.NL ++ " there".
Proof. reflexivity. Qed.

Example extract_no_response :
  ChatController.extract_response "no tags"
  = "I'm sorry, something went wrong. Please try again.".
Proof. reflexivity. Qed.

(** A diagram split in two by a closing fence is joined, a bare [mermaid]
    line gets its fence, and the preamble goes. *)
Example clean_joins_diagram :
  CleanResponse.clean_model_response
    "Sure!
# SUMMARY
```mermaid
graph TD
```

subgraph S
end
```"
  = "# SUMMARY
```mermaid
    graph TD
    subgraph S
end
```".
Proof. reflexivity. Qed.

Example search_knowledge_base_mock :
  KbTool.search_knowledge_base None None "q"
  = Py.Return
      "Mock RAG response for query: 'q'. This is a test response since no knowledge base is configured.".
Proof. reflexivity. Qed.

Example search_knowledge_base_joins :
  KbTool.search_knowledge_base (Some "kb")
    (Some (fun _ _ =>
             Py.Return
               {| KbTool.retrievalResults :=
                    Some [{| KbTool.content_text := Some "one" |};
                          {| KbTool.content_text := None |};
                          {| KbTool.content_text := Some "two" |}] |}))
    "q"
  = Py.Return ("one" ++ PyStr.NL ++ PyStr.NL ++ "two").
Proof. reflexivity. Qed.

(** A run over docs and a folder that does not exist: one call, one summary
    written, one success out of two. *)
Example main_two_folders :
  let run := Samples.run_main false (Py.Return "# SUMMARY of docs")
               ["docs"; "missing"] in
  fst run = Py.Return (Some (1, 2))
  /\ GenerateSummaries.converse_calls (snd run) = [Samples.docs_prompt]
  /\ GenerateSummaries.written (snd run)
     = [("/repo/my-analysis/summary_docs.md", "# SUMMARY of docs")].
Proof. vm_compute. repeat split. Qed.

(** ** The collaboration tool *)

Lemma split_on_length (sep : ascii) (s : string) :
  List.length (PyStr.split_on sep s) = S (PyStr.count_char sep s).
Proof.
  induction s as [|c s IH]; simpl; [reflexivity|].
  destruct (Ascii.eqb c sep); simpl.
  - now rewrite IH.
  - destruct (PyStr.split_on sep s) as [|field fields]; simpl in *; lia.
Qed.

(** X1: whatever the strategy heuristic returns for a query, the tool
    announces exactly the agents it names: the lines of the categories
    called for, in the order research, analysis, creative, or the
    coordinator's line when none is, and it counts as many agents as it
    announces. *)
Theorem coordinate_agents_follows_strategy :
  forall (str_lower : string -> string) (task_description query : string),
  exists cs : list MultiAgentChatAgent.category,
    (forall c, In c cs <-> MultiAgentChatAgent.called_for str_lower query c)
    /\ StronglySorted
         (fun a b => MultiAgentChatAgent.rank a < MultiAgentChatAgent.rank b)
         cs
    /\ CollaborationTool.coordinate_agents task_description
         (MultiAgentChatAgent._determine_agent_strategy str_lower query)
       = "Multi-Agent Coordination for: " ++ task_description
         ++ PyStr.NL ++ PyStr.NL
         ++ match cs with
            | [] => CollaborationTool.coordinator_line
                    ++ CollaborationTool.closing 1
            | _ => CollaborationTool.lines_of cs
                   ++ CollaborationTool.closing (List.length cs)
            end.
Proof.
  intros str_lower task query.
  pose proof (any_keyword_in_iff str_lower MultiAgentChatAgent.Research query)
    as HR.
  pose proof (any_keyword_in_iff str_lower MultiAgentChatAgent.Analysis query)
    as HA.
  pose proof (any_keyword_in_iff str_lower MultiAgentChatAgent.Creative query)
    as HC.
  unfold MultiAgentChatAgent._determine_agent_strategy.
  simpl MultiAgentChatAgent.keywords in HR, HA, HC.
  set (bR := MultiAgentChatAgent.any_keyword_in
               MultiAgentChatAgent.research_keywords (str_lower query)) in *.
  set (bA := MultiAgentChatAgent.any_keyword_in
               MultiAgentChatAgent.analysis_keywords (str_lower query)) in *.
  set (bC := MultiAgentChatAgent.any_keyword_in
               MultiAgentChatAgent.creative_keywords (str_lower query)) in *.
  exists ((if bR then [MultiAgentChatAgent.Research] else [])
          ++ (if bA then [MultiAgentChatAgent.Analysis] else [])
          ++ (if bC then [MultiAgentChatAgent.Creative] else []))%list.
  split; [|split].
  - intros c. destruct c;
      [rewrite <- HR | rewrite <- HA | rewrite <- HC];
      destruct bR, bA, bC; simpl; intuition congruence.
  - destruct bR, bA, bC; simpl;
      repeat (constructor; simpl; try lia).
  - destruct bR, bA, bC;
      cbv [CollaborationTool.coordinate_agents];
      match goal with
      | |- CollaborationTool.coordination_of _ (CollaborationTool.parse_agents ?s) = _ =>
          let l := eval vm_compute in (CollaborationTool.parse_agents s) in
          change (CollaborationTool.parse_agents s) with l
      end;
      cbv [CollaborationTool.coordination_of PyStr.in_list existsb String.eqb
             Ascii.eqb Bool.eqb orb List.length app
             CollaborationTool.lines_of map String.concat
             CollaborationTool.line_of CollaborationTool.closing];
      rewrite ?append_assoc; reflexivity.
Qed.

(** X2: the tool counts one agent more than [agent_types] has commas, so at
    least one, even for an empty [agent_types]; and it never fails. *)
Theorem coordinate_agents_count :
  forall task_description agent_types : string,
  exists announced,
    CollaborationTool.coordinate_agents task_description agent_types
    = announced
      ++ CollaborationTool.closing (S (PyStr.count_char "," agent_types)).
Proof.
  intros task agent_types.
  unfold CollaborationTool.coordinate_agents,
    CollaborationTool.coordination_of, CollaborationTool.parse_agents.
  rewrite length_map, split_on_length.
  eexists. unfold CollaborationTool.closing. reflexivity.
Qed.

Example coordinate_agents_empty :
  CollaborationTool.coordinate_agents "t" ""
  = "Multi-Agent Coordination for: t" ++ PyStr.NL ++ PyStr.NL
    ++ CollaborationTool.closing 1.
Proof. reflexivity. Qed.

Example coordinate_agents_spaces :
  CollaborationTool.coordinate_agents "t" " creative ,research,unknown"
  = "Multi-Agent Coordination for: t" ++ PyStr.NL ++ PyStr.NL
    ++ CollaborationTool.research_line ++ CollaborationTool.creative_line
    ++ CollaborationTool.closing 3.
Proof. reflexivity. Qed.

(** ** The agent and the coordinator *)

(** X3: for a request with text, [invoke] and [invoke_stream] each make
    exactly one request to the coordinator, with the same enhanced query
    (the strategy tag, then the query), whether or not the coordinator
    fails, and [invoke] reports that strategy in its metadata; for a request
    without text neither makes any. *)
Theorem one_request_to_the_coordinator :
  forall (str_lower : string -> string)
         (coordinator :
            StrandsMultiAgentChatAgent.world -> string -> Py.result string)
         (strands_event : Type)
         (stream_async :
            StrandsMultiAgentChatAgent.world -> string ->
            list strands_event * option Py.exception)
         (converter : Type) (new_converter : string -> converter)
         (convert :
            converter -> strands_event ->
            Py.result (list Models.StreamEvent) * converter)
         (request : Models.AgenticRequest)
         (w : StrandsMultiAgentChatAgent.world),
    (Models.get_text_content (Models.message request) = None ->
     snd (StrandsMultiAgentChatAgent.invoke str_lower coordinator request w)
     = w
     /\ snd (StrandsMultiAgentChatAgent.invoke_stream str_lower strands_event
               stream_async converter new_converter convert request w) = w)
    /\ (forall query,
          Models.get_text_content (Models.message request) = Some query ->
          let strategy :=
            MultiAgentChatAgent._determine_agent_strategy str_lower query in
          let enhanced_query :=
            "[Multi-Agent Strategy: " ++ strategy ++ "] " ++ query in
          snd (StrandsMultiAgentChatAgent.invoke str_lower coordinator
                 request w)
          = (w ++ [StrandsMultiAgentChatAgent.Call enhanced_query])%list
          /\ snd (StrandsMultiAgentChatAgent.invoke_stream str_lower
                    strands_event stream_async converter new_converter
                    convert request w)
             = (w ++ [StrandsMultiAgentChatAgent.StreamAsync enhanced_query])%list
          /\ (forall response,
                fst (StrandsMultiAgentChatAgent.invoke str_lower coordinator
                       request w) = Py.Return response ->
                In ("strategy_used", Models.MetaStr strategy)
                  (Models.metadata response))).
Proof.
  intros. split.
  - intros H. unfold StrandsMultiAgentChatAgent.invoke,
      StrandsMultiAgentChatAgent.invoke_stream. rewrite H. split; reflexivity.
  - intros query H strategy enhanced_query.
    unfold StrandsMultiAgentChatAgent.invoke,
      StrandsMultiAgentChatAgent.invoke_stream. rewrite H.
    fold strategy.
    change (StrandsMultiAgentChatAgent.enhance strategy query)
      with enhanced_query.
    unfold Py.bind, StrandsMultiAgentChatAgent.call_coordinator.
    repeat split.
    + now destruct (coordinator w enhanced_query).
    + destruct (stream_async w enhanced_query) as [events at_end].
      now destruct (StrandsMultiAgentChatAgent.forward _ _ _ _ _ _)
        as [ys [e|]].
    + destruct (coordinator w enhanced_query); [|discriminate].
      intros response Hr. inversion Hr; subst. simpl. auto.
Qed.

Lemma one_request_to_the_coordinator_witness :
  snd (StrandsMultiAgentChatAgent.invoke PyStr.lower Samples.failing
         (Samples.text_request "Find the data") [])
  = [StrandsMultiAgentChatAgent.Call
       "[Multi-Agent Strategy: research] Find the data"]
  /\ snd (StrandsMultiAgentChatAgent.invoke PyStr.lower Samples.failing
            Samples.empty_request []) = [].
Proof.
  split.
  - destruct (one_request_to_the_coordinator PyStr.lower Samples.failing
                string Samples.broken_stream string (fun session => session)
                Samples.text_converter
                (Samples.text_request "Find the data") []) as [_ H].
    exact (proj1 (H "Find the data" eq_refl)).
  - destruct (one_request_to_the_coordinator PyStr.lower Samples.failing
                string Samples.broken_stream string (fun session => session)
                Samples.text_converter Samples.empty_request []) as [H _].
    exact (proj1 (H eq_refl)).
Defined.

(** A converter that never raises turns every list of events into
    platform events. *)
Lemma converted_exists (strands_event converter : Type)
  (convert :
     converter -> strands_event ->
     Py.result (list Models.StreamEvent) * converter)
  (events : list strands_event) :
  (forall conv event, ~ Py.raises (fst (convert conv event))) ->
  forall conv,
  exists outs conv',
    StrandsMultiAgentChatAgent.Converted strands_event converter convert
      conv events outs conv'.
Proof.
  intros Hok. induction events as [|event rest IH]; intros conv.
  - exists [], conv. constructor.
  - specialize (Hok conv event).
    destruct (convert conv event) as [[platform_events|e] conv1] eqn:E;
      [|now elim Hok].
    destruct (IH conv1) as (outs & conv2 & H).
    exists (platform_events ++ outs)%list, conv2.
    now apply StrandsMultiAgentChatAgent.Converted_cons with conv1.
Qed.

(** X4: through the controller's [create_stream], with a converter that
    does not fail (it may keep state from one event to the next), the
    caller gets what the converter makes of the framework's events, all of
    them and in their order, followed by one [ErrorEvent] with the text of
    the exception when the framework's stream breaks, and by nothing
    otherwise. *)
Theorem create_stream_forwards_in_order :
  forall (str_lower : string -> string) (strands_event : Type)
         (stream_async :
            StrandsMultiAgentChatAgent.world -> string ->
            list strands_event * option Py.exception)
         (converter : Type) (new_converter : string -> converter)
         (convert :
            converter -> strands_event ->
            Py.result (list Models.StreamEvent) * converter)
         (request : Models.AgenticRequest) (query : string)
         (w : StrandsMultiAgentChatAgent.world),
    Models.get_text_content (Models.message request) = Some query ->
    (forall conv event, ~ Py.raises (fst (convert conv event))) ->
    let framework :=
      stream_async w
        ("[Multi-Agent Strategy: "
         ++ MultiAgentChatAgent._determine_agent_strategy str_lower query
         ++ "] " ++ query) in
    let session := Models.or_default (Models.session_id request) in
    exists outs conv',
      StrandsMultiAgentChatAgent.Converted strands_event converter convert
        (new_converter session) (fst framework) outs conv'
      /\ fst (MultiAgentChatController.create_stream
                StrandsMultiAgentChatAgent.world
                StrandsMultiAgentChatAgent.generated
                (StrandsMultiAgentChatAgent.invoke_stream str_lower
                   strands_event stream_async converter new_converter convert)
                request w)
         = {| StrandsMultiAgentChatAgent.yielded :=
                (outs
                 ++ match snd framework with
                    | Some e => [Models.ErrorEvent session (Py.str_of e)]
                    | None => []
                    end)%list;
              StrandsMultiAgentChatAgent.propagated := None |}.
Proof.
  intros str_lower strands_event stream_async converter new_converter
    convert request query w H Hok framework session.
  destruct (converted_exists _ _ convert (fst framework) Hok
              (new_converter session)) as (outs & conv' & Hc).
  exists outs, conv'. split; [exact Hc|].
  unfold MultiAgentChatController.create_stream,
    StrandsMultiAgentChatAgent.invoke_stream.
  rewrite H. subst framework session.
  change ("[Multi-Agent Strategy: "
          ++ MultiAgentChatAgent._determine_agent_strategy str_lower query
          ++ "] " ++ query)
    with (StrandsMultiAgentChatAgent.enhance
            (MultiAgentChatAgent._determine_agent_strategy str_lower query)
            query) in *.
  destruct (stream_async w _) as [events at_end]. cbn [fst snd] in *.
  rewrite (forward_converted _ _ _ _ _ _ _ at_end Hc).
  destruct at_end; cbn; [reflexivity | now rewrite app_nil_r].
Qed.

Lemma create_stream_forwards_in_order_witness :
  exists outs conv',
    StrandsMultiAgentChatAgent.Converted string (nat * string)
      Samples.counting_converter (0, "test-session-1") ["a"; "b"] outs conv'
    /\ fst (MultiAgentChatController.create_stream
              StrandsMultiAgentChatAgent.world
              StrandsMultiAgentChatAgent.generated
              (StrandsMultiAgentChatAgent.invoke_stream PyStr.lower string
                 Samples.broken_stream (nat * string)
                 (fun session => (0, session)) Samples.counting_converter)
              (Samples.text_request "Find it") [])
       = {| StrandsMultiAgentChatAgent.yielded :=
              (outs ++ [Models.ErrorEvent "test-session-1" "reset"])%list;
            StrandsMultiAgentChatAgent.propagated := None |}.
Proof.
  apply (create_stream_forwards_in_order PyStr.lower string
           Samples.broken_stream (nat * string) (fun session => (0, session))
           Samples.counting_converter (Samples.text_request "Find it")
           "Find it" [] eq_refl).
  intros [seen session] event H. exact H.
Defined.

Example create_stream_keeps_converter_state :
  StrandsMultiAgentChatAgent.yielded
    (fst (MultiAgentChatController.create_stream
            StrandsMultiAgentChatAgent.world
            StrandsMultiAgentChatAgent.generated
            (StrandsMultiAgentChatAgent.invoke_stream PyStr.lower string
               Samples.broken_stream (nat * string)
               (fun session => (0, session)) Samples.counting_converter)
            (Samples.text_request "Find it") []))
  = [Models.TextDeltaEvent "test-session-1" "0:a";
     Models.TextDeltaEvent "test-session-1" "1:b";
     Models.ErrorEvent "test-session-1" "reset"].
Proof. reflexivity. Qed.

Lemma lower_append (a b : string) :
  PyStr.lower (a ++ b) = PyStr.lower a ++ PyStr.lower b.
Proof. induction a as [|c a IH]; simpl; [reflexivity | now rewrite IH]. Qed.

Lemma any_keyword_in_longer (keywords : list string) (pre query post : string) :
  MultiAgentChatAgent.any_keyword_in keywords (PyStr.lower query) = true ->
  MultiAgentChatAgent.any_keyword_in keywords
    (PyStr.lower (pre ++ query ++ post)) = true.
Proof.
  unfold MultiAgentChatAgent.any_keyword_in. rewrite !existsb_exists.
  intros (keyword & Hin & H). exists keyword. split; [exact Hin|].
  apply contains_iff in H. apply contains_iff.
  destruct H as (a & b & H). rewrite !lower_append, H.
  exists (PyStr.lower pre ++ a), (b ++ PyStr.lower post).
  now rewrite !append_assoc.
Qed.

(** X5: with ASCII lowering, putting text before or after a query never
    takes an agent away: a category that the strategy of a query names is
    named by the strategy of every text that contains the query. *)
Theorem strategy_keeps_agents_of_part :
  forall (pre query post : string) (c : MultiAgentChatAgent.category),
    PyStr.Substring (MultiAgentChatAgent.label c)
      (MultiAgentChatAgent._determine_agent_strategy PyStr.lower query) ->
    PyStr.Substring (MultiAgentChatAgent.label c)
      (MultiAgentChatAgent._determine_agent_strategy PyStr.lower
         (pre ++ query ++ post)).
Proof.
  intros pre query post c.
  pose proof (any_keyword_in_longer MultiAgentChatAgent.research_keywords
                pre query post) as HR.
  pose proof (any_keyword_in_longer MultiAgentChatAgent.analysis_keywords
                pre query post) as HA.
  pose proof (any_keyword_in_longer MultiAgentChatAgent.creative_keywords
                pre query post) as HC.
  unfold MultiAgentChatAgent._determine_agent_strategy. cbv zeta.
  destruct (MultiAgentChatAgent.any_keyword_in
              MultiAgentChatAgent.research_keywords (PyStr.lower query));
    destruct (MultiAgentChatAgent.any_keyword_in
                MultiAgentChatAgent.analysis_keywords (PyStr.lower query));
    destruct (MultiAgentChatAgent.any_keyword_in
                MultiAgentChatAgent.creative_keywords (PyStr.lower query));
    try rewrite (HR eq_refl); try rewrite (HA eq_refl);
    try rewrite (HC eq_refl); clear HR HA HC;
    repeat match goal with
           | |- context [MultiAgentChatAgent.any_keyword_in ?k ?q] =>
               destruct (MultiAgentChatAgent.any_keyword_in k q)
           end;
    intros H; apply contains_iff in H; apply contains_iff;
    destruct c; first [reflexivity | discriminate H].
Qed.

Lemma strategy_keeps_agents_of_part_witness :
  PyStr.Substring "analysis"
    (MultiAgentChatAgent._determine_agent_strategy PyStr.lower
       ("Please " ++ "solve it" ++ " and write it up")).
Proof.
  apply (strategy_keeps_agents_of_part "Please " "solve it" " and write it up"
           MultiAgentChatAgent.Analysis).
  apply contains_iff. reflexivity.
Defined.

(** ** The knowledge-base tool *)

Lemma collect_filter (rs : list KbTool.retrieval_result) :
  KbTool.collect rs = filter KbTool.filled (map KbTool.text_of rs).
Proof.
  induction rs as [|r rs IH]; simpl; [reflexivity|].
  unfold KbTool.filled at 1.
  destruct (String.eqb (KbTool.text_of r) ""); simpl; now rewrite IH.
Qed.

Lemma concat_filled (sep : string) (texts : list string) :
  texts <> [] -> (forall t, In t texts -> t <> "") ->
  String.concat sep texts <> "".
Proof.
  destruct texts as [|t rest]; [congruence|]. intros _ H.
  assert (Ht : t <> "") by (apply H; now left).
  destruct t as [|c t]; [congruence|].
  destruct rest; simpl; discriminate.
Qed.

(** X6: [search_knowledge_base] never answers with the empty text.  When
    the retrieval succeeds and no result has a text (no results, missing
    keys or empty texts), it answers that nothing relevant was found; when
    some result has a text, it answers with the texts that are not empty,
    in their order, separated by blank lines. *)
Theorem search_knowledge_base_answer :
  forall (knowledge_base_id : option string)
         (client :
            option (string -> string -> Py.result KbTool.retrieve_response))
         (query : string),
  exists answer,
    KbTool.search_knowledge_base knowledge_base_id client query
    = Py.Return answer
    /\ answer <> ""
    /\ (forall retrieve kb_id response,
          client = Some retrieve -> knowledge_base_id = Some kb_id ->
          kb_id <> "" -> retrieve kb_id query = Py.Return response ->
          let texts := filter KbTool.filled (KbTool.texts_of response) in
          (texts = [] ->
           answer = "No relevant information found in the knowledge base.")
          /\ (texts <> [] ->
              answer = PyStr.join (PyStr.NL ++ PyStr.NL) texts)).
Proof.
  intros kb client query. unfold KbTool.search_knowledge_base.
  destruct client as [retrieve|].
  2:{ eexists. split; [reflexivity|]. split; [discriminate|].
      intros; discriminate. }
  destruct kb as [kb_id|].
  2:{ eexists. split; [reflexivity|]. split; [discriminate|].
      intros; discriminate. }
  destruct (String.eqb_spec kb_id "") as [->|Hne].
  { eexists. split; [reflexivity|]. split; [discriminate|].
    intros r k resp Hr Hk Hk'. inversion Hk; subst. congruence. }
  destruct (retrieve kb_id query) as [response|e] eqn:E.
  - rewrite collect_filter. fold (KbTool.texts_of response).
    destruct (filter KbTool.filled (KbTool.texts_of response))
      as [|t ts] eqn:F.
    + eexists. split; [reflexivity|]. split; [discriminate|].
      intros r k resp Hr Hk _ Hresp. inversion Hr; inversion Hk; subst.
      rewrite E in Hresp. inversion Hresp; subst. cbv zeta. rewrite F.
      split; [reflexivity | congruence].
    + eexists. split; [reflexivity|]. split.
      * apply concat_filled; [discriminate|].
        intros x Hx. rewrite <- F in Hx. apply filter_In in Hx.
        destruct Hx as [_ Hx]. unfold KbTool.filled in Hx.
        apply negb_true_iff in Hx. now apply String.eqb_neq.
      * intros r k resp Hr Hk _ Hresp. inversion Hr; inversion Hk; subst.
        rewrite E in Hresp. inversion Hresp; subst. cbv zeta. rewrite F.
        split; [discriminate | reflexivity].
  - eexists. split; [reflexivity|]. split; [discriminate|].
    intros r k resp Hr Hk _ Hresp. inversion Hr; inversion Hk; subst.
    congruence.
Qed.

Lemma search_knowledge_base_answer_witness :
  KbTool.search_knowledge_base (Some "kb")
    (Some (fun _ _ =>
             Py.Return
               {| KbTool.retrievalResults :=
                    Some [{| KbTool.content_text := Some "" |};
                          {| KbTool.content_text := None |}] |}))
    "q"
  = Py.Return "No relevant information found in the knowledge base.".
Proof.
  destruct (search_knowledge_base_answer (Some "kb")
              (Some (fun _ _ =>
                       Py.Return
                         {| KbTool.retrievalResults :=
                              Some [{| KbTool.content_text := Some "" |};
                                    {| KbTool.content_text := None |}] |}))
              "q") as (answer & Heq & _ & H).
  rewrite Heq. f_equal.
  refine (proj1 (H _ "kb"
                   {| KbTool.retrievalResults :=
                        Some [{| KbTool.content_text := Some "" |};
                              {| KbTool.content_text := None |}] |}
                   eq_refl eq_refl _ eq_refl) eq_refl).
  discriminate.
Defined.

(** ** Extraction of the response *)

Lemma after_prefix_prefix (p s : string) :
  PyRe.after_prefix p s =
  if prefix p s then Some (PyStr.drop (String.length p) s) else None.
Proof.
  revert s; induction p as [|a p IH]; intros s.
  - destruct s; reflexivity.
  - destruct s as [|b s]; [reflexivity|].
    cbn [PyRe.after_prefix prefix String.length PyStr.drop].
    destruct (Ascii.eqb_spec a b) as [->|Hne].
    + destruct (ascii_dec b b); [apply IH | congruence].
    + destruct (ascii_dec a b); [congruence | reflexivity].
Qed.

Lemma find_negative (sub s : string) :
  (PyStr.find sub s <? 0)%Z = negb (PyStr.contains sub s).
Proof.
  induction s as [|c s IH]; rewrite find_unfold, contains_unfold.
  - now destruct (prefix sub "").
  - destruct (prefix sub (String c s)); [reflexivity|].
    cbv zeta. simpl orb. rewrite <- IH.
    destruct (Z.ltb_spec (PyStr.find sub s) 0) as [H|H]; [reflexivity|].
    destruct (Z.ltb_spec (PyStr.find sub s + 1) 0); [lia | reflexivity].
Qed.

Lemma find_lower_bound (sub s : string) : (-1 <= PyStr.find sub s)%Z.
Proof.
  induction s as [|c s IH]; rewrite find_unfold.
  - destruct (prefix sub ""); lia.
  - destruct (prefix sub (String c s)); [lia|]. cbv zeta.
    destruct (Z.ltb_spec (PyStr.find sub s) 0); lia.
Qed.

(** A lazy [.*?] followed by a literal stops at the first occurrence of the
    literal. *)
Lemma lazy_star_until (R : Type) (close : string) (F : nat -> R) (s : string) :
  forall pos,
    PyRe.star R PyRe.any_char false pos s
      (fun pos' s' =>
         match PyRe.after_prefix close s' with
         | Some _ => Some (F pos')
         | None => None
         end)
    = if (PyStr.find close s <? 0)%Z then None
      else Some (F (pos + Z.to_nat (PyStr.find close s))).
Proof.
  induction s as [|c s IH]; intros pos.
  - cbn [PyRe.star]. rewrite after_prefix_prefix, find_unfold.
    destruct (prefix close ""); simpl; [now rewrite Nat.add_0_r | reflexivity].
  - cbn [PyRe.star PyRe.any_char]. rewrite after_prefix_prefix, find_unfold.
    destruct (prefix close (String c s)).
    + simpl. now rewrite Nat.add_0_r.
    + rewrite IH. cbv zeta.
      pose proof (find_lower_bound close s) as Hlow.
      destruct (Z.ltb_spec (PyStr.find close s) 0) as [H|H]; [reflexivity|].
      destruct (Z.ltb_spec (PyStr.find close s + 1) 0); [lia|].
      f_equal. f_equal. rewrite Z2Nat.inj_add by lia. simpl. lia.
Qed.

(** The pattern of [extract_response] at one position. *)
Lemma response_tag_at (pos : nat) (s : string) :
  PyRe.match_at ChatController.response_tag pos s =
  if prefix "<response>" s then
    let rest := PyStr.drop 10 s in
    let j := PyStr.find "</response>" rest in
    if (j <? 0)%Z then None
    else Some {| PyRe.stop := pos + 10 + Z.to_nat j + 11;
                 PyRe.captured := [(1, PyStr.take (Z.to_nat j) rest)] |}
  else None.
Proof.
  unfold PyRe.match_at, ChatController.response_tag. cbn [PyRe.m].
  rewrite after_prefix_prefix.
  destruct (prefix "<response>" s); [|reflexivity].
  cbn [String.length]. cbv zeta.
  rewrite (lazy_star_until PyRe.found "</response>"
             (fun pos' =>
                {| PyRe.stop := pos' + 11;
                   PyRe.captured :=
                     [(1, PyStr.take (pos' - (pos + 10)) (PyStr.drop 10 s))] |})).
  destruct (_ <? 0)%Z; [reflexivity|].
  f_equal. f_equal. f_equal. f_equal. f_equal. lia.
Qed.

Lemma contains_drop (sub s : string) (n : nat) :
  PyStr.contains sub s = false -> PyStr.contains sub (PyStr.drop n s) = false.
Proof.
  revert s; induction n as [|n IH]; intros s H.
  - now destruct s.
  - destruct s as [|c s]; [exact H|].
    cbn [PyStr.drop]. apply IH.
    rewrite contains_unfold in H. apply orb_false_iff in H. tauto.
Qed.

Lemma response_tag_nowhere (s : string) :
  forall pos,
    PyStr.contains "</response>" s = false ->
    PyRe.search_from ChatController.response_tag pos s = None.
Proof.
  induction s as [|c s IH]; intros pos H.
  - reflexivity.
  - cbn [PyRe.search_from]. rewrite response_tag_at.
    assert (Hs : PyStr.contains "</response>" s = false).
    { rewrite contains_unfold in H. apply orb_false_iff in H. tauto. }
    destruct (prefix "<response>" (String c s)).
    + cbv zeta. rewrite find_negative.
      rewrite (contains_drop _ _ 10 H). simpl. now apply IH.
    + now apply IH.
Qed.

(** [re.search] of the pattern: the first opening tag decides. *)
Lemma response_tag_search (s : string) :
  forall pos,
    PyRe.search_from ChatController.response_tag pos s =
    let i := PyStr.find "<response>" s in
    if (i <? 0)%Z then None
    else
      let rest := PyStr.drop (Z.to_nat i + 10) s in
      let j := PyStr.find "</response>" rest in
      if (j <? 0)%Z then None
      else Some (pos + Z.to_nat i,
                 {| PyRe.stop := pos + Z.to_nat i + 10 + Z.to_nat j + 11;
                    PyRe.captured := [(1, PyStr.take (Z.to_nat j) rest)] |}).
Proof.
  induction s as [|c s IH]; intros pos.
  - reflexivity.
  - cbn [PyRe.search_from]. rewrite response_tag_at, find_unfold.
    destruct (prefix "<response>" (String c s)) eqn:P.
    + cbv zeta. change (0 <? 0)%Z with false. cbv iota.
      change (Z.to_nat 0 + 10) with 10. rewrite !Nat.add_0_r.
      destruct (PyStr.find "</response>" (PyStr.drop 10 (String c s)) <? 0)%Z
        eqn:F; [|reflexivity].
      apply response_tag_nowhere.
      rewrite find_negative in F. apply negb_true_iff in F.
      apply prefix_iff in P. destruct P as [rest P].
      inversion P; subst. change (PyStr.drop 10 _) with rest in F.
      simpl. exact F.
    + rewrite IH. cbv zeta.
      pose proof (find_lower_bound "<response>" s) as Hlow.
      destruct (Z.ltb_spec (PyStr.find "<response>" s) 0) as [H|H];
        [reflexivity|].
      destruct (Z.ltb_spec (PyStr.find "<response>" s + 1) 0); [lia|].
      replace (Z.to_nat (PyStr.find "<response>" s + 1))
        with (S (Z.to_nat (PyStr.find "<response>" s))) by lia.
      cbn [Nat.add PyStr.drop].
      destruct (_ <? 0)%Z; [reflexivity|].
      f_equal. f_equal; [lia|]. f_equal. lia.
Qed.

(** X7: [extract_response] returns the text between the first opening tag
    and the first closing tag after it, stripped, and the apology when the
    text has no opening tag or no closing tag after the first opening
    one. *)
Theorem extract_response_by_find :
  forall text : string,
    ChatController.extract_response text
    = ChatController.extract_by_find text.
Proof.
  intros text.
  unfold ChatController.extract_response, ChatController.extract_by_find,
    PyRe.search.
  rewrite response_tag_search. cbv zeta.
  pose proof (find_lower_bound "<response>" text) as Hlow.
  destruct (Z.ltb_spec (PyStr.find "<response>" text) 0) as [H|H];
    [reflexivity|].
  unfold PyStr.slice_from.
  destruct (Z.ltb_spec (PyStr.find "<response>" text + 10) 0); [lia|].
  replace (Z.to_nat (PyStr.find "<response>" text + 10))
    with (Z.to_nat (PyStr.find "<response>" text) + 10) by lia.
  destruct (_ <? 0)%Z; reflexivity.
Qed.

Lemma rstrip_rstrip (s : string) : PyStr.rstrip (PyStr.rstrip s) = PyStr.rstrip s.
Proof.
  induction s as [|c s IH]; [reflexivity|].
  cbn [PyStr.rstrip].
  destruct (PyStr.rstrip s) as [|d kept] eqn:E.
  - destruct (PyStr.is_space c) eqn:Hc; [reflexivity|].
    cbn [PyStr.rstrip]. now rewrite Hc.
  - cbn [PyStr.rstrip] in *. rewrite IH. reflexivity.
Qed.

Lemma lstrip_head (s : string) :
  PyStr.lstrip s = "" \/
  exists c t, PyStr.lstrip s = String c t /\ PyStr.is_space c = false.
Proof.
  induction s as [|c s IH]; [now left|].
  cbn [PyStr.lstrip]. destruct (PyStr.is_space c) eqn:Hc; [exact IH|].
  right. now exists c, s.
Qed.

Lemma strip_strip (s : string) : PyStr.strip (PyStr.strip s) = PyStr.strip s.
Proof.
  unfold PyStr.strip.
  destruct (lstrip_head s) as [-> | (c & t & -> & Hc)]; [reflexivity|].
  assert (H : exists u, PyStr.rstrip (String c t) = String c u).
  { cbn [PyStr.rstrip]. destruct (PyStr.rstrip t); rewrite ?Hc; eauto. }
  destruct H as [u Hu].
  assert (Hl : PyStr.lstrip (PyStr.rstrip (String c t))
               = PyStr.rstrip (String c t)).
  { rewrite Hu. cbn [PyStr.lstrip]. now rewrite Hc. }
  rewrite Hl. apply rstrip_rstrip.
Qed.

Lemma no_tag_gives_apology (text : string) :
  PyStr.contains "<response>" text = false ->
  ChatController.extract_response text = ChatController.apology.
Proof.
  intros H. unfold ChatController.extract_response, PyRe.search.
  rewrite response_tag_search. cbv zeta. rewrite find_negative, H.
  reflexivity.
Qed.

(** X8: what [extract_response] returns has no white space at either end:
    stripping it again changes nothing. *)
Theorem extract_response_is_stripped :
  forall text : string,
    PyStr.strip (ChatController.extract_response text)
    = ChatController.extract_response text.
Proof.
  intros text. unfold ChatController.extract_response.
  destruct (PyRe.search _ text) as [[start found]|]; [|reflexivity].
  destruct (PyRe.group 1 _); [apply strip_strip | reflexivity].
Qed.

(** X9: [ChatController.chat] sends the service exactly one prompt, with an
    empty history and the request's text, or "Hello" when the request has no
    text or an empty one; it raises what the service raises; and when the
    service's answer has no opening response tag, the reply is the
    apology, from the assistant, under the request's session identifier. *)
Theorem chat_prompt_and_fallbacks :
  forall (chat_service_run :
            ChatController.world -> ChatController.ChatPrompt ->
            Py.result string)
         (request : Models.AgenticRequest) (w : ChatController.world),
    let user_text :=
      match Models.latest_user_text request with
      | Some text => if String.eqb text "" then "Hello" else text
      | None => "Hello"
      end in
    let prompt :=
      {| ChatController.chat_history := "";
         ChatController.prompt_message := user_text |} in
    snd (ChatController.chat chat_service_run request w) = (w ++ [prompt])%list
    /\ (forall e,
          chat_service_run w prompt = Py.Raise e ->
          fst (ChatController.chat chat_service_run request w) = Py.Raise e)
    /\ (forall answer,
          chat_service_run w prompt = Py.Return answer ->
          PyStr.contains "<response>" answer = false ->
          fst (ChatController.chat chat_service_run request w)
          = Py.Return
              {| Models.response_message :=
                   {| Models.role := "assistant";
                      Models.content :=
                        [Models.TextContent ChatController.apology] |};
                 Models.response_session_id := Models.session_id request;
                 Models.metadata := [] |}).
Proof.
  intros chat_service_run request w user_text prompt.
  assert (Hp : ChatController.chat chat_service_run request w
               = Py.bind (ChatController.run chat_service_run prompt)
                   (fun response_text =>
                      Py.ret
                        {| Models.response_message :=
                             Models.from_text "assistant"
                               (ChatController.extract_response response_text);
                           Models.response_session_id :=
                             Models.session_id request;
                           Models.metadata := [] |}) w).
  { unfold ChatController.chat, prompt, user_text, Models.truthy_str.
    destruct (Models.latest_user_text request) as [text|]; [|reflexivity].
    now destruct (String.eqb text ""). }
  rewrite Hp. unfold Py.bind, ChatController.run, Py.ret.
  repeat split.
  - now destruct (chat_service_run w prompt).
  - intros e He. now rewrite He.
  - intros answer Ha Hno. rewrite Ha. simpl.
    rewrite no_tag_gives_apology by exact Hno. reflexivity.
Qed.

Lemma chat_prompt_and_fallbacks_witness :
  fst (ChatController.chat (fun _ _ => Py.Return "no tags here")
         Samples.empty_request [])
  = Py.Return
      {| Models.response_message :=
           {| Models.role := "assistant";
              Models.content := [Models.TextContent ChatController.apology] |};
         Models.response_session_id := None;
         Models.metadata := [] |}.
Proof.
  pose proof (chat_prompt_and_fallbacks (fun _ _ => Py.Return "no tags here")
                Samples.empty_request []) as H.
  cbv zeta in H. destruct H as (_ & _ & H).
  exact (H "no tags here" eq_refl eq_refl).
Defined.

(** ** More on file selection *)

Lemma filter_all {A : Type} (l : list A) : filter (fun _ => true) l = l.
Proof. induction l as [|x l IH]; simpl; [reflexivity | now rewrite IH]. Qed.

Lemma filter_none {A : Type} (l : list A) : filter (fun _ => false) l = [].
Proof. induction l as [|x l IH]; simpl; [reflexivity | exact IH]. Qed.

(** X10: [filter_files] only returns paths of its input; a path of the
    input that is in neither list matches an exclude pattern (with its
    path or its basename) and no include pattern; and with a configuration
    that names no patterns, nothing is important and every file is kept. *)
Theorem filter_files_accounts_for_every_file :
  forall (fnmatch : string -> string -> bool) (files : list string)
         (config : GenerateSummaries.config),
    let selected := GenerateSummaries.filter_files fnmatch files config in
    let include_patterns :=
      GenerateSummaries.get
        (GenerateSummaries.include_patterns
           (GenerateSummaries.selection config)) [] in
    let exclude_patterns :=
      GenerateSummaries.get
        (GenerateSummaries.exclude_patterns
           (GenerateSummaries.selection config)) [] in
    (forall path,
       In path (fst selected) \/ In path (snd selected) -> In path files)
    /\ (forall path,
          In path files ->
          ~ In path (fst selected) -> ~ In path (snd selected) ->
          (exists pattern,
             In pattern exclude_patterns
             /\ (fnmatch path pattern = true
                 \/ fnmatch (PyStr.basename path) pattern = true))
          /\ (forall pattern,
                In pattern include_patterns ->
                fnmatch (PyStr.basename path) pattern = false))
    /\ (include_patterns = [] -> exclude_patterns = [] ->
        selected = ([], files)).
Proof.
  intros fnmatch files config selected include_patterns exclude_patterns.
  subst selected. unfold GenerateSummaries.filter_files.
  fold include_patterns. fold exclude_patterns. cbn [fst snd].
  split; [|split].
  - intros path [H|H]; apply filter_In in H; tauto.
  - intros path Hin Himp Hfil.
    assert (Hinc : GenerateSummaries.included fnmatch include_patterns path
                   = false).
    { destruct (GenerateSummaries.included fnmatch include_patterns path)
        eqn:E; [|reflexivity].
      exfalso. apply Himp. apply filter_In. now split. }
    split.
    + destruct (GenerateSummaries.excluded fnmatch exclude_patterns path)
        eqn:E.
      * unfold GenerateSummaries.excluded in E. apply existsb_exists in E.
        destruct E as (pattern & Hp & Hm). exists pattern. split; [exact Hp|].
        now apply orb_true_iff in Hm.
      * exfalso. apply Hfil. apply filter_In. split; [exact Hin|].
        rewrite E. simpl.
        destruct (GenerateSummaries.mem path _) eqn:M; [|reflexivity].
        apply mem_iff in M. contradiction.
    + intros pattern Hp.
      destruct (fnmatch (PyStr.basename path) pattern) eqn:E; [|reflexivity].
      assert (GenerateSummaries.included fnmatch include_patterns path = true).
      { unfold GenerateSummaries.included. apply existsb_exists. eauto. }
      congruence.
  - intros Hi He. rewrite Hi, He.
    unfold GenerateSummaries.included, GenerateSummaries.excluded. simpl.
    rewrite filter_none. unfold GenerateSummaries.mem. simpl.
    now rewrite filter_all.
Qed.

Lemma filter_files_accounts_for_every_file_witness :
  exists pattern,
    In pattern ["*.py"; "*.log"]
    /\ (Samples.fnmatch "/repo/docs/run.log" pattern = true
        \/ Samples.fnmatch (PyStr.basename "/repo/docs/run.log") pattern
           = true).
Proof.
  destruct (filter_files_accounts_for_every_file Samples.fnmatch
              Samples.sample_files Samples.sample_config) as (_ & H & _).
  apply (H "/repo/docs/run.log").
  - simpl. auto.
  - vm_compute. intros [E|[]]. discriminate E.
  - vm_compute. intros [E|[]]. discriminate E.
Defined.

(** ** The assembly of the summary *)

Lemma continues_refl (st : GenerateSummaries.assembly) :
  GenerateSummaries.continues st st.
Proof.
  split; [exists ""; now rewrite append_empty_r | lia].
Qed.

Lemma continues_trans (a b c : GenerateSummaries.assembly) :
  GenerateSummaries.continues a b -> GenerateSummaries.continues b c ->
  GenerateSummaries.continues a c.
Proof.
  intros [[x Hx] Hab] [[y Hy] Hbc]. split; [|lia].
  exists (x ++ y). now rewrite Hy, Hx, append_assoc.
Qed.

Lemma continues_add (st : GenerateSummaries.assembly) (text : string)
  (tokens : Z) :
  (0 <= tokens)%Z ->
  GenerateSummaries.continues st (GenerateSummaries.add st text tokens).
Proof. intros H. split; [now exists text | simpl; lia]. Qed.

Lemma continues_add_counted (st : GenerateSummaries.assembly) (text : string) :
  GenerateSummaries.continues st (GenerateSummaries.add_counted st text).
Proof.
  apply continues_add. apply Z.div_pos; [apply len_nonneg | lia].
Qed.

Lemma continues_add_note (st : GenerateSummaries.assembly) (text : string) :
  GenerateSummaries.continues st (GenerateSummaries.add_note st text).
Proof. split; [now exists text | simpl; lia]. Qed.

Lemma continues_add_header (st : GenerateSummaries.assembly) (path : string) :
  GenerateSummaries.continues st (GenerateSummaries.add_header st path).
Proof. apply continues_add_counted. Qed.

Lemma tokens_nonneg (text : string) : (0 <= PyStr.len text / 4)%Z.
Proof. apply Z.div_pos; [apply len_nonneg | lia]. Qed.

Lemma continues_add_cells (cells : list GenerateSummaries.cell) :
  forall st, GenerateSummaries.continues st
               (GenerateSummaries.add_cells cells st).
Proof.
  induction cells as [|c rest IH]; intros st; cbn [GenerateSummaries.add_cells].
  - apply continues_refl.
  - destruct (GenerateSummaries.cell_type c) as [kind|]; [|apply IH].
    destruct (String.eqb kind "markdown").
    + destruct (_ >? _)%Z; [apply continues_add_note|].
      eapply continues_trans; [|apply IH].
      apply continues_add, tokens_nonneg.
    + destruct (String.eqb kind "code"); [|apply IH].
      destruct (_ >? _)%Z; [apply continues_add_note|].
      eapply continues_trans; [|apply IH]. apply continues_add_counted.
Qed.

Lemma reads_to_ret {A : Type} (a : A) (P : A -> Prop) :
  P a -> GenerateSummaries.reads_to (Py.ret a) P.
Proof. intros H w. now exists a. Qed.

Lemma reads_to_bind {A B : Type} (c : Py.M GenerateSummaries.world A)
  (k : A -> Py.M GenerateSummaries.world B) (P : B -> Prop) :
  GenerateSummaries.reads c ->
  (forall a, GenerateSummaries.reads_to (k a) P) ->
  GenerateSummaries.reads_to (Py.bind c k) P.
Proof.
  intros Hc Hk w. unfold Py.bind. destruct (Hc w) as [a ->]. apply Hk.
Qed.

Section Assembly.

Variable open_read : GenerateSummaries.world -> string -> Py.result string.
Variable json_loads : string -> Py.result GenerateSummaries.notebook.

Lemma continues_add_notebooks (max_cells : Z) (paths : list string) :
  forall st,
    GenerateSummaries.reads_to
      (GenerateSummaries.add_notebooks open_read json_loads max_cells paths st)
      (GenerateSummaries.continues st).
Proof.
  induction paths as [|path rest IH]; intros st;
    cbn [GenerateSummaries.add_notebooks].
  - apply reads_to_ret, continues_refl.
  - apply reads_to_bind; [apply reads_read_file|]. intros content w.
    match goal with
    | |- exists a, GenerateSummaries.add_notebooks _ _ _ _ ?st1 w = _ /\ _ =>
        destruct (IH st1 w) as (st' & E & H);
        assert (Hst1 : GenerateSummaries.continues st st1)
    end.
    { destruct (GenerateSummaries.nonempty content); [|apply continues_refl].
      destruct (json_loads s).
      - eapply continues_trans;
          [apply continues_add_header | apply continues_add_cells].
      - eapply continues_trans;
          [apply continues_add_header | apply continues_add_counted]. }
    exists st'. split; [exact E|]. eapply continues_trans; eassumption.
Qed.

Lemma continues_add_code_files (lang stop_note : string) (max_lines : Z)
  (paths : list string) :
  forall st,
    GenerateSummaries.reads_to
      (GenerateSummaries.add_code_files open_read lang stop_note max_lines
         paths st)
      (GenerateSummaries.continues st).
Proof.
  induction paths as [|path rest IH]; intros st;
    cbn [GenerateSummaries.add_code_files].
  - apply reads_to_ret, continues_refl.
  - destruct (_ >? _)%Z; [apply reads_to_ret, continues_add_note|].
    apply reads_to_bind; [apply reads_read_file|]. intros content w.
    match goal with
    | |- exists a, GenerateSummaries.add_code_files _ _ _ _ _ ?st1 w = _ /\ _ =>
        destruct (IH st1 w) as (st' & E & H);
        assert (Hst1 : GenerateSummaries.continues st st1)
    end.
    { destruct (GenerateSummaries.nonempty content); [|apply continues_refl].
      destruct (_ >? _)%Z.
      - eapply continues_trans;
          [apply continues_add_header | apply continues_add_note].
      - eapply continues_trans; [apply continues_add_header|].
        apply continues_add, tokens_nonneg. }
    exists st'. split; [exact E|]. eapply continues_trans; eassumption.
Qed.

Lemma continues_add_markdown_files (paths : list string) :
  forall st,
    GenerateSummaries.reads_to
      (GenerateSummaries.add_markdown_files open_read paths st)
      (GenerateSummaries.continues st).
Proof.
  induction paths as [|path rest IH]; intros st;
    cbn [GenerateSummaries.add_markdown_files].
  - apply reads_to_ret, continues_refl.
  - destruct (String.eqb _ _); [apply IH|].
    destruct (_ >? _)%Z; [apply reads_to_ret, continues_add_note|].
    apply reads_to_bind; [apply reads_read_file|]. intros content w.
    match goal with
    | |- exists a, GenerateSummaries.add_markdown_files _ _ ?st1 w = _ /\ _ =>
        destruct (IH st1 w) as (st' & E & H);
        assert (Hst1 : GenerateSummaries.continues st st1)
    end.
    { destruct (GenerateSummaries.nonempty content); [|apply continues_refl].
      eapply continues_trans; [apply continues_add_header|].
      apply continues_add, tokens_nonneg. }
    exists st'. split; [exact E|]. eapply continues_trans; eassumption.
Qed.

End Assembly.

Lemma reads_to_then {A B : Type} (c : Py.M GenerateSummaries.world A)
  (k : A -> Py.M GenerateSummaries.world B) (Q : A -> Prop) (P : B -> Prop) :
  GenerateSummaries.reads_to c Q ->
  (forall a, Q a -> GenerateSummaries.reads_to (k a) P) ->
  GenerateSummaries.reads_to (Py.bind c k) P.
Proof.
  intros Hc Hk w. unfold Py.bind. destruct (Hc w) as (a & -> & Ha).
  now apply Hk.
Qed.

Section FolderContent.

Variable REPO_ROOT : string.
Variable joinpath : string -> string -> string.
Variable path_exists : GenerateSummaries.world -> string -> bool.
Variable open_read : GenerateSummaries.world -> string -> Py.result string.
Variable os_walk : GenerateSummaries.world -> string -> list string.
Variable json_loads : string -> Py.result GenerateSummaries.notebook.
Variable fnmatch : string -> string -> bool.

Let get_folder_content_summary :=
  GenerateSummaries.get_folder_content_summary REPO_ROOT joinpath path_exists
    open_read os_walk json_loads fnmatch.

(** X11: the three outcomes of [get_folder_content_summary], none of which
    changes the world.  It returns [None] when the folder does not exist.
    It raises a [TypeError] when README.md exists and cannot be read, since
    [None] is then added to a string.  Otherwise it returns a summary that
    begins with the title of the folder and the README (or the note that
    there is none), so a summary returned is never empty. *)
Theorem get_folder_content_summary_outcomes :
  forall (folder_name : string) (config : GenerateSummaries.config)
         (w : GenerateSummaries.world),
    let folder_path := joinpath REPO_ROOT folder_name in
    let readme_path := joinpath folder_path "README.md" in
    let begins readme summary :=
      exists rest,
        summary = "# Folder Content Summary for " ++ folder_name
                  ++ PyStr.NL ++ PyStr.NL ++ "## README Content"
                  ++ PyStr.NL ++ PyStr.NL ++ readme ++ rest in
    (path_exists w folder_path = false ->
     get_folder_content_summary folder_name config w = (Py.Return None, w))
    /\ (path_exists w folder_path = true ->
        path_exists w readme_path = true ->
        Py.raises (open_read w readme_path) ->
        get_folder_content_summary folder_name config w
        = (Py.Raise
             (Py.OtherError "TypeError"
                "unsupported operand type(s) for +: 'NoneType' and 'str'"),
           w))
    /\ (path_exists w folder_path = true ->
        path_exists w readme_path = false ->
        exists summary,
          get_folder_content_summary folder_name config w
          = (Py.Return (Some summary), w)
          /\ begins "No README.md found." summary)
    /\ (forall readme,
          path_exists w folder_path = true ->
          path_exists w readme_path = true ->
          open_read w readme_path = Py.Return readme ->
          exists summary,
            get_folder_content_summary folder_name config w
            = (Py.Return (Some summary), w)
            /\ begins readme summary).
Proof.
  intros folder_name config w folder_path readme_path begins.
  assert (Hloops :
            forall readme all_files important filtered,
              GenerateSummaries.reads_to
                (let summary :=
                   GenerateSummaries.overview folder_name readme all_files
                     important filtered config in
                 let sel := GenerateSummaries.selection config in
                 let st :=
                   {| GenerateSummaries.content_summary := summary;
                      GenerateSummaries.tokens_used :=
                        (PyStr.len summary / 4)%Z |} in
                 let paths kind :=
                   GenerateSummaries.prioritized kind important filtered in
                 Py.bind
                   (GenerateSummaries.add_notebooks open_read json_loads
                      (GenerateSummaries.get
                         (GenerateSummaries.max_notebook_cells sel) 10000%Z)
                      (PyStr.upto
                         (GenerateSummaries.get
                            (GenerateSummaries.max_notebooks sel) 1000%Z)
                         (paths (GenerateSummaries.has_ext ".ipynb"))) st)
                   (fun st =>
                 Py.bind
                   (GenerateSummaries.add_python_files open_read
                      (GenerateSummaries.get
                         (GenerateSummaries.max_python_lines sel) 100000%Z)
                      (PyStr.upto
                         (GenerateSummaries.get
                            (GenerateSummaries.max_python_files sel) 1000%Z)
                         (paths (GenerateSummaries.has_ext ".py"))) st)
                   (fun st =>
                 Py.bind
                   (GenerateSummaries.add_markdown_files open_read
                      (PyStr.upto
                         (GenerateSummaries.get
                            (GenerateSummaries.max_markdown_files sel) 1000%Z)
                         (paths (GenerateSummaries.has_ext ".md"))) st)
                   (fun st =>
                 Py.bind
                   (GenerateSummaries.add_code_files open_read "yaml"
                      "*Note: Additional YAML files omitted due to token limit*"
                      (GenerateSummaries.get
                         (GenerateSummaries.max_yaml_lines sel) 100000%Z)
                      (PyStr.upto
                         (GenerateSummaries.get
                            (GenerateSummaries.max_yaml_files sel) 1000%Z)
                         (paths GenerateSummaries.is_yaml)) st)
                   (fun st =>
                 Py.bind
                   (GenerateSummaries.add_code_files open_read "hcl"
                      GenerateSummaries.additional_files_note
                      (GenerateSummaries.get
                         (GenerateSummaries.max_terraform_lines sel) 100000%Z)
                      (PyStr.upto
                         (GenerateSummaries.get
                            (GenerateSummaries.max_terraform_files sel)
                            1000%Z)
                         (paths (GenerateSummaries.has_ext ".tf"))) st)
                   (fun st =>
                 Py.bind
                   (GenerateSummaries.add_code_files open_read "bash"
                      GenerateSummaries.additional_files_note
                      (GenerateSummaries.get
                         (GenerateSummaries.max_shell_lines sel) 100000%Z)
                      (PyStr.upto
                         (GenerateSummaries.get
                            (GenerateSummaries.max_shell_files sel) 1000%Z)
                         (paths (GenerateSummaries.has_ext ".sh"))) st)
                   (fun st =>
                 Py.bind
                   (GenerateSummaries.add_code_files open_read ""
                      GenerateSummaries.additional_files_note
                      (GenerateSummaries.get
                         (GenerateSummaries.max_text_lines sel) 100000%Z)
                      (PyStr.upto
                         (GenerateSummaries.get
                            (GenerateSummaries.max_text_files sel) 1000%Z)
                         (paths (GenerateSummaries.has_ext ".txt"))) st)
                   (fun st =>
                      Py.ret
                        (Some (GenerateSummaries.content_summary st))))))))))
                (fun r => exists summary, r = Some summary
                                          /\ begins readme summary)).
  { intros readme all_files important filtered. cbv zeta.
    set (st0 := {| GenerateSummaries.content_summary := _;
                   GenerateSummaries.tokens_used := _ |}).
    eapply reads_to_then; [apply continues_add_notebooks|]. intros st1 H1.
    eapply reads_to_then;
      [apply continues_add_code_files|]. intros st2 H2.
    eapply reads_to_then; [apply continues_add_markdown_files|].
    intros st3 H3.
    eapply reads_to_then; [apply continues_add_code_files|]. intros st4 H4.
    eapply reads_to_then; [apply continues_add_code_files|]. intros st5 H5.
    eapply reads_to_then; [apply continues_add_code_files|]. intros st6 H6.
    eapply reads_to_then; [apply continues_add_code_files|]. intros st7 H7.
    apply reads_to_ret.
    assert (H : GenerateSummaries.continues st0 st7).
    { repeat (eapply continues_trans; [eassumption|]). apply continues_refl. }
    destruct H as [[added Hadded] _].
    eexists. split; [reflexivity|].
    rewrite Hadded. unfold st0, begins.
    cbn [GenerateSummaries.content_summary].
    unfold GenerateSummaries.overview. cbv zeta.
    eexists. rewrite !append_assoc. reflexivity. }
  unfold get_folder_content_summary,
    GenerateSummaries.get_folder_content_summary.
  fold folder_path. fold readme_path.
  repeat apply conj.
  - intros H. now rewrite H.
  - intros Hf Hr Hraise. rewrite Hf, Hr. cbn [negb].
    unfold Py.bind at 1, GenerateSummaries.read_file, Py.try_except, Py.ret.
    destruct (open_read w readme_path); [contradiction|].
    unfold Py.bind at 1, GenerateSummaries.list_files.
    now destruct (GenerateSummaries.filter_files _ _ _).
  - intros Hf Hr. rewrite Hf, Hr. cbn [negb].
    unfold Py.bind at 1, Py.ret at 1.
    unfold Py.bind at 1, GenerateSummaries.list_files.
    destruct (GenerateSummaries.filter_files _ _ _) as [important filtered].
    destruct (Hloops "No README.md found." (os_walk w folder_path) important
                filtered w) as (r & E & summary & -> & Hb).
    exists summary. split; [exact E | exact Hb].
  - intros readme Hf Hr Hread. rewrite Hf, Hr. cbn [negb].
    unfold Py.bind at 1, GenerateSummaries.read_file, Py.try_except, Py.ret.
    rewrite Hread.
    unfold Py.bind at 1, GenerateSummaries.list_files.
    destruct (GenerateSummaries.filter_files _ _ _) as [important filtered].
    destruct (Hloops readme (os_walk w folder_path) important filtered w)
      as (r & E & summary & -> & Hb).
    exists summary. split; [exact E | exact Hb].
Qed.

End FolderContent.

Lemma get_folder_content_summary_outcomes_witness :
  Samples.summarize_unreadable_guide
  = (Py.Raise
       (Py.OtherError "TypeError"
          "unsupported operand type(s) for +: 'NoneType' and 'str'"), [])
  /\ exists summary,
       Samples.summarize_guide "Guide." = (Py.Return (Some summary), [])
       /\ exists rest,
            summary = "# Folder Content Summary for " ++ "guide"
                      ++ PyStr.NL ++ PyStr.NL ++ "## README Content"
                      ++ PyStr.NL ++ PyStr.NL ++ "Guide." ++ rest.
Proof.
  split.
  - apply (get_folder_content_summary_outcomes "/repo" Samples.joinpath
             Samples.guide_exists Samples.open_read Samples.guide_walk
             Samples.json_loads Samples.fnmatch "guide" Samples.sample_config
             []); [reflexivity | reflexivity | exact I].
  - apply (get_folder_content_summary_outcomes "/repo" Samples.joinpath
             Samples.guide_exists (Samples.guide_read "Guide.")
             Samples.guide_walk Samples.json_loads Samples.fnmatch "guide"
             Samples.sample_config []); reflexivity.
Defined.

(** ** More on the batch script *)

Lemma replace_slashes_twice (s : string) :
  PyStr.replace (PyStr.replace s "/" "_") "/" "_" = PyStr.replace s "/" "_".
Proof.
  unfold PyStr.replace. induction s as [|c s IH]; [reflexivity|].
  cbn [PyStr.replace_from prefix String.length Nat.sub].
  destruct (ascii_dec "/" c) as [<-|Hc].
  - assert (Hp : forall t, prefix "" t = true) by (now intros [|? ?]).
    rewrite Hp. cbn [append PyStr.replace_from prefix].
    destruct (ascii_dec "/" "_") as [E|_]; [discriminate E|].
    now rewrite IH.
  - cbn [PyStr.replace_from prefix].
    destruct (ascii_dec "/" c) as [E|_]; [contradiction|].
    now rewrite IH.
Qed.

Section RunFacts.

Variables REPO_ROOT ANALYSIS_DIR : string.
Variable joinpath : string -> string -> string.
Variable path_exists : GenerateSummaries.world -> string -> bool.
Variable open_read : GenerateSummaries.world -> string -> Py.result string.
Variable open_write :
  GenerateSummaries.world -> string -> string -> Py.result unit.
Variable os_walk : GenerateSummaries.world -> string -> list string.
Variable yaml_safe_load :
  string -> Py.result (option GenerateSummaries.config).
Variable json_loads : string -> Py.result GenerateSummaries.notebook.
Variable fnmatch : string -> string -> bool.
Variable bedrock_client : GenerateSummaries.world -> Py.result unit.
Variable bedrock_converse :
  GenerateSummaries.world -> string -> Py.result string.
Variable now : GenerateSummaries.world -> string.

Let get_folder_content_summary :=
  GenerateSummaries.get_folder_content_summary REPO_ROOT joinpath path_exists
    open_read os_walk json_loads fnmatch.
Let prepare :=
  GenerateSummaries.prepare REPO_ROOT ANALYSIS_DIR joinpath path_exists
    open_read open_write os_walk json_loads fnmatch bedrock_client now.
Let generate_summary_with_bedrock :=
  GenerateSummaries.generate_summary_with_bedrock REPO_ROOT ANALYSIS_DIR
    joinpath path_exists open_read open_write os_walk json_loads fnmatch
    bedrock_client bedrock_converse now.
Let generate_summary_file :=
  GenerateSummaries.generate_summary_file REPO_ROOT ANALYSIS_DIR joinpath
    path_exists open_read open_write os_walk json_loads fnmatch
    bedrock_client bedrock_converse now.
Let process :=
  GenerateSummaries.process REPO_ROOT ANALYSIS_DIR joinpath path_exists
    open_read open_write os_walk json_loads fnmatch bedrock_client
    bedrock_converse now.
Let main :=
  GenerateSummaries.main REPO_ROOT ANALYSIS_DIR joinpath path_exists
    open_read open_write os_walk yaml_safe_load json_loads fnmatch
    bedrock_client bedrock_converse now.
Let output_file_of :=
  GenerateSummaries.output_file_of ANALYSIS_DIR joinpath.

(** An exception that leaves [generate_summary_file] ends the loop of
    [main] there. *)
Lemma process_stops_on_raise (folder_name prompt_template : string)
  (config : GenerateSummaries.config) (w w' : GenerateSummaries.world)
  (e : Py.exception) (rest : list string) (success_count : nat) :
  generate_summary_file folder_name prompt_template config w
  = (Py.Raise e, w') ->
  process (folder_name :: rest) prompt_template config success_count w
  = (Py.Raise e, w').
Proof.
  intros H. unfold process. cbn [GenerateSummaries.process].
  unfold Py.bind at 1. fold generate_summary_file. now rewrite H.
Qed.

(** X12: a folder whose README.md exists and cannot be read stops the whole
    run: the [TypeError] of [get_folder_content_summary] is caught nowhere,
    so the loop of [main] raises at that folder, with nothing sent or
    written for it, and the folders after it are not processed. *)
Theorem unreadable_readme_stops_the_run :
  forall (folder_name prompt_template : string)
         (config : GenerateSummaries.config) (w : GenerateSummaries.world)
         (rest : list string) (success_count : nat),
    let folder_path := joinpath REPO_ROOT folder_name in
    let readme_path := joinpath folder_path "README.md" in
    path_exists w (output_file_of folder_name config) = false ->
    path_exists w folder_path = true ->
    path_exists w readme_path = true ->
    Py.raises (open_read w readme_path) ->
    process (folder_name :: rest) prompt_template config success_count w
    = (Py.Raise
         (Py.OtherError "TypeError"
            "unsupported operand type(s) for +: 'NoneType' and 'str'"), w).
Proof.
  intros folder_name prompt_template config w rest success_count folder_path
    readme_path Hout Hf Hr Hraise.
  apply process_stops_on_raise.
  unfold generate_summary_file, GenerateSummaries.generate_summary_file.
  cbv zeta. fold output_file_of. rewrite Hout.
  unfold Py.bind at 1, GenerateSummaries.generate_summary_with_bedrock.
  unfold Py.bind at 1, GenerateSummaries.prepare.
  unfold Py.bind at 1.
  unfold GenerateSummaries.get_folder_content_summary.
  fold folder_path. fold readme_path. rewrite Hf, Hr. cbn [negb].
  unfold Py.bind at 1, GenerateSummaries.read_file, Py.try_except, Py.ret.
  destruct (open_read w readme_path); [contradiction|].
  unfold Py.bind at 1, GenerateSummaries.list_files.
  now destruct (GenerateSummaries.filter_files _ _ _).
Qed.

(** X13: folder names that differ only in slashes and underscores share
    one summary file, so once the summary of one exists the other is
    skipped and counted as done, with nothing sent for it. *)
Theorem slash_and_underscore_collide :
  forall (folder_name prompt_template : string)
         (config : GenerateSummaries.config) (w : GenerateSummaries.world),
    output_file_of (PyStr.replace folder_name "/" "_") config
    = output_file_of folder_name config
    /\ (forall other_name,
          PyStr.replace other_name "/" "_" = PyStr.replace folder_name "/" "_" ->
          path_exists w (output_file_of folder_name config) = true ->
          generate_summary_file other_name prompt_template config w
          = (Py.Return true, w)).
Proof.
  intros folder_name prompt_template config w. split.
  - unfold output_file_of, GenerateSummaries.output_file_of. cbv zeta.
    now rewrite replace_slashes_twice.
  - intros other_name H Hex.
    assert (E : output_file_of other_name config
                = output_file_of folder_name config).
    { unfold output_file_of, GenerateSummaries.output_file_of. cbv zeta.
      now rewrite H. }
    unfold generate_summary_file, GenerateSummaries.generate_summary_file.
    cbv zeta. fold output_file_of. now rewrite E, Hex.
Qed.

(** X14: what [generate_summary_file] does with an answer of the model,
    that is, when the call is made (the prompt is prepared and the
    configuration has the keys the call reads) and returns.
    The summary written is the cleaned answer, under the folder's summary
    path, and the folder counts as done; when the cleaned answer is empty,
    nothing is written and the folder counts as failed; and when the file
    cannot be written, the exception is not caught and the loop of [main]
    stops there. *)
Theorem answer_is_cleaned_then_written :
  forall (folder_name prompt_template : string)
         (config : GenerateSummaries.config) (w w1 : GenerateSummaries.world)
         (full_prompt model_response : string)
         (args : GenerateSummaries.call_arguments),
    path_exists w (output_file_of folder_name config) = false ->
    prepare folder_name prompt_template config w
    = (Py.Return (Some full_prompt), w1) ->
    GenerateSummaries.read_call_arguments config = Py.Return args ->
    bedrock_converse w1 full_prompt = Py.Return model_response ->
    let summary := CleanResponse.clean_model_response model_response in
    let output_file := output_file_of folder_name config in
    let w2 := (w1 ++ [GenerateSummaries.Converse full_prompt])%list in
    (summary = "" ->
     generate_summary_file folder_name prompt_template config w
     = (Py.Return false, w2))
    /\ (summary <> "" ->
        open_write w2 output_file summary = Py.Return tt ->
        generate_summary_file folder_name prompt_template config w
        = (Py.Return true,
           (w2 ++ [GenerateSummaries.Wrote output_file summary])%list))
    /\ (forall e rest success_count,
          summary <> "" ->
          open_write w2 output_file summary = Py.Raise e ->
          process (folder_name :: rest) prompt_template config success_count w
          = (Py.Raise e, w2)).
Proof.
  intros folder_name prompt_template config w w1 full_prompt model_response
    args Hout Hp Ha Hc summary output_file w2.
  assert (Hg : generate_summary_with_bedrock folder_name prompt_template
                 config w = (Py.Return (Some summary), w2)).
  { unfold generate_summary_with_bedrock.
    rewrite (generate_summary_with_bedrock_sends REPO_ROOT ANALYSIS_DIR
               joinpath path_exists open_read open_write os_walk json_loads
               fnmatch bedrock_client bedrock_converse now _ _ _ _ _ _ _ Hp
               Ha).
    now rewrite Hc. }
  assert (Hf : generate_summary_file folder_name prompt_template config w
               = match GenerateSummaries.nonempty (Some summary) with
                 | Some summary =>
                     Py.bind (GenerateSummaries.write_file open_write
                                output_file summary)
                       (fun _ => Py.ret true) w2
                 | None => (Py.Return false, w2)
                 end).
  { unfold generate_summary_file, GenerateSummaries.generate_summary_file.
    cbv zeta. fold output_file_of. rewrite Hout.
    unfold Py.bind at 1. fold generate_summary_with_bedrock. rewrite Hg.
    now destruct (GenerateSummaries.nonempty (Some summary)). }
  assert (Hne : summary <> "" ->
                GenerateSummaries.nonempty (Some summary) = Some summary).
  { intros H. destruct summary; [congruence | reflexivity]. }
  repeat apply conj.
  - intros ->. now rewrite Hf.
  - intros H Hw. rewrite Hf, (Hne H).
    unfold Py.bind, GenerateSummaries.write_file. now rewrite Hw.
  - intros e rest success_count H Hw. apply process_stops_on_raise.
    rewrite Hf, (Hne H).
    unfold Py.bind, GenerateSummaries.write_file. now rewrite Hw.
Qed.

End RunFacts.

Lemma unreadable_readme_stops_the_run_witness :
  Samples.process_unreadable_guide
  = (Py.Raise
       (Py.OtherError "TypeError"
          "unsupported operand type(s) for +: 'NoneType' and 'str'"), []).
Proof.
  apply (unreadable_readme_stops_the_run "/repo" "/repo/my-analysis"
           Samples.joinpath
           (fun w path =>
              Samples.guide_exists w path || Samples.exists_in false w path)
           Samples.open_read Samples.open_write Samples.guide_walk
           Samples.json_loads Samples.fnmatch Samples.bedrock_client
           (fun _ _ => Py.Return "# SUMMARY") Samples.now "guide"
           Samples.prompt_template Samples.sample_config [] ["docs"] 0);
    [reflexivity | reflexivity | reflexivity | exact I].
Defined.

Lemma slash_and_underscore_collide_witness :
  GenerateSummaries.generate_summary_file "/repo" "/repo/my-analysis"
    Samples.joinpath
    (fun _ path => String.eqb path "/repo/my-analysis/summary_docs_api.md")
    Samples.open_read Samples.open_write Samples.os_walk Samples.json_loads
    Samples.fnmatch Samples.bedrock_client (fun _ _ => Samples.throttled)
    Samples.now "docs_api" Samples.prompt_template Samples.sample_config []
  = (Py.Return true, []).
Proof.
  apply (slash_and_underscore_collide "/repo" "/repo/my-analysis"
           Samples.joinpath
           (fun _ path =>
              String.eqb path "/repo/my-analysis/summary_docs_api.md")
           Samples.open_read Samples.open_write Samples.os_walk
           Samples.json_loads Samples.fnmatch Samples.bedrock_client
           (fun _ _ => Samples.throttled) Samples.now "docs/api"
           Samples.prompt_template Samples.sample_config []);
    reflexivity.
Defined.

Lemma answer_is_cleaned_then_written_witness :
  Samples.summarize_docs (Py.Return "Here: # SUMMARY of docs")
  = (Py.Return true,
     [GenerateSummaries.Converse Samples.docs_prompt;
      GenerateSummaries.Wrote "/repo/my-analysis/summary_docs.md"
        "# SUMMARY of docs"]).
Proof.
  pose proof (answer_is_cleaned_then_written "/repo" "/repo/my-analysis"
                Samples.joinpath (Samples.exists_in false) Samples.open_read
                Samples.open_write Samples.os_walk Samples.json_loads
                Samples.fnmatch Samples.bedrock_client
                (fun _ _ => Py.Return "Here: # SUMMARY of docs") Samples.now
                "docs" Samples.prompt_template Samples.sample_config [] []
                Samples.docs_prompt "Here: # SUMMARY of docs"
                {| GenerateSummaries.modelId := "model-1";
                   GenerateSummaries.call_temperature := "0.0";
                   GenerateSummaries.maxTokens := 4096 |}) as H.
  cbv zeta in H.
  destruct H as (_ & H & _);
    [reflexivity | vm_compute; reflexivity | reflexivity | reflexivity |].
  apply H; [discriminate | reflexivity].
Defined.

Section MainFacts.

Variables REPO_ROOT ANALYSIS_DIR : string.
Variable joinpath : string -> string -> string.
Variable path_exists : GenerateSummaries.world -> string -> bool.
Variable open_read : GenerateSummaries.world -> string -> Py.result string.
Variable open_write :
  GenerateSummaries.world -> string -> string -> Py.result unit.
Variable os_walk : GenerateSummaries.world -> string -> list string.
Variable yaml_safe_load :
  string -> Py.result (option GenerateSummaries.config).
Variable json_loads : string -> Py.result GenerateSummaries.notebook.
Variable fnmatch : string -> string -> bool.
Variable bedrock_client : GenerateSummaries.world -> Py.result unit.
Variable bedrock_converse :
  GenerateSummaries.world -> string -> Py.result string.
Variable now : GenerateSummaries.world -> string.

Let process :=
  GenerateSummaries.process REPO_ROOT ANALYSIS_DIR joinpath path_exists
    open_read open_write os_walk json_loads fnmatch bedrock_client
    bedrock_converse now.
Let main :=
  GenerateSummaries.main REPO_ROOT ANALYSIS_DIR joinpath path_exists
    open_read open_write os_walk yaml_safe_load json_loads fnmatch
    bedrock_client bedrock_converse now.
Let CONFIG_PATH := GenerateSummaries.CONFIG_PATH ANALYSIS_DIR joinpath.
Let PROMPT_TEMPLATE_PATH :=
  GenerateSummaries.PROMPT_TEMPLATE_PATH ANALYSIS_DIR joinpath.

(** X15: [main] gives up before the first folder, having sent and written
    nothing, when config.yml cannot be read, cannot be parsed or is empty,
    and when prompts.md cannot be read or is empty. *)
Theorem main_stops_early :
  forall (args : list string) (w : GenerateSummaries.world),
    (Py.raises (open_read w CONFIG_PATH) -> main args w = (Py.Return None, w))
    /\ (forall text,
          open_read w CONFIG_PATH = Py.Return text ->
          (forall config, yaml_safe_load text <> Py.Return (Some config)) ->
          main args w = (Py.Return None, w))
    /\ (forall text config,
          open_read w CONFIG_PATH = Py.Return text ->
          yaml_safe_load text = Py.Return (Some config) ->
          Py.raises (open_read w PROMPT_TEMPLATE_PATH)
          \/ open_read w PROMPT_TEMPLATE_PATH = Py.Return "" ->
          main args w = (Py.Return None, w)).
Proof.
  intros args w. unfold main, GenerateSummaries.main.
  unfold CONFIG_PATH, PROMPT_TEMPLATE_PATH.
  unfold Py.bind, GenerateSummaries.load_config, GenerateSummaries.read_file,
    Py.try_except, Py.ret.
  repeat apply conj.
  - intros H. now destruct (open_read w _).
  - intros text Ht Hy. rewrite Ht.
    destruct (yaml_safe_load text) as [[config|]|e]; try reflexivity.
    now elim (Hy config).
  - intros text config Ht Hy Hp. rewrite Ht, Hy.
    destruct Hp as [Hp | Hp].
    + destruct (open_read w (GenerateSummaries.PROMPT_TEMPLATE_PATH _ _));
        [destruct Hp | reflexivity].
    + now rewrite Hp.
Qed.

Lemma process_count (prompt_template : string)
  (config : GenerateSummaries.config) (folders : list string) :
  forall success_count w counted,
    fst (process folders prompt_template config success_count w)
    = Py.Return counted ->
    success_count <= counted <= success_count + List.length folders.
Proof.
  induction folders as [|folder rest IH]; intros success_count w counted.
  - simpl. intros H. inversion H. lia.
  - unfold process. cbn [GenerateSummaries.process]. fold process.
    unfold Py.bind at 1.
    destruct (GenerateSummaries.generate_summary_file _ _ _ _ _ _ _ _ _ _ _ _
                folder prompt_template config w) as [[ok|e] w1];
      [|discriminate].
    destruct ok.
    + unfold Py.bind, GenerateSummaries.emit. intros H.
      apply IH in H. simpl. lia.
    + intros H. apply IH in H. simpl. lia.
Qed.

(** X16: the count of summaries that [main] reports never exceeds the
    number of folders it reports, and the loop over the folders never
    counts more successes than the folders it was given. *)
Theorem success_count_within_folders :
  forall (args : list string) (w : GenerateSummaries.world),
    (forall generated total,
       fst (main args w) = Py.Return (Some (generated, total)) ->
       generated <= total)
    /\ (forall prompt_template config folders success_count counted,
          fst (process folders prompt_template config success_count w)
          = Py.Return counted ->
          success_count <= counted <= success_count + List.length folders).
Proof.
  intros args w. split.
  - intros generated total. unfold main, GenerateSummaries.main.
    unfold Py.bind at 1.
    destruct (GenerateSummaries.load_config _ _ _ _ w) as [[[config|]|e] w1];
      try discriminate.
    unfold Py.bind at 1.
    destruct (GenerateSummaries.read_file _ _ w1) as [[template|e] w2];
      [|discriminate].
    destruct (GenerateSummaries.nonempty template) as [prompt_template|];
      [|discriminate].
    cbv zeta. unfold Py.bind at 1, Py.lift.
    destruct (GenerateSummaries.model_name_of config) as [name|ke];
      [|discriminate].
    unfold Py.bind at 1. fold process.
    match goal with
    | |- context [process ?f prompt_template config 0 w2] =>
        set (folders := f)
    end.
    pose proof (process_count prompt_template config folders 0 w2) as Hc.
    destruct (process folders prompt_template config 0 w2)
      as [[counted|e] w3]; [|discriminate].
    intros H. inversion H; subst.
    specialize (Hc generated eq_refl). lia.
  - intros prompt_template config folders success_count counted.
    apply process_count.
Qed.

End MainFacts.

Lemma main_stops_early_witness :
  GenerateSummaries.main "/repo" "/repo/my-analysis" Samples.joinpath
    (Samples.exists_in false) Samples.guide_walk_read Samples.open_write
    Samples.os_walk Samples.yaml_safe_load Samples.json_loads Samples.fnmatch
    Samples.bedrock_client (fun _ _ => Samples.throttled) Samples.now
    ["docs"] []
  = (Py.Return None, []).
Proof.
  apply (main_stops_early "/repo" "/repo/my-analysis" Samples.joinpath
           (Samples.exists_in false) Samples.guide_walk_read
           Samples.open_write Samples.os_walk Samples.yaml_safe_load
           Samples.json_loads Samples.fnmatch Samples.bedrock_client
           (fun _ _ => Samples.throttled) Samples.now ["docs"] []).
  exact I.
Defined.

Lemma success_count_within_folders_witness : 1 <= 2.
Proof.
  apply (proj1 (success_count_within_folders "/repo" "/repo/my-analysis"
                  Samples.joinpath (Samples.exists_in false)
                  Samples.open_read Samples.open_write Samples.os_walk
                  Samples.yaml_safe_load Samples.json_loads Samples.fnmatch
                  Samples.bedrock_client
                  (fun _ _ => Py.Return "# SUMMARY of docs") Samples.now
                  ["docs"; "missing"] []) 1 2).
  vm_compute. reflexivity.
Defined.

(** ** Notebook cells and markdown files *)

(** X17: the cells of a notebook never take the estimate (characters
    divided by 4) over the budget:
    an estimate within [max_tokens] is still within it after the loop over
    the cells; and the first markdown or code cell that would exceed the
    budget ends the loop, so that the cells after it are left out even when
    they would fit. *)
Theorem cells_within_budget :
  forall (cells : list GenerateSummaries.cell)
         (st : GenerateSummaries.assembly),
    ((GenerateSummaries.tokens_used st <= GenerateSummaries.max_tokens)%Z ->
     (GenerateSummaries.tokens_used (GenerateSummaries.add_cells cells st)
      <= GenerateSummaries.max_tokens)%Z)
    /\ (forall c text rest,
          cells = c :: rest ->
          GenerateSummaries.cell_text c = Some text ->
          (GenerateSummaries.tokens_used st + PyStr.len text / 4
           > GenerateSummaries.max_tokens)%Z ->
          GenerateSummaries.add_cells cells st
          = GenerateSummaries.add_note st
              ("*Note: Remaining cells omitted due to token limit*"
               ++ PyStr.NL ++ PyStr.NL)).
Proof.
  intros cells st. split.
  - revert st. induction cells as [|c rest IH]; intros st Hst;
      cbn [GenerateSummaries.add_cells]; [exact Hst|].
    destruct (GenerateSummaries.cell_type c) as [kind|]; [|now apply IH].
    destruct (String.eqb kind "markdown").
    + destruct (Z.gtb_spec
                  (GenerateSummaries.tokens_used st
                   + PyStr.len (GenerateSummaries.cell_source c) / 4)
                  GenerateSummaries.max_tokens); [exact Hst|].
      apply IH.
      unfold GenerateSummaries.add_counted, GenerateSummaries.add.
      cbn [GenerateSummaries.tokens_used]. lia.
    + destruct (String.eqb kind "code"); [|now apply IH].
      match goal with
      | |- context [(?a >? ?b)%Z] => destruct (Z.gtb_spec a b)
      end; [exact Hst|].
      apply IH.
      unfold GenerateSummaries.add_counted, GenerateSummaries.add.
      cbn [GenerateSummaries.tokens_used]. lia.
  - intros c text rest -> Htext Hover.
    cbn [GenerateSummaries.add_cells].
    unfold GenerateSummaries.cell_text in Htext.
    destruct (GenerateSummaries.cell_type c) as [kind|]; [|discriminate].
    destruct (String.eqb kind "markdown").
    + inversion Htext; subst text.
      fold (GenerateSummaries.cell_source c) in Hover.
      destruct (Z.gtb_spec
                  (GenerateSummaries.tokens_used st
                   + PyStr.len (GenerateSummaries.cell_source c) / 4)
                  GenerateSummaries.max_tokens); [reflexivity | lia].
    + destruct (String.eqb kind "code"); [|discriminate].
      inversion Htext; subst text.
      fold (GenerateSummaries.cell_source c) in Hover.
      match goal with
      | |- context [(?a >? ?b)%Z] => destruct (Z.gtb_spec a b) as [_|Hle]
      end; [reflexivity|].
      apply Z.gt_lt in Hover. exact (False_ind _ (proj1 (Z.le_ngt _ _) Hle Hover)).
Qed.

Lemma cells_within_budget_witness :
  (GenerateSummaries.tokens_used
     (GenerateSummaries.add_cells
        [{| GenerateSummaries.cell_type := Some "markdown";
            GenerateSummaries.source := Some ["# Title"; "text"] |};
         {| GenerateSummaries.cell_type := Some "code";
            GenerateSummaries.source := Some ["print(1)"] |}]
        {| GenerateSummaries.content_summary := "";
           GenerateSummaries.tokens_used := 189999 |})
   <= GenerateSummaries.max_tokens)%Z.
Proof.
  apply cells_within_budget. vm_compute. discriminate.
Defined.

(** X18: the markdown loop passes over every file named README.md, in
    whatever directory it lies: it does what it would do if those paths
    were not in its list. *)
Theorem markdown_ignores_every_readme :
  forall (open_read : GenerateSummaries.world -> string -> Py.result string)
         (paths : list string) (st : GenerateSummaries.assembly)
         (w : GenerateSummaries.world),
    GenerateSummaries.add_markdown_files open_read paths st w
    = GenerateSummaries.add_markdown_files open_read
        (filter GenerateSummaries.not_readme paths) st w.
Proof.
  intros open_read paths. induction paths as [|path rest IH]; intros st w.
  - reflexivity.
  - cbn [GenerateSummaries.add_markdown_files filter].
    unfold GenerateSummaries.not_readme at 1.
    destruct (String.eqb (PyStr.basename path) "README.md") eqn:E;
      cbn [negb].
    + apply IH.
    + cbn [GenerateSummaries.add_markdown_files]. rewrite E.
      destruct (_ >? _)%Z; [reflexivity|].
      unfold Py.bind.
      destruct (GenerateSummaries.read_file open_read path w)
        as [[content|e] w1]; [|reflexivity].
      apply IH.
Qed.

Example nested_readme_is_left_out :
  GenerateSummaries.add_markdown_files Samples.open_read
    ["/repo/docs/sub/README.md"; "/repo/docs/notes.md"]
    {| GenerateSummaries.content_summary := "";
       GenerateSummaries.tokens_used := 0 |} []
  = (Py.Return
       {| GenerateSummaries.content_summary :=
            "### notes.md" ++ PyStr.NL ++ PyStr.NL ++ "Some notes."
            ++ PyStr.NL ++ PyStr.NL;
          GenerateSummaries.tokens_used := 5 |}, []).
Proof. reflexivity. Qed.

(** ** The cleaning of a response *)

Lemma prefix_contains (p s : string) :
  prefix p s = true -> PyStr.contains p s = true.
Proof.
  intros H. rewrite contains_unfold. destruct s; [exact H | now rewrite H].
Qed.

Lemma contains_tail (sub : string) (c : ascii) (s : string) :
  PyStr.contains sub (String c s) = false -> PyStr.contains sub s = false.
Proof.
  rewrite (contains_unfold sub (String c s)). intros H.
  apply orb_false_iff in H. tauto.
Qed.

(** What does not occur in a text does not occur in a part of it. *)
Lemma contains_part (sub t s : string) :
  PyStr.Substring t s ->
  PyStr.contains sub s = false -> PyStr.contains sub t = false.
Proof.
  intros (pre & post & ->) H.
  destruct (PyStr.contains sub t) eqn:E; [|reflexivity].
  apply contains_iff in E. destruct E as (a & b & ->).
  rewrite <- H. symmetry. apply contains_iff.
  exists (pre ++ a), (b ++ post). now rewrite !append_assoc.
Qed.

Lemma part_of_join (sep x : string) (parts : list string) :
  In x parts -> PyStr.Substring x (PyStr.join sep parts).
Proof.
  unfold PyStr.join.
  induction parts as [|a parts IH]; intros Hin; [destruct Hin|].
  destruct parts as [|b parts].
  - destruct Hin as [->|[]]. exists "", "". simpl. now rewrite append_empty_r.
  - change (String.concat sep (a :: b :: parts))
      with (a ++ sep ++ String.concat sep (b :: parts)).
    destruct Hin as [->|Hin].
    + exists "", (sep ++ String.concat sep (b :: parts)). reflexivity.
    + destruct (IH Hin) as (pre & post & E). rewrite E.
      exists (a ++ sep ++ pre), post. now rewrite !append_assoc.
Qed.

Lemma lines_are_parts (s line : string) :
  In line (PyStr.split_lines s) -> PyStr.Substring line s.
Proof.
  intros H. pose proof (part_of_join PyStr.NL line _ H) as P.
  now rewrite join_split_lines in P.
Qed.

Lemma lstrip_is_suffix (s : string) : exists pre, s = pre ++ PyStr.lstrip s.
Proof.
  induction s as [|c s [pre IH]]; [now exists ""|].
  cbn [PyStr.lstrip]. destruct (PyStr.is_space c).
  - exists (String c pre). simpl. now rewrite <- IH.
  - now exists "".
Qed.

Lemma rstrip_is_prefix (s : string) : exists post, s = PyStr.rstrip s ++ post.
Proof.
  induction s as [|c s [post IH]]; [now exists ""|].
  cbn [PyStr.rstrip]. destruct (PyStr.rstrip s) as [|a kept].
  - destruct (PyStr.is_space c).
    + now exists (String c s).
    + exists s. reflexivity.
  - exists post. simpl. simpl in IH. now rewrite <- IH.
Qed.

Lemma strip_is_part (s : string) : PyStr.Substring (PyStr.strip s) s.
Proof.
  unfold PyStr.strip.
  destruct (lstrip_is_suffix s) as [pre Hpre].
  destruct (rstrip_is_prefix (PyStr.lstrip s)) as [post Hpost].
  exists pre, post. now rewrite <- Hpost.
Qed.

(** No line starts with the heading when the text does not have it. *)
Lemma heading_index_none (s : string) :
  PyStr.contains CleanResponse.heading s = false ->
  CleanResponse.heading_index (PyStr.split_lines s) = None.
Proof.
  intros H.
  assert (Hall : forall line, In line (PyStr.split_lines s) ->
                   PyStr.startswith line CleanResponse.heading = false).
  { intros line Hin.
    destruct (PyStr.startswith line CleanResponse.heading) eqn:E;
      [|reflexivity].
    apply prefix_contains in E.
    now rewrite (contains_part _ _ _ (lines_are_parts _ _ Hin) H) in E. }
  induction (PyStr.split_lines s) as [|line lines IH]; [reflexivity|].
  cbn [CleanResponse.heading_index].
  rewrite (Hall line (or_introl eq_refl)).
  rewrite IH; [reflexivity|].
  intros l Hl. apply Hall. now right.
Qed.

(** The loop over the lines never finds the heading further down than the
    first line, so that [cut_preamble] is the slice at the first heading. *)
Lemma cut_preamble_slice (response : string) :
  CleanResponse.cut_preamble response
  = if PyStr.contains CleanResponse.heading response
    then PyStr.slice_from (PyStr.find CleanResponse.heading response) response
    else response.
Proof.
  unfold CleanResponse.cut_preamble.
  destruct (PyStr.contains CleanResponse.heading response) eqn:H; cbv zeta.
  - destruct (slice_from_find _ _ H) as [rest ->].
    destruct (split_lines_append CleanResponse.heading rest eq_refl)
      as (line & lines & _ & E).
    rewrite E. unfold CleanResponse.start_index.
    cbn [CleanResponse.heading_index].
    assert (Hs : PyStr.startswith (CleanResponse.heading ++ line)
                   CleanResponse.heading = true).
    { apply prefix_iff. eauto. }
    rewrite Hs. cbn [skipn]. now rewrite <- E, join_split_lines.
  - unfold CleanResponse.start_index. rewrite (heading_index_none _ H).
    cbn [skipn]. apply join_split_lines.
Qed.

Lemma cut_preamble_suffix (response : string) :
  exists pre, response = pre ++ CleanResponse.cut_preamble response.
Proof.
  rewrite cut_preamble_slice.
  destruct (PyStr.contains CleanResponse.heading response) eqn:H.
  - destruct (find_prefix _ _ H) as (i & Hi & _).
    exists (PyStr.take i response). unfold PyStr.slice_from. rewrite Hi.
    destruct (Z.ltb_spec (Z.of_nat i) 0); [lia|].
    now rewrite Nat2Z.id, take_drop.
  - now exists "".
Qed.

(** X19: the preamble pass returns the response from its first
    [# SUMMARY] on, and the whole response when it has none: the loop over
    the lines that follows the slice never removes anything.  What is
    returned is an end of the response. *)
Theorem preamble_cut_at_first_heading :
  forall response : string,
    CleanResponse.cut_preamble response
    = (if PyStr.contains CleanResponse.heading response
       then PyStr.slice_from (PyStr.find CleanResponse.heading response)
              response
       else response)
    /\ exists pre, response = pre ++ CleanResponse.cut_preamble response.
Proof.
  intros response. split; [apply cut_preamble_slice|apply cut_preamble_suffix].
Qed.

Example preamble_cut :
  CleanResponse.cut_preamble
    ("Here it is:" ++ PyStr.NL ++ "intro # SUMMARY" ++ PyStr.NL ++ "text")
  = "# SUMMARY" ++ PyStr.NL ++ "text".
Proof. reflexivity. Qed.

(** The loop gives the same result with any fuel that exceeds the number of
    backquotes. *)
Lemma join_split_diagrams_any_fuel (fuel1 : nat) :
  forall fuel2 response,
    CleanResponse.backquotes response < fuel1 ->
    CleanResponse.backquotes response < fuel2 ->
    CleanResponse.join_split_diagrams fuel1 response
    = CleanResponse.join_split_diagrams fuel2 response.
Proof.
  induction fuel1 as [|fuel1 IH]; intros fuel2 response H1 H2; [lia|].
  destruct fuel2 as [|fuel2]; [lia|].
  cbn [CleanResponse.join_split_diagrams].
  destruct (PyRe.search CleanResponse.split_diagram response)
    as [found|] eqn:E; [|reflexivity].
  assert (H := sub_backquotes _ _ split_diagram_shrinks response).
  rewrite E in H. specialize (H ltac:(discriminate)).
  apply IH; lia.
Qed.

Lemma join_split_diagrams_backquotes (fuel : nat) :
  forall response joined,
    CleanResponse.join_split_diagrams fuel response = Some joined ->
    CleanResponse.backquotes joined <= CleanResponse.backquotes response.
Proof.
  induction fuel as [|fuel IH]; intros response joined; [discriminate|].
  cbn [CleanResponse.join_split_diagrams].
  destruct (PyRe.search CleanResponse.split_diagram response)
    as [found|] eqn:E.
  - intros H. apply IH in H.
    assert (Hlt := sub_backquotes _ _ split_diagram_shrinks response).
    rewrite E in Hlt. specialize (Hlt ltac:(discriminate)). lia.
  - intros H. inversion H. lia.
Qed.

(** X20: the [while re.search] loop ends on every response: with any fuel
    above the number of backquotes of the response it returns, the result
    does not depend on the fuel, no split diagram is left in it, and it has
    no more backquotes than the response had. *)
Theorem split_diagram_loop_ends :
  forall (response : string) (fuel : nat),
    CleanResponse.backquotes response < fuel ->
    exists joined,
      CleanResponse.join_split_diagrams fuel response = Some joined
      /\ CleanResponse.join_split_diagrams
           (CleanResponse.enough_fuel response) response = Some joined
      /\ PyRe.search CleanResponse.split_diagram joined = None
      /\ CleanResponse.backquotes joined
         <= CleanResponse.backquotes response.
Proof.
  intros response fuel Hlt.
  destruct (join_split_diagrams_fuel fuel response Hlt) as (joined & E & Hs).
  exists joined. split; [exact E|]. split; [|split].
  - rewrite <- E. apply join_split_diagrams_any_fuel; [|exact Hlt].
    unfold CleanResponse.enough_fuel. lia.
  - exact Hs.
  - exact (join_split_diagrams_backquotes _ _ _ E).
Qed.

Lemma split_diagram_loop_ends_witness :
  exists joined,
    CleanResponse.join_split_diagrams 10
      ("```mermaid" ++ PyStr.NL ++ "graph TD" ++ PyStr.NL ++ "```"
       ++ PyStr.NL ++ "subgraph A" ++ PyStr.NL ++ "```" ++ PyStr.NL
       ++ "subgraph B") = Some joined
    /\ PyRe.search CleanResponse.split_diagram joined = None.
Proof.
  destruct (split_diagram_loop_ends
              ("```mermaid" ++ PyStr.NL ++ "graph TD" ++ PyStr.NL ++ "```"
               ++ PyStr.NL ++ "subgraph A" ++ PyStr.NL ++ "```" ++ PyStr.NL
               ++ "subgraph B") 10)
    as (joined & E & _ & Hs & _).
  - vm_compute. lia.
  - exists joined. split; [exact E | exact Hs].
Defined.

(** A pattern that needs a literal does not match where the literal does
    not occur. *)
Section NoMatch.

Variable r : PyRe.regex.
Variable template : list PyRe.piece.
Variable lit : string.

Hypothesis needs_lit :
  forall pos s, PyStr.contains lit s = false -> PyRe.match_at r pos s = None.

Lemma sub_from_unmatched (s : string) :
  forall pos,
    PyStr.contains lit s = false -> PyRe.sub_from r template pos 0 s = s.
Proof.
  induction s as [|c s IH]; intros pos H; cbn [PyRe.sub_from];
    rewrite (needs_lit _ _ H); [reflexivity|].
  f_equal. apply IH. eapply contains_tail; eauto.
Qed.

Lemma search_from_unmatched (s : string) :
  forall pos,
    PyStr.contains lit s = false -> PyRe.search_from r pos s = None.
Proof.
  induction s as [|c s IH]; intros pos H; cbn [PyRe.search_from];
    rewrite (needs_lit _ _ H); [reflexivity|].
  apply IH. eapply contains_tail; eauto.
Qed.

End NoMatch.

Lemma after_prefix_absent (p s : string) :
  PyStr.contains p s = false -> PyRe.after_prefix p s = None.
Proof.
  intros H. rewrite after_prefix_prefix.
  destruct (prefix p s) eqn:E; [|reflexivity].
  apply prefix_contains in E. congruence.
Qed.

Lemma empty_block_needs_fence (pos : nat) (s : string) :
  PyStr.contains CleanResponse.fence s = false ->
  PyRe.match_at CleanResponse.empty_block pos s = None.
Proof.
  intros H. unfold PyRe.match_at, CleanResponse.empty_block. cbn [PyRe.m].
  now rewrite (after_prefix_absent _ _ H).
Qed.

Lemma split_diagram_needs_fence (pos : nat) (s : string) :
  PyStr.contains CleanResponse.fence s = false ->
  PyRe.match_at CleanResponse.split_diagram pos s = None.
Proof.
  intros H. unfold PyRe.match_at, CleanResponse.split_diagram. cbn [PyRe.m].
  destruct (PyRe.after_prefix (CleanResponse.mermaid_fence ++ PyStr.NL) s)
    as [s'|] eqn:E; [|reflexivity].
  apply after_prefix_some in E. subst s.
  assert (Hp : PyStr.contains CleanResponse.fence
                 ((CleanResponse.mermaid_fence ++ PyStr.NL) ++ s') = true)
    by (apply prefix_contains; reflexivity).
  congruence.
Qed.

Lemma bare_diagram_needs_word (pos : nat) (s : string) :
  PyStr.contains "mermaid" s = false ->
  PyRe.match_at CleanResponse.bare_diagram pos s = None.
Proof.
  intros H. unfold PyRe.match_at, CleanResponse.bare_diagram. cbn [PyRe.m].
  rewrite (after_prefix_absent _ _ H).
  destruct (PyRe.after_prefix PyStr.NL s) as [s'|] eqn:E.
  - apply after_prefix_some in E. subst s.
    rewrite (after_prefix_absent _ _ (contains_tail _ _ _ H)).
    now destruct (Nat.eqb pos 0).
  - now destruct (Nat.eqb pos 0).
Qed.

(** A line without a fence and without the word [subgraph] is copied by the
    last pass when no diagram is open. *)
Lemma fix_line_plain (raw : string) (rest : list string)
  (st : CleanResponse.pass) :
  PyStr.contains CleanResponse.fence raw = false ->
  PyStr.contains "subgraph" raw = false ->
  CleanResponse.in_mermaid st = false ->
  CleanResponse.fix_line raw rest st = CleanResponse.append st raw false.
Proof.
  intros Hf Hs Hm. unfold CleanResponse.fix_line. cbv zeta.
  pose proof (strip_is_part raw) as Hp.
  assert (E1 : String.eqb (PyStr.strip raw) CleanResponse.mermaid_fence
               = false).
  { destruct (String.eqb_spec (PyStr.strip raw) CleanResponse.mermaid_fence)
      as [E|]; [|reflexivity].
    pose proof (contains_part CleanResponse.fence _ _ Hp Hf) as C.
    rewrite E in C. vm_compute in C. discriminate C. }
  assert (E2 : PyStr.startswith (PyStr.strip raw) "subgraph" = false).
  { destruct (PyStr.startswith (PyStr.strip raw) "subgraph") eqn:E;
      [|reflexivity].
    apply prefix_contains in E.
    now rewrite (contains_part _ _ _ Hp Hs) in E. }
  rewrite E1, Hm, andb_false_r, E2. reflexivity.
Qed.

Lemma fix_lines_plain (lines : list string) :
  forall st,
    Forall (fun line => PyStr.contains CleanResponse.fence line = false
                        /\ PyStr.contains "subgraph" line = false) lines ->
    CleanResponse.in_mermaid st = false ->
    CleanResponse.fix_lines lines st
    = {| CleanResponse.result := (CleanResponse.result st ++ lines)%list;
         CleanResponse.in_mermaid := false |}.
Proof.
  induction lines as [|raw rest IH]; intros st Hall Hm.
  - cbn [CleanResponse.fix_lines]. rewrite app_nil_r.
    destruct st as [res open]. cbn in Hm. now subst open.
  - inversion Hall as [|? ? [Hf Hs] Hrest]; subst.
    cbn [CleanResponse.fix_lines]. rewrite (fix_line_plain _ _ _ Hf Hs Hm).
    rewrite IH; [|exact Hrest|reflexivity].
    unfold CleanResponse.append. cbn [CleanResponse.result].
    now rewrite <- app_assoc.
Qed.

(** X21: a response without a code fence and without the words [mermaid]
    and [subgraph] goes through the cleaning unchanged but for its
    preamble: the answer is the response from its first [# SUMMARY] on, or
    the whole response when it has none. *)
Theorem plain_response_only_loses_preamble :
  forall response : string,
    PyStr.contains CleanResponse.fence response = false ->
    PyStr.contains "mermaid" response = false ->
    PyStr.contains "subgraph" response = false ->
    CleanResponse.clean_model_response response
    = if PyStr.contains CleanResponse.heading response
      then PyStr.slice_from (PyStr.find CleanResponse.heading response)
             response
      else response.
Proof.
  intros response Hf Hm Hs.
  rewrite <- cut_preamble_slice.
  destruct (cut_preamble_suffix response) as [pre Hpre].
  assert (Hp : PyStr.Substring (CleanResponse.cut_preamble response) response).
  { exists pre, "". now rewrite append_empty_r. }
  apply (contains_part _ _ _ Hp) in Hf, Hm, Hs.
  unfold CleanResponse.clean_model_response, CleanResponse.before_loop.
  cbv zeta. unfold PyRe.sub.
  rewrite (sub_from_unmatched _ [] _ empty_block_needs_fence _ 0 Hf).
  unfold CleanResponse.enough_fuel. cbn [CleanResponse.join_split_diagrams].
  unfold PyRe.search.
  rewrite (search_from_unmatched _ _ split_diagram_needs_fence _ 0 Hf).
  unfold CleanResponse.fix_diagrams. cbv zeta. unfold PyRe.sub.
  rewrite (sub_from_unmatched _ CleanResponse.fenced_diagram _
             bare_diagram_needs_word _ 0 Hm).
  rewrite fix_lines_plain; [| |reflexivity].
  - unfold CleanResponse.close_block.
    cbn [CleanResponse.in_mermaid CleanResponse.result app].
    apply join_split_lines.
  - apply Forall_forall. intros line Hin.
    apply lines_are_parts in Hin.
    split; eapply contains_part; eauto.
Qed.

Lemma plain_response_only_loses_preamble_witness :
  CleanResponse.clean_model_response
    ("Here is the summary." ++ PyStr.NL ++ "# SUMMARY" ++ PyStr.NL
     ++ "All good.")
  = "# SUMMARY" ++ PyStr.NL ++ "All good.".
Proof.
  rewrite (plain_response_only_loses_preamble
             ("Here is the summary." ++ PyStr.NL ++ "# SUMMARY" ++ PyStr.NL
              ++ "All good.") eq_refl eq_refl eq_refl).
  reflexivity.
Defined.

(** ** The pauses of a run *)

Lemma sleeps_app (a b : GenerateSummaries.world) :
  GenerateSummaries.sleeps (a ++ b)%list =
  (GenerateSummaries.sleeps a ++ GenerateSummaries.sleeps b)%list.
Proof.
  induction a as [|[path text|prompt|seconds] a IH]; simpl; congruence.
Qed.

Lemma no_pause_ret {A : Type} (a : A) : GenerateSummaries.no_pause (Py.ret a).
Proof. intros w. reflexivity. Qed.

Lemma no_pause_bind {A B : Type} (c : Py.M GenerateSummaries.world A)
  (k : A -> Py.M GenerateSummaries.world B) :
  GenerateSummaries.no_pause c ->
  (forall a, GenerateSummaries.no_pause (k a)) ->
  GenerateSummaries.no_pause (Py.bind c k).
Proof.
  intros Hc Hk w. unfold Py.bind. specialize (Hc w).
  destruct (c w) as [[a|e] w1]; simpl in Hc.
  - now rewrite Hk.
  - exact Hc.
Qed.

Lemma no_pause_try_except {A : Type} (c : Py.M GenerateSummaries.world A)
  (handler : Py.exception -> Py.M GenerateSummaries.world A) :
  GenerateSummaries.no_pause c ->
  (forall e, GenerateSummaries.no_pause (handler e)) ->
  GenerateSummaries.no_pause (Py.try_except c handler).
Proof.
  intros Hc Hh w. unfold Py.try_except. specialize (Hc w).
  destruct (c w) as [[a|e] w1]; simpl in Hc.
  - exact Hc.
  - now rewrite Hh.
Qed.

Section PauseFacts.

Variables REPO_ROOT ANALYSIS_DIR : string.
Variable joinpath : string -> string -> string.
Variable path_exists : GenerateSummaries.world -> string -> bool.
Variable open_read : GenerateSummaries.world -> string -> Py.result string.
Variable open_write :
  GenerateSummaries.world -> string -> string -> Py.result unit.
Variable os_walk : GenerateSummaries.world -> string -> list string.
Variable yaml_safe_load :
  string -> Py.result (option GenerateSummaries.config).
Variable json_loads : string -> Py.result GenerateSummaries.notebook.
Variable fnmatch : string -> string -> bool.
Variable bedrock_client : GenerateSummaries.world -> Py.result unit.
Variable bedrock_converse :
  GenerateSummaries.world -> string -> Py.result string.
Variable now : GenerateSummaries.world -> string.

Let generate_summary_file :=
  GenerateSummaries.generate_summary_file REPO_ROOT ANALYSIS_DIR joinpath
    path_exists open_read open_write os_walk json_loads fnmatch
    bedrock_client bedrock_converse now.
Let process :=
  GenerateSummaries.process REPO_ROOT ANALYSIS_DIR joinpath path_exists
    open_read open_write os_walk json_loads fnmatch bedrock_client
    bedrock_converse now.
Let main :=
  GenerateSummaries.main REPO_ROOT ANALYSIS_DIR joinpath path_exists
    open_read open_write os_walk yaml_safe_load json_loads fnmatch
    bedrock_client bedrock_converse now.

Lemma no_pause_write_file (path text : string) :
  GenerateSummaries.no_pause (GenerateSummaries.write_file open_write path text).
Proof.
  intros w. unfold GenerateSummaries.write_file.
  destruct (open_write w path text); [|reflexivity].
  cbn [snd]. rewrite sleeps_app. apply app_nil_r.
Qed.

Lemma no_pause_generate_summary_file (folder_name prompt_template : string)
  (config : GenerateSummaries.config) :
  GenerateSummaries.no_pause
    (generate_summary_file folder_name prompt_template config).
Proof.
  intros w.
  unfold generate_summary_file, GenerateSummaries.generate_summary_file.
  cbv zeta. destruct (path_exists w _); [reflexivity|].
  apply no_pause_bind.
  - unfold GenerateSummaries.generate_summary_with_bedrock.
    apply no_pause_bind.
    + unfold GenerateSummaries.prepare. apply no_pause_bind.
      * intros w0. now rewrite get_folder_content_summary_world.
      * intros folder_content.
        destruct (GenerateSummaries.nonempty folder_content);
          [|apply no_pause_ret].
        apply no_pause_bind.
        -- destruct (_ && _); [|apply no_pause_ret].
           intros w0. unfold GenerateSummaries.write_debug_log. cbv zeta.
           apply no_pause_write_file.
        -- intros _. apply no_pause_bind; [now intros w0|].
           intros _. apply no_pause_ret.
    + intros [full_prompt|]; [|apply no_pause_ret].
      apply no_pause_try_except; [|intros e; apply no_pause_ret].
      apply no_pause_bind; [now intros w0|]. intros _.
      apply no_pause_bind; [|intros r; apply no_pause_ret].
      intros w0. unfold GenerateSummaries.converse. cbn [snd].
      rewrite sleeps_app. apply app_nil_r.
  - intros summary.
    destruct (GenerateSummaries.nonempty summary); [|apply no_pause_ret].
    apply no_pause_bind; [apply no_pause_write_file|].
    intros _. apply no_pause_ret.
Qed.

Lemma process_pauses (prompt_template : string)
  (config : GenerateSummaries.config) (folders : list string) :
  forall success_count w counted w',
    process folders prompt_template config success_count w
    = (Py.Return counted, w') ->
    success_count <= counted
    /\ GenerateSummaries.sleeps w'
       = (GenerateSummaries.sleeps w ++ repeat 5 (counted - success_count))%list.
Proof.
  induction folders as [|folder rest IH]; intros success_count w counted w'.
  - intros H. inversion H; subst. rewrite Nat.sub_diag.
    split; [lia | now rewrite app_nil_r].
  - unfold process. cbn [GenerateSummaries.process].
    fold process. fold generate_summary_file. unfold Py.bind at 1.
    pose proof (no_pause_generate_summary_file folder prompt_template config w)
      as Hp.
    destruct (generate_summary_file folder prompt_template config w)
      as [[ok|e] w1]; [|discriminate].
    cbn [snd] in Hp. destruct ok.
    + unfold Py.bind, GenerateSummaries.emit. intros H.
      apply IH in H. destruct H as [Hle Hs]. split; [lia|].
      rewrite Hs, sleeps_app, Hp, <- app_assoc.
      replace (counted - success_count) with (S (counted - S success_count))
        by lia.
      reflexivity.
    + intros H. apply IH in H. now rewrite Hp in H.
Qed.

(** X22: a run pauses for five seconds once for every folder it counts as
    done, and at no other time: when the loop over the folders returns,
    the pauses it added are as many as the successes it added, and a run
    of [main] that reports [generated] summaries has paused [generated]
    times.  A folder whose summary exists already is counted and paused
    for, although nothing is sent for it. *)
Theorem one_pause_per_counted_folder :
  forall (prompt_template : string) (config : GenerateSummaries.config)
         (w : GenerateSummaries.world),
    (forall folders success_count counted w',
       process folders prompt_template config success_count w
       = (Py.Return counted, w') ->
       GenerateSummaries.sleeps w'
       = (GenerateSummaries.sleeps w
          ++ repeat 5 (counted - success_count))%list)
    /\ (forall args generated total w',
          main args w = (Py.Return (Some (generated, total)), w') ->
          GenerateSummaries.sleeps w'
          = (GenerateSummaries.sleeps w ++ repeat 5 generated)%list)
    /\ (forall folder success_count,
          path_exists w
            (GenerateSummaries.output_file_of ANALYSIS_DIR joinpath folder
               config) = true ->
          process [folder] prompt_template config success_count w
          = (Py.Return (S success_count),
             (w ++ [GenerateSummaries.Slept 5])%list)).
Proof.
  intros prompt_template config w. repeat apply conj.
  - intros folders success_count counted w' H.
    now apply process_pauses in H.
  - intros args generated total w'. unfold main, GenerateSummaries.main.
    unfold Py.bind at 1.
    assert (Hl : GenerateSummaries.reads
                   (GenerateSummaries.load_config ANALYSIS_DIR joinpath
                      open_read yaml_safe_load)).
    { intros w0.
      unfold GenerateSummaries.load_config, Py.try_except, Py.bind, Py.ret.
      destruct (open_read w0 _) as [text|e]; [|eauto].
      destruct (yaml_safe_load text); eauto. }
    destruct (Hl w) as [loaded ->].
    destruct loaded as [loaded|]; [|discriminate].
    unfold Py.bind at 1.
    destruct (reads_read_file open_read
                (GenerateSummaries.PROMPT_TEMPLATE_PATH ANALYSIS_DIR joinpath)
                w) as [template ->].
    destruct (GenerateSummaries.nonempty template) as [template'|];
      [|discriminate].
    cbv zeta. unfold Py.bind at 1, Py.lift.
    destruct (GenerateSummaries.model_name_of loaded) as [name|ke];
      [|discriminate].
    unfold Py.bind at 1. fold process.
    match goal with
    | |- context [process ?f template' loaded 0 w] => set (folders := f)
    end.
    pose proof (process_pauses template' loaded folders 0 w) as Hc.
    destruct (process folders template' loaded 0 w) as [[counted|e] w3];
      [|discriminate].
    intros H. inversion H; subst.
    destruct (Hc generated w' eq_refl) as [_ Hs].
    now rewrite Nat.sub_0_r in Hs.
  - intros folder success_count Hex. unfold process.
    cbn [GenerateSummaries.process]. unfold Py.bind at 1.
    unfold GenerateSummaries.generate_summary_file at 1. cbv zeta.
    rewrite Hex. reflexivity.
Qed.

End PauseFacts.

Lemma one_pause_per_counted_folder_witness :
  GenerateSummaries.sleeps
    (snd (GenerateSummaries.main "/repo" "/repo/my-analysis"
            Samples.joinpath (Samples.exists_in false) Samples.open_read
            Samples.open_write Samples.os_walk Samples.yaml_safe_load
            Samples.json_loads Samples.fnmatch Samples.bedrock_client
            (fun _ _ => Py.Return "# SUMMARY of docs") Samples.now
            ["docs"; "missing"] []))
  = [5].
Proof.
  destruct (one_pause_per_counted_folder "/repo" "/repo/my-analysis"
              Samples.joinpath (Samples.exists_in false) Samples.open_read
              Samples.open_write Samples.os_walk Samples.yaml_safe_load
              Samples.json_loads Samples.fnmatch Samples.bedrock_client
              (fun _ _ => Py.Return "# SUMMARY of docs") Samples.now
              "" Samples.sample_config []) as (_ & H & _).
  apply (H ["docs"; "missing"] 1 2). vm_compute. reflexivity.
Defined.

(** ** The block of a file and the statistics of a folder *)

(** X23: the fenced block of a file of code holds the first lines of the
    file: with a limit that is not negative, at most that many, in the
    order of the file; and a file with no more lines than the limit is in
    the block whole, as it was read. *)
Theorem fenced_keeps_first_lines :
  forall (lang content : string) (max_lines : Z),
    ((0 <= max_lines)%Z ->
     exists kept rest,
       PyStr.split_lines content = (kept ++ rest)%list
       /\ (Z.of_nat (List.length kept) <= max_lines)%Z
       /\ GenerateSummaries.fenced lang content max_lines
          = "```" ++ lang ++ PyStr.NL ++ PyStr.join PyStr.NL kept
            ++ PyStr.NL ++ "```" ++ PyStr.NL ++ PyStr.NL)
    /\ ((Z.of_nat (List.length (PyStr.split_lines content)) <= max_lines)%Z ->
        GenerateSummaries.fenced lang content max_lines
        = "```" ++ lang ++ PyStr.NL ++ content ++ PyStr.NL ++ "```"
          ++ PyStr.NL ++ PyStr.NL).
Proof.
  intros lang content max_lines. unfold GenerateSummaries.fenced. cbv zeta.
  set (lines := PyStr.split_lines content).
  split.
  - intros Hpos.
    set (n := Z.min max_lines (Z.of_nat (List.length lines))).
    assert (Hn : (0 <= n <= max_lines)%Z) by (unfold n; lia).
    exists (PyStr.upto n lines), (skipn (Z.to_nat n) lines).
    unfold PyStr.upto. destruct (Z.ltb_spec n 0) as [|_]; [lia|].
    split; [now rewrite firstn_skipn|]. split; [|reflexivity].
    pose proof (firstn_le_length (Z.to_nat n) lines). lia.
  - intros Hle. rewrite Z.min_r by exact Hle.
    unfold PyStr.upto.
    destruct (Z.ltb_spec (Z.of_nat (List.length lines)) 0) as [|_]; [lia|].
    rewrite Nat2Z.id, firstn_all. unfold lines.
    now rewrite join_split_lines.
Qed.

Lemma fenced_keeps_first_lines_witness :
  GenerateSummaries.fenced "python" ("import os" ++ PyStr.NL ++ "print(1)") 2
  = "```" ++ "python" ++ PyStr.NL ++ ("import os" ++ PyStr.NL ++ "print(1)")
    ++ PyStr.NL ++ "```" ++ PyStr.NL ++ PyStr.NL.
Proof.
  apply fenced_keeps_first_lines. vm_compute. discriminate.
Defined.

Lemma endswith_unfold (s suffix : string) :
  PyStr.endswith s suffix
  = String.eqb s suffix
    || match s with
       | EmptyString => false
       | String _ s' => PyStr.endswith s' suffix
       end.
Proof. destruct s; reflexivity. Qed.

Lemma endswith_length (s suffix : string) :
  PyStr.endswith s suffix = true -> String.length suffix <= String.length s.
Proof.
  induction s as [|c s IH]; rewrite endswith_unfold; intros H;
    apply orb_true_iff in H; destruct H as [H|H]; try discriminate;
    try (apply String.eqb_eq in H; subst; lia).
  apply IH in H. simpl. lia.
Qed.

Lemma endswith_refl (s : string) : PyStr.endswith s s = true.
Proof. rewrite endswith_unfold, String.eqb_refl. reflexivity. Qed.

(** Two endings of one name: the shorter is an ending of the longer. *)
Lemma endswith_nested (s a b : string) :
  PyStr.endswith s a = true -> PyStr.endswith s b = true ->
  String.length a <= String.length b ->
  PyStr.endswith b a = true.
Proof.
  induction s as [|c s IH]; rewrite (endswith_unfold _ a), (endswith_unfold _ b);
    intros Ha Hb Hlen; apply orb_true_iff in Ha, Hb.
  - destruct Ha as [Ha|]; [|discriminate].
    destruct Hb as [Hb|]; [|discriminate].
    apply String.eqb_eq in Ha, Hb. subst. reflexivity.
  - destruct Hb as [Hb|Hb].
    + apply String.eqb_eq in Hb. subst b.
      rewrite endswith_unfold. apply orb_true_iff. exact Ha.
    + destruct Ha as [Ha|Ha]; [|now apply IH].
      apply String.eqb_eq in Ha. subst a.
      apply endswith_length in Hb. simpl in Hlen. lia.
Qed.

Lemma endings_clash (s a b : string) :
  PyStr.endswith s a = true -> PyStr.endswith s b = true ->
  PyStr.endswith a b = false -> PyStr.endswith b a = false -> False.
Proof.
  intros Ha Hb Hab Hba.
  destruct (Nat.le_ge_cases (String.length a) (String.length b)) as [H|H].
  - rewrite (endswith_nested s a b Ha Hb H) in Hba. discriminate.
  - rewrite (endswith_nested s b a Hb Ha H) in Hab. discriminate.
Qed.

(** Every file is of exactly one of the eight kinds of the statistics. *)
Lemma one_kind (f : string) :
  Nat.b2n (GenerateSummaries.has_ext ".ipynb" f)
  + Nat.b2n (GenerateSummaries.has_ext ".py" f)
  + Nat.b2n (GenerateSummaries.has_ext ".md" f)
  + Nat.b2n (GenerateSummaries.is_yaml f)
  + Nat.b2n (GenerateSummaries.has_ext ".tf" f)
  + Nat.b2n (GenerateSummaries.has_ext ".sh" f)
  + Nat.b2n (GenerateSummaries.has_ext ".txt" f)
  + Nat.b2n (GenerateSummaries.is_other f) = 1.
Proof.
  unfold GenerateSummaries.has_ext, GenerateSummaries.is_yaml,
    GenerateSummaries.is_other.
  destruct (PyStr.endswith f ".ipynb") eqn:E1;
    destruct (PyStr.endswith f ".py") eqn:E2;
    destruct (PyStr.endswith f ".md") eqn:E3;
    destruct (PyStr.endswith f ".yaml") eqn:E4;
    destruct (PyStr.endswith f ".yml") eqn:E5;
    destruct (PyStr.endswith f ".tf") eqn:E6;
    destruct (PyStr.endswith f ".sh") eqn:E7;
    destruct (PyStr.endswith f ".txt") eqn:E8;
    try reflexivity;
    exfalso;
    match goal with
    | Ha : PyStr.endswith f ?a = true, Hb : PyStr.endswith f ?b = true |- _ =>
        apply (endings_clash f a b Ha Hb); reflexivity
    end.
Qed.

(** X24: the statistics of a folder add up: the counts of notebooks, of
    Python, markdown, YAML, Terraform, shell and text files and of other
    files sum to the number of files found, since no name has two of the
    endings. *)
Theorem file_statistics_add_up :
  forall all_files : list string,
    List.length (filter (GenerateSummaries.has_ext ".ipynb") all_files)
    + List.length (filter (GenerateSummaries.has_ext ".py") all_files)
    + List.length (filter (GenerateSummaries.has_ext ".md") all_files)
    + List.length (filter GenerateSummaries.is_yaml all_files)
    + List.length (filter (GenerateSummaries.has_ext ".tf") all_files)
    + List.length (filter (GenerateSummaries.has_ext ".sh") all_files)
    + List.length (filter (GenerateSummaries.has_ext ".txt") all_files)
    + List.length (filter GenerateSummaries.is_other all_files)
    = List.length all_files.
Proof.
  induction all_files as [|f files IH]; [reflexivity|].
  pose proof (one_kind f) as H1.
  cbn [filter List.length].
  destruct (GenerateSummaries.has_ext ".ipynb" f);
    destruct (GenerateSummaries.has_ext ".py" f);
    destruct (GenerateSummaries.has_ext ".md" f);
    destruct (GenerateSummaries.is_yaml f);
    destruct (GenerateSummaries.has_ext ".tf" f);
    destruct (GenerateSummaries.has_ext ".sh" f);
    destruct (GenerateSummaries.has_ext ".txt" f);
    destruct (GenerateSummaries.is_other f);
    cbn [Nat.b2n] in H1; cbn [List.length]; lia.
Qed.
